(** * Placementor backend: the learning-plan / daily-plan progression engine

  A shallow embedding of [src/services/learning-plan.service.ts] and
  [src/services/daily-plan.service.ts] over the relational state described
  by [prisma/schema.prisma], followed by the properties of the progression
  state machine (plan creation, unlocking, completion gating, progress
  recomputation, duration changes). *)

From Stdlib Require Import ZArith String List Bool Lia Permutation Sorted.
From Stdlib Require Import Floats.SpecFloat.
From Stdlib Require Import Numbers.DecimalString.
Import ListNotations.
Local Open Scope string_scope.
Local Open Scope Z_scope.

(* ===================================================================== *)
(** ** JavaScript numbers

  Values read from and written to Prisma [Int] columns are 32-bit integers;
  the arithmetic the services perform on them ([day + 1], [Math.min],
  comparisons) is exact on doubles below 2^53, so they are kept in [Z].
  The one computation that leaves the integers is the progress percentage
  [Math.round((completedDaysCount / totalDays) * 100)]: it is carried out
  in IEEE-754 binary64 with round-to-nearest-even, for which [SpecFloat]
  is the executable reference. *)

Module Number.

Definition prec : Z := 53.
Definition emax : Z := 1024.

(** The double nearest to an integer. *)
Definition of_Z (n : Z) : spec_float := binary_normalize prec emax n 0 false.

Definition div (x y : spec_float) : spec_float := SFdiv prec emax x y.
Definition mul (x y : spec_float) : spec_float := SFmul prec emax x y.

(** The exact integer [floor (v + 1/2)] of a finite double [v = ±m·2^e]
    with [e < 0]. *)
Definition floor_half_up (s : bool) (m : positive) (e : Z) : Z :=
  (2 * (if s then Z.neg m else Z.pos m) + 2 ^ (- e)) / 2 ^ (1 - e).

End Number.

Module Math.

(** [Math.round]: the integral double closest to [x], ties towards
    +infinity; NaN, infinities and zeros are returned unchanged and a
    result of zero keeps the sign of the argument. *)
Definition round (x : spec_float) : spec_float :=
  match x with
  | S754_finite s m e =>
      if 0 <=? e then x
      else match Number.floor_half_up s m e with
           | Z0 => S754_zero s
           | n => Number.of_Z n
           end
  | _ => x
  end.

(** [Math.min] on integer-valued numbers. *)
Definition min (a b : Z) : Z := Z.min a b.

End Math.

(** [Math.round((completedDaysCount / totalDays) * 100)], in the order the
    source evaluates it: quotient first, then the product. *)
Definition progress_of (completedDaysCount totalDays : Z) : spec_float :=
  Math.round
    (Number.mul (Number.div (Number.of_Z completedDaysCount) (Number.of_Z totalDays))
                (Number.of_Z 100)).

(** What the specification writes, [round(100 × completed / duration)], read
    over the rationals with halves rounded up. *)
Definition spec_progress (completedDays durationDays : Z) : Z :=
  (200 * completedDays + durationDays) / (2 * durationDays).

(** Template-literal rendering of an integer-valued number. *)
Definition string_of_Z (n : Z) : string := NilZero.string_of_int (Z.to_int n).

(* ===================================================================== *)
(** ** Data model ([prisma/schema.prisma])

  Primary keys are uuid strings in the schema; only their equality is ever
  used, so they are opaque keys here.  Columns no service of the engine
  reads (titles, urls, timestamps, dates) are left out. *)

Definition Id := nat.
Bind Scope nat_scope with Id.

Inductive Track := SERVICE_BASED | PRODUCT_BASED | FAANG | BIG_4 | GENERIC.

Module LearningPlan.
Record t := mk {
  id : Id;
  userId : Id;
  track : Track;
  durationDays : Z;
  isActive : bool;
  currentDay : Z;
  progress : spec_float
}.

(** A Prisma [data] object: an absent ([undefined]) field is not written. *)
Record UpdateInput := data {
  set_track : option Track;
  set_durationDays : option Z;
  set_isActive : option bool;
  set_currentDay : option Z;
  set_progress : option spec_float
}.

Definition or_keep {A} (new : option A) (old : A) : A :=
  match new with Some v => v | None => old end.

Definition apply (u : UpdateInput) (p : t) : t :=
  mk (id p) (userId p)
     (or_keep (set_track u) (track p))
     (or_keep (set_durationDays u) (durationDays p))
     (or_keep (set_isActive u) (isActive p))
     (or_keep (set_currentDay u) (currentDay p))
     (or_keep (set_progress u) (progress p)).
End LearningPlan.

Module DailyPlan.
Record t := mk {
  id : Id;
  learningPlanId : Id;
  dayNumber : Z;
  isUnlocked : bool;
  isCompleted : bool;
  mockInterviewId : option Id
}.

Record UpdateInput := data {
  set_isUnlocked : option bool;
  set_isCompleted : option bool
}.

Definition apply (u : UpdateInput) (d : t) : t :=
  mk (id d) (learningPlanId d) (dayNumber d)
     (LearningPlan.or_keep (set_isUnlocked u) (isUnlocked d))
     (LearningPlan.or_keep (set_isCompleted u) (isCompleted d))
     (mockInterviewId d).
End DailyPlan.

Module Resource.
Record t := mk {
  id : Id;
  learningPlanDayId : option Id;
  practicePlanDayId : option Id
}.
End Resource.

Module UserResource.
Record t := mk { id : Id; userId : Id; resourceId : Id }.
End UserResource.

Module Quiz.
Record t := mk { id : Id; dailyPlanId : Id }.
End Quiz.

Module QuizAttempt.
Record t := mk { id : Id; userId : Id; quizId : Id; isCompleted : bool }.
End QuizAttempt.

Module MockInterview.
Record t := mk { id : Id; userId : Id; isCompleted : bool }.
End MockInterview.

(** The database: one list of rows per table, in insertion order, and the
    supply from which [@default(uuid())] draws the next primary key. *)
Record Db := mkDb {
  learningPlans : list LearningPlan.t;
  dailyPlans : list DailyPlan.t;
  resources : list Resource.t;
  userResources : list UserResource.t;
  quizzes : list Quiz.t;
  quizAttempts : list QuizAttempt.t;
  mockInterviews : list MockInterview.t;
  uuidSeed : nat
}.

Definition with_learningPlans (l : list LearningPlan.t) (db : Db) : Db :=
  mkDb l (dailyPlans db) (resources db) (userResources db) (quizzes db)
       (quizAttempts db) (mockInterviews db) (uuidSeed db).

Definition with_dailyPlans (l : list DailyPlan.t) (db : Db) : Db :=
  mkDb (learningPlans db) l (resources db) (userResources db) (quizzes db)
       (quizAttempts db) (mockInterviews db) (uuidSeed db).

Definition with_uuidSeed (n : nat) (db : Db) : Db :=
  mkDb (learningPlans db) (dailyPlans db) (resources db) (userResources db)
       (quizzes db) (quizAttempts db) (mockInterviews db) n.

(* ===================================================================== *)
(** ** Exceptions and the effect of a service call

    A call runs against a database and yields a value or a thrown exception
    together with the database it leaves behind. *)

Inductive Exn :=
| ApiError (statusCode : Z) (message : string)
| PrismaClientKnownRequestError (code : string)
| TypeError.

Inductive Outcome (A : Type) :=
| Ok (a : A)
| Throw (e : Exn).
Arguments Ok {A} a.
Arguments Throw {A} e.

Definition Prisma (A : Type) : Type := Db -> Outcome A * Db.

Definition ret {A} (a : A) : Prisma A := fun db => (Ok a, db).

Definition throw {A} (e : Exn) : Prisma A := fun db => (Throw e, db).

Definition bind {A B} (m : Prisma A) (k : A -> Prisma B) : Prisma B :=
  fun db =>
    match m db with
    | (Ok a, db') => k a db'
    | (Throw e, db') => (Throw e, db')
    end.

Notation "x <- m ;; k" := (bind m (fun x => k))
  (at level 61, m at next level, right associativity).
Notation "m ;;; k" := (bind m (fun _ => k))
  (at level 61, right associativity).

(** [prisma.$transaction(async tx => ...)]: the writes of the callback are
    kept when it returns and discarded when it throws. *)
Definition transaction {A} (body : Prisma A) : Prisma A :=
  fun db =>
    match body db with
    | (Ok a, db') => (Ok a, db')
    | (Throw e, _) => (Throw e, db)
    end.

(** [try { ... } catch (error) { if (error instanceof ApiError) throw error;
    throw new ApiError(500, message) }]. *)
Definition rethrow {A} (message : string) (body : Prisma A) : Prisma A :=
  fun db =>
    match body db with
    | (Throw (ApiError c m), db') => (Throw (ApiError c m), db')
    | (Throw _, db') => (Throw (ApiError 500 message), db')
    | r => r
    end.

(** [try { ... } catch (error) { throw new ApiError(500, message) }]. *)
Definition catch_all {A} (message : string) (body : Prisma A) : Prisma A :=
  fun db =>
    match body db with
    | (Throw _, db') => (Throw (ApiError 500 message), db')
    | r => r
    end.

(* ===================================================================== *)
(** ** The Prisma client calls the services make

  Constraints come from the schema: [DailyPlan] has
  [@@unique([learningPlanId, dayNumber])] and a required relation to
  [LearningPlan]; deleting a daily plan cascades to its quiz (and the
  quiz's attempts) and nulls the day references of resources. *)

Module prisma.

Definition uuid : Prisma Id :=
  fun db => (Ok (uuidSeed db), with_uuidSeed (S (uuidSeed db)) db).

(** *** learningPlan *)

Definition learningPlan_findUnique (id : Id) : Prisma (option LearningPlan.t) :=
  fun db =>
    (Ok (find (fun p => Nat.eqb (LearningPlan.id p) id) (learningPlans db)), db).

Definition learningPlan_create (userId : Id) (track : Track) (durationDays : Z)
    (isActive : bool) (currentDay : Z) (progress : spec_float)
  : Prisma LearningPlan.t :=
  id <- uuid ;;
  fun db =>
    let row := LearningPlan.mk id userId track durationDays isActive currentDay progress in
    (Ok row, with_learningPlans (learningPlans db ++ [row]) db).

Definition learningPlan_update (id : Id) (u : LearningPlan.UpdateInput)
  : Prisma LearningPlan.t :=
  fun db =>
    match find (fun p => Nat.eqb (LearningPlan.id p) id) (learningPlans db) with
    | None => (Throw (PrismaClientKnownRequestError "P2025"), db)
    | Some p =>
        (Ok (LearningPlan.apply u p),
         with_learningPlans
           (map (fun x => if Nat.eqb (LearningPlan.id x) id
                          then LearningPlan.apply u x else x)
                (learningPlans db)) db)
    end.

(** *** dailyPlan *)

Definition dailyPlan_findUnique (id : Id) : Prisma (option DailyPlan.t) :=
  fun db =>
    (Ok (find (fun d => Nat.eqb (DailyPlan.id d) id) (dailyPlans db)), db).

(** [where: { learningPlanId, dayNumber }] *)
Definition on_day (learningPlanId : Id) (dayNumber : Z) (d : DailyPlan.t) : bool :=
  Nat.eqb (DailyPlan.learningPlanId d) learningPlanId
  && (DailyPlan.dayNumber d =? dayNumber).

Definition dailyPlan_findFirst (learningPlanId : Id) (dayNumber : Z)
  : Prisma (option DailyPlan.t) :=
  fun db => (Ok (find (on_day learningPlanId dayNumber) (dailyPlans db)), db).

(** [findMany({ where: { learningPlanId }, orderBy: { dayNumber: 'asc' } })] *)
Fixpoint insert_by_day (d : DailyPlan.t) (l : list DailyPlan.t) : list DailyPlan.t :=
  match l with
  | [] => [d]
  | x :: r =>
      if DailyPlan.dayNumber d <? DailyPlan.dayNumber x
      then d :: l else x :: insert_by_day d r
  end.

Definition orderBy_dayNumber_asc (l : list DailyPlan.t) : list DailyPlan.t :=
  fold_right insert_by_day [] l.

Definition of_plan (learningPlanId : Id) (d : DailyPlan.t) : bool :=
  Nat.eqb (DailyPlan.learningPlanId d) learningPlanId.

Definition dailyPlan_findMany (learningPlanId : Id) : Prisma (list DailyPlan.t) :=
  fun db =>
    (Ok (orderBy_dayNumber_asc (filter (of_plan learningPlanId) (dailyPlans db))), db).

Definition dailyPlan_create (learningPlanId : Id) (dayNumber : Z)
    (isUnlocked isCompleted : bool) : Prisma DailyPlan.t :=
  fun db =>
    if existsb (on_day learningPlanId dayNumber) (dailyPlans db)
    then (Throw (PrismaClientKnownRequestError "P2002"), db)
    else if negb (existsb (fun p => Nat.eqb (LearningPlan.id p) learningPlanId)
                          (learningPlans db))
    then (Throw (PrismaClientKnownRequestError "P2003"), db)
    else
      let row := DailyPlan.mk (uuidSeed db) learningPlanId dayNumber
                              isUnlocked isCompleted None in
      (Ok row, with_uuidSeed (S (uuidSeed db))
                 (with_dailyPlans (dailyPlans db ++ [row]) db)).

Definition dailyPlan_update (id : Id) (u : DailyPlan.UpdateInput)
  : Prisma DailyPlan.t :=
  fun db =>
    match find (fun d => Nat.eqb (DailyPlan.id d) id) (dailyPlans db) with
    | None => (Throw (PrismaClientKnownRequestError "P2025"), db)
    | Some d =>
        (Ok (DailyPlan.apply u d),
         with_dailyPlans
           (map (fun x => if Nat.eqb (DailyPlan.id x) id
                          then DailyPlan.apply u x else x)
                (dailyPlans db)) db)
    end.

(** [updateMany({ where: { learningPlanId, dayNumber }, data })] *)
Definition dailyPlan_updateMany (learningPlanId : Id) (dayNumber : Z)
    (u : DailyPlan.UpdateInput) : Prisma unit :=
  fun db =>
    (Ok tt,
     with_dailyPlans
       (map (fun x => if on_day learningPlanId dayNumber x
                      then DailyPlan.apply u x else x)
            (dailyPlans db)) db).

(** [count({ where: { learningPlanId, isCompleted: true } })] *)
Definition completed_in (learningPlanId : Id) (d : DailyPlan.t) : bool :=
  of_plan learningPlanId d && DailyPlan.isCompleted d.

Definition dailyPlan_count (learningPlanId : Id) : Prisma Z :=
  fun db =>
    (Ok (Z.of_nat (length (filter (completed_in learningPlanId) (dailyPlans db)))), db).

(** [deleteMany({ where: { learningPlanId, dayNumber: { gt } } })] with the
    referential actions of the schema. *)
Definition after_day (learningPlanId : Id) (gt : Z) (d : DailyPlan.t) : bool :=
  of_plan learningPlanId d && (gt <? DailyPlan.dayNumber d).

Definition mem_id (i : Id) (l : list Id) : bool := existsb (Nat.eqb i) l.

Definition null_if_deleted (gone : list Id) (r : option Id) : option Id :=
  match r with
  | Some i => if mem_id i gone then None else Some i
  | None => None
  end.

Definition dailyPlan_deleteMany (learningPlanId : Id) (gt : Z) : Prisma unit :=
  fun db =>
    let gone := map DailyPlan.id (filter (after_day learningPlanId gt) (dailyPlans db)) in
    let deadQuiz :=
      map Quiz.id (filter (fun q => mem_id (Quiz.dailyPlanId q) gone) (quizzes db)) in
    (Ok tt,
     mkDb (learningPlans db)
          (filter (fun d => negb (after_day learningPlanId gt d)) (dailyPlans db))
          (map (fun r => Resource.mk (Resource.id r)
                           (null_if_deleted gone (Resource.learningPlanDayId r))
                           (null_if_deleted gone (Resource.practicePlanDayId r)))
               (resources db))
          (userResources db)
          (filter (fun q => negb (mem_id (Quiz.dailyPlanId q) gone)) (quizzes db))
          (filter (fun a => negb (mem_id (QuizAttempt.quizId a) deadQuiz))
                  (quizAttempts db))
          (mockInterviews db)
          (uuidSeed db)).

(** *** includes and the other tables *)

Definition include_learningPlan (d : DailyPlan.t) (db : Db) : option LearningPlan.t :=
  find (fun p => Nat.eqb (LearningPlan.id p) (DailyPlan.learningPlanId d))
       (learningPlans db).

Definition opt_is (i : Id) (r : option Id) : bool :=
  match r with Some j => Nat.eqb j i | None => false end.

Definition include_learningResources (d : DailyPlan.t) (db : Db) : list Resource.t :=
  filter (fun r => opt_is (DailyPlan.id d) (Resource.learningPlanDayId r)) (resources db).

Definition include_practiceResources (d : DailyPlan.t) (db : Db) : list Resource.t :=
  filter (fun r => opt_is (DailyPlan.id d) (Resource.practicePlanDayId r)) (resources db).

Definition include_quiz (d : DailyPlan.t) (db : Db) : option Quiz.t :=
  find (fun q => Nat.eqb (Quiz.dailyPlanId q) (DailyPlan.id d)) (quizzes db).

(** [attempts: { where: { userId } }] *)
Definition include_attempts (q : Quiz.t) (userId : Id) (db : Db) : list QuizAttempt.t :=
  filter (fun a => Nat.eqb (QuizAttempt.quizId a) (Quiz.id q)
                   && Nat.eqb (QuizAttempt.userId a) userId)
         (quizAttempts db).

(** [mockInterview: { where: { userId } }] *)
Definition include_mockInterview (d : DailyPlan.t) (userId : Id) (db : Db)
  : option MockInterview.t :=
  match DailyPlan.mockInterviewId d with
  | None => None
  | Some mid =>
      find (fun m => Nat.eqb (MockInterview.id m) mid
                     && Nat.eqb (MockInterview.userId m) userId)
           (mockInterviews db)
  end.

Definition read {A} (q : Db -> A) : Prisma A := fun db => (Ok (q db), db).

(** [userResource.findMany({ where: { userId, resourceId: { in } } })] *)
Definition userResource_where (userId : Id) (resourceIds : list Id) (db : Db)
  : list UserResource.t :=
  filter (fun ur => Nat.eqb (UserResource.userId ur) userId
                    && mem_id (UserResource.resourceId ur) resourceIds)
         (userResources db).

Definition userResource_findMany (userId : Id) (resourceIds : list Id)
  : Prisma (list UserResource.t) :=
  read (userResource_where userId resourceIds).

End prisma.

(** JavaScript truthiness of an optional number: [undefined] and [0] are
    falsy. *)
Definition truthy (n : option Z) : bool :=
  match n with
  | Some v => negb (v =? 0)
  | None => false
  end.

(** [for (let day = lo; day <= hi; day++) { await body(day) }] *)
Fixpoint for_days (n : nat) (day : Z) (body : Z -> Prisma unit) : Prisma unit :=
  match n with
  | O => ret tt
  | S n' => body day ;;; for_days n' (day + 1) body
  end.

Definition for_each_day (lo hi : Z) (body : Z -> Prisma unit) : Prisma unit :=
  for_days (Z.to_nat (hi - lo + 1)) lo body.

(** A learning plan returned with [include: { dailyPlans: { orderBy:
    { dayNumber: 'asc' } } }]. *)
Definition PlanWithDays : Type := LearningPlan.t * list DailyPlan.t.

Definition findUnique_with_days (id : Id) : Prisma (option PlanWithDays) :=
  plan <- prisma.learningPlan_findUnique id ;;
  match plan with
  | None => ret None
  | Some p => days <- prisma.dailyPlan_findMany id ;; ret (Some (p, days))
  end.

(* ===================================================================== *)
(** ** [src/services/learning-plan.service.ts] *)

Module LearningPlanService.

Definition populateDailyPlans (learningPlanId : Id) (track : Track) : Prisma unit :=
  catch_all "Error populating daily plans with resources"
    (dailyPlans <- prisma.dailyPlan_findMany learningPlanId ;;
     ret tt).

Definition createLearningPlan (userId : Id) (track : Track) (durationDays : Z)
  : Prisma (option PlanWithDays) :=
  rethrow "Error creating learning plan"
    (learningPlan <-
       transaction
         (newLearningPlan <-
            prisma.learningPlan_create userId track durationDays true 1 (Number.of_Z 0) ;;
          for_each_day 1 durationDays
            (fun day =>
               prisma.dailyPlan_create (LearningPlan.id newLearningPlan) day
                                       (day =? 1) false ;;;
               ret tt) ;;;
          findUnique_with_days (LearningPlan.id newLearningPlan)) ;;
     match learningPlan with
     | None => throw (ApiError 500 "Failed to create learning plan")
     | Some (learningPlan, _) =>
         populateDailyPlans (LearningPlan.id learningPlan) track ;;;
         findUnique_with_days (LearningPlan.id learningPlan)
     end).

(** [Partial<{ track; durationDays; isActive }>] *)
Record UpdateData := updateData {
  track : option Track;
  durationDays : option Z;
  isActive : option bool
}.

Definition data_of (u : UpdateData) : LearningPlan.UpdateInput :=
  LearningPlan.data (track u) (durationDays u) (isActive u) None None.

Definition handleDurationChange (learningPlanId : Id) (oldDuration newDuration : Z)
    (updateData : UpdateData) : Prisma (option PlanWithDays) :=
  catch_all "Error updating learning plan duration"
    (transaction
       (updatedPlan <- prisma.learningPlan_update learningPlanId (data_of updateData) ;;
        (if oldDuration <? newDuration then
           for_each_day (oldDuration + 1) newDuration
             (fun day =>
                prisma.dailyPlan_create learningPlanId day false false ;;;
                ret tt)
         else if newDuration <? oldDuration then
           prisma.dailyPlan_deleteMany learningPlanId newDuration
         else ret tt) ;;;
        findUnique_with_days learningPlanId)).

Definition updateLearningPlan (id userId : Id) (updateData : UpdateData)
  : Prisma (option PlanWithDays) :=
  rethrow "Error updating learning plan"
    (existingPlan <- prisma.learningPlan_findUnique id ;;
     match existingPlan with
     | None => throw (ApiError 404 "Learning plan not found")
     | Some existingPlan =>
         if negb (Nat.eqb (LearningPlan.userId existingPlan) userId) then
           throw (ApiError 403 "You do not have permission to update this learning plan")
         else if truthy (durationDays updateData)
                 && negb (LearningPlan.or_keep (durationDays updateData) 0
                          =? LearningPlan.durationDays existingPlan) then
           handleDurationChange id (LearningPlan.durationDays existingPlan)
             (LearningPlan.or_keep (durationDays updateData) 0) updateData
         else
           updatedLearningPlan <- prisma.learningPlan_update id (data_of updateData) ;;
           days <- prisma.dailyPlan_findMany id ;;
           ret (Some (updatedLearningPlan, days))
     end).

(** The module-private [unlockDailyPlan(learningPlanId, dayNumber)]. *)
Definition unlockDailyPlan (learningPlanId : Id) (dayNumber : Z) : Prisma unit :=
  catch_all "Error unlocking daily plan"
    (prisma.dailyPlan_updateMany learningPlanId dayNumber
       (DailyPlan.data (Some true) None)).

(** [Partial<{ currentDay; progress }>] *)
Record ProgressData := progressData {
  currentDay : option Z;
  progress : option spec_float
}.

Definition updateLearningPlanProgress (id userId : Id) (progressData : ProgressData)
  : Prisma PlanWithDays :=
  rethrow "Error updating learning plan progress"
    (existingPlan <- findUnique_with_days id ;;
     match existingPlan with
     | None => throw (ApiError 404 "Learning plan not found")
     | Some (existingPlan, _) =>
         if negb (Nat.eqb (LearningPlan.userId existingPlan) userId) then
           throw (ApiError 403 "You do not have permission to update this learning plan")
         else if match currentDay progressData with
                 | Some c => (c <? 1) || (LearningPlan.durationDays existingPlan <? c)
                 | None => false
                 end then
           throw (ApiError 400
                    ("Current day must be between 1 and "
                     ++ string_of_Z (LearningPlan.durationDays existingPlan)))
         else
           (if truthy (currentDay progressData)
               && (LearningPlan.currentDay existingPlan
                   <? LearningPlan.or_keep (currentDay progressData) 0) then
              unlockDailyPlan id (LearningPlan.or_keep (currentDay progressData) 0)
            else ret tt) ;;;
           updatedLearningPlan <-
             prisma.learningPlan_update id
               (LearningPlan.data None None None
                  (currentDay progressData) (progress progressData)) ;;
           days <- prisma.dailyPlan_findMany id ;;
           ret (updatedLearningPlan, days)
     end).

End LearningPlanService.

(* ===================================================================== *)
(** ** [src/services/daily-plan.service.ts] *)

Module DailyPlanService.

Definition unlockDailyPlan (id userId : Id) : Prisma DailyPlan.t :=
  rethrow "Error unlocking daily plan"
    (dailyPlan <- prisma.dailyPlan_findUnique id ;;
     match dailyPlan with
     | None => throw (ApiError 404 "Daily plan not found")
     | Some dailyPlan =>
         learningPlan <- prisma.read (prisma.include_learningPlan dailyPlan) ;;
         match learningPlan with
         | None => throw TypeError
         | Some learningPlan =>
             if negb (Nat.eqb (LearningPlan.userId learningPlan) userId) then
               throw (ApiError 403 "You do not have permission to update this daily plan")
             else
               (if 1 <? DailyPlan.dayNumber dailyPlan then
                  previousDay <-
                    prisma.dailyPlan_findFirst (DailyPlan.learningPlanId dailyPlan)
                                               (DailyPlan.dayNumber dailyPlan - 1) ;;
                  match previousDay with
                  | Some previousDay =>
                      if negb (DailyPlan.isCompleted previousDay) then
                        throw (ApiError 400
                          "Cannot unlock this day until the previous day is completed")
                      else ret tt
                  | None => ret tt
                  end
                else ret tt) ;;;
               prisma.dailyPlan_update id (DailyPlan.data (Some true) None)
         end
     end).

(** The three completion gates, as [completeDailyPlan] computes them from
    the day it loaded with its includes. *)
Definition allResourcesCompleted (dailyPlan : DailyPlan.t) (userId : Id) (db : Db) : bool :=
  let learningResourceIds :=
    map Resource.id (prisma.include_learningResources dailyPlan db) in
  let practiceResourceIds :=
    map Resource.id (prisma.include_practiceResources dailyPlan db) in
  let completedResources :=
    prisma.userResource_where userId (learningResourceIds ++ practiceResourceIds) db in
  Nat.eqb (length completedResources)
          (length learningResourceIds + length practiceResourceIds).

Definition quizCompleted (dailyPlan : DailyPlan.t) (userId : Id) (db : Db) : bool :=
  match prisma.include_quiz dailyPlan db with
  | None => true
  | Some quiz =>
      let attempts := prisma.include_attempts quiz userId db in
      Nat.ltb 0 (length attempts) && existsb QuizAttempt.isCompleted attempts
  end.

Definition interviewCompleted (dailyPlan : DailyPlan.t) (userId : Id) (db : Db) : bool :=
  match prisma.include_mockInterview dailyPlan userId db with
  | None => true
  | Some mockInterview => MockInterview.isCompleted mockInterview
  end.

Definition completeDailyPlan (id userId : Id) : Prisma DailyPlan.t :=
  rethrow "Error completing daily plan"
    (dailyPlan <- prisma.dailyPlan_findUnique id ;;
     match dailyPlan with
     | None => throw (ApiError 404 "Daily plan not found")
     | Some dailyPlan =>
         learningPlan <- prisma.read (prisma.include_learningPlan dailyPlan) ;;
         match learningPlan with
         | None => throw TypeError
         | Some learningPlan =>
             if negb (Nat.eqb (LearningPlan.userId learningPlan) userId) then
               throw (ApiError 403 "You do not have permission to update this daily plan")
             else if negb (DailyPlan.isUnlocked dailyPlan) then
               throw (ApiError 400 "Cannot complete a locked daily plan")
             else
               allResourcesCompleted <- prisma.read (allResourcesCompleted dailyPlan userId) ;;
               quizCompleted <- prisma.read (quizCompleted dailyPlan userId) ;;
               interviewCompleted <- prisma.read (interviewCompleted dailyPlan userId) ;;
               if negb allResourcesCompleted || negb quizCompleted
                  || negb interviewCompleted then
                 throw (ApiError 400
                          "All resources, quizzes, and interviews must be completed")
               else
                 transaction
                   (completed <-
                      prisma.dailyPlan_update id (DailyPlan.data None (Some true)) ;;
                    (if DailyPlan.dayNumber dailyPlan
                        <? LearningPlan.durationDays learningPlan then
                       nextDay <-
                         prisma.dailyPlan_findFirst (DailyPlan.learningPlanId dailyPlan)
                                                    (DailyPlan.dayNumber dailyPlan + 1) ;;
                       match nextDay with
                       | Some nextDay =>
                           prisma.dailyPlan_update (DailyPlan.id nextDay)
                             (DailyPlan.data (Some true) None) ;;;
                           ret tt
                       | None => ret tt
                       end
                     else ret tt) ;;;
                    let totalDays := LearningPlan.durationDays learningPlan in
                    completedDaysCount <-
                      prisma.dailyPlan_count (DailyPlan.learningPlanId dailyPlan) ;;
                    let progress := progress_of completedDaysCount totalDays in
                    let currentDay := Math.min (DailyPlan.dayNumber dailyPlan + 1) totalDays in
                    prisma.learningPlan_update (DailyPlan.learningPlanId dailyPlan)
                      (LearningPlan.data None None
                         (Some (completedDaysCount <? totalDays))
                         (Some currentDay) (Some progress)) ;;;
                    ret completed)
         end
     end).

End DailyPlanService.

(* ===================================================================== *)
(** ** The states the engine's calls leave behind *)

(** [update({ where: { id }, data })] on the rows of a table. *)
Definition mark (id : Id) (u : DailyPlan.UpdateInput) (l : list DailyPlan.t)
  : list DailyPlan.t :=
  map (fun x => if Nat.eqb (DailyPlan.id x) id then DailyPlan.apply u x else x) l.

Definition completedDaysCount_of (learningPlanId : Id) (l : list DailyPlan.t) : Z :=
  Z.of_nat (length (filter (prisma.completed_in learningPlanId) l)).

(** The daily plans after the first two writes of the completion
    transaction: the day is completed, the next day (when there is one) is
    unlocked. *)
Definition days_after_completion (dailyPlan : DailyPlan.t) (learningPlan : LearningPlan.t)
    (l : list DailyPlan.t) : list DailyPlan.t :=
  let l1 := mark (DailyPlan.id dailyPlan) (DailyPlan.data None (Some true)) l in
  if DailyPlan.dayNumber dailyPlan <? LearningPlan.durationDays learningPlan then
    match find (prisma.on_day (DailyPlan.learningPlanId dailyPlan)
                              (DailyPlan.dayNumber dailyPlan + 1)) l1 with
    | Some nextDay => mark (DailyPlan.id nextDay) (DailyPlan.data (Some true) None) l1
    | None => l1
    end
  else l1.

Definition plan_after_completion (dailyPlan : DailyPlan.t) (learningPlan : LearningPlan.t)
    (l : list DailyPlan.t) : LearningPlan.UpdateInput :=
  let totalDays := LearningPlan.durationDays learningPlan in
  let n := completedDaysCount_of (DailyPlan.learningPlanId dailyPlan)
             (days_after_completion dailyPlan learningPlan l) in
  LearningPlan.data None None (Some (n <? totalDays))
    (Some (Math.min (DailyPlan.dayNumber dailyPlan + 1) totalDays))
    (Some (progress_of n totalDays)).

Definition state_after_completion (dailyPlan : DailyPlan.t) (learningPlan : LearningPlan.t)
    (db : Db) : Db :=
  with_learningPlans
    (map (fun x => if Nat.eqb (LearningPlan.id x) (DailyPlan.learningPlanId dailyPlan)
                   then LearningPlan.apply
                          (plan_after_completion dailyPlan learningPlan (dailyPlans db)) x
                   else x)
         (learningPlans db))
    (with_dailyPlans (days_after_completion dailyPlan learningPlan (dailyPlans db)) db).

(** The three resource/quiz/interview gates taken together. *)
Definition gates_open (dailyPlan : DailyPlan.t) (userId : Id) (db : Db) : bool :=
  DailyPlanService.allResourcesCompleted dailyPlan userId db
  && DailyPlanService.quizCompleted dailyPlan userId db
  && DailyPlanService.interviewCompleted dailyPlan userId db.



(** The days of a plan, as stored. *)
Definition days_of (learningPlanId : Id) (db : Db) : list DailyPlan.t :=
  filter (prisma.of_plan learningPlanId) (dailyPlans db).

Definition day_of (learningPlanId : Id) (dayNumber : Z) (db : Db) : option DailyPlan.t :=
  find (prisma.on_day learningPlanId dayNumber) (dailyPlans db).

Definition plan_of (id : Id) (db : Db) : option LearningPlan.t :=
  find (fun p => Nat.eqb (LearningPlan.id p) id) (learningPlans db).

Definition daily_of (id : Id) (db : Db) : option DailyPlan.t :=
  find (fun d => Nat.eqb (DailyPlan.id d) id) (dailyPlans db).




Definition plans_after_update (id : Id) (u : LearningPlan.UpdateInput)
    (l : list LearningPlan.t) : list LearningPlan.t :=
  map (fun x => if Nat.eqb (LearningPlan.id x) id then LearningPlan.apply u x else x) l.



(** The gate of [unlockDailyPlan]: a day after the first whose previous day
    is stored and not completed stays locked. *)
Definition previous_day_open (dailyPlan : DailyPlan.t) (db : Db) : bool :=
  (1 <? DailyPlan.dayNumber dailyPlan)
  && match day_of (DailyPlan.learningPlanId dailyPlan)
                  (DailyPlan.dayNumber dailyPlan - 1) db with
     | Some previousDay => negb (DailyPlan.isCompleted previousDay)
     | None => false
     end.

Definition currentDay_out_of_range (progressData : LearningPlanService.ProgressData)
    (existingPlan : LearningPlan.t) : bool :=
  match LearningPlanService.currentDay progressData with
  | Some c => (c <? 1) || (LearningPlan.durationDays existingPlan <? c)
  | None => false
  end.

Definition moves_forward (progressData : LearningPlanService.ProgressData)
    (existingPlan : LearningPlan.t) : bool :=
  truthy (LearningPlanService.currentDay progressData)
  && (LearningPlan.currentDay existingPlan
      <? LearningPlan.or_keep (LearningPlanService.currentDay progressData) 0).

Definition progress_input (progressData : LearningPlanService.ProgressData)
  : LearningPlan.UpdateInput :=
  LearningPlan.data None None None
    (LearningPlanService.currentDay progressData)
    (LearningPlanService.progress progressData).

Definition state_after_progress (id : Id) (progressData : LearningPlanService.ProgressData)
    (existingPlan : LearningPlan.t) (db : Db) : Db :=
  with_learningPlans
    (plans_after_update id (progress_input progressData) (learningPlans db))
    (if moves_forward progressData existingPlan then
       with_dailyPlans
         (map (fun x =>
                 if prisma.on_day id
                      (LearningPlan.or_keep (LearningPlanService.currentDay progressData) 0) x
                 then DailyPlan.apply (DailyPlan.data (Some true) None) x else x)
              (dailyPlans db)) db
     else db).

(* ===================================================================== *)
(** ** The completion gates, one by one *)

Inductive Gate := LockState | ResourcesGate | QuizGate | InterviewGate.

Definition Gate_eqb (a b : Gate) : bool :=
  match a, b with
  | LockState, LockState | ResourcesGate, ResourcesGate
  | QuizGate, QuizGate | InterviewGate, InterviewGate => true
  | _, _ => false
  end.

Definition gate_fails (g : Gate) (dailyPlan : DailyPlan.t) (userId : Id) (db : Db) : bool :=
  match g with
  | LockState => negb (DailyPlan.isUnlocked dailyPlan)
  | ResourcesGate => negb (DailyPlanService.allResourcesCompleted dailyPlan userId db)
  | QuizGate => negb (DailyPlanService.quizCompleted dailyPlan userId db)
  | InterviewGate => negb (DailyPlanService.interviewCompleted dailyPlan userId db)
  end.

(** Exactly the gate [g] fails. *)
Definition only_gate_failing (g : Gate) (dailyPlan : DailyPlan.t) (userId : Id) (db : Db)
  : bool :=
  forallb (fun g' => Bool.eqb (gate_fails g' dailyPlan userId db) (Gate_eqb g' g))
          [LockState; ResourcesGate; QuizGate; InterviewGate].

Definition locked_error : Exn :=
  ApiError 400 "Cannot complete a locked daily plan".

Definition incomplete_error : Exn :=
  ApiError 400 "All resources, quizzes, and interviews must be completed".

(* ===================================================================== *)
(** ** Scenarios

    States reached from the empty database through the services, used to
    exercise the statements below.  The first [uuid()] is 0, so the first
    plan created has key 0 and its day [k] has key [k]. *)

Definition empty : Db := mkDb [] [] [] [] [] [] [] 0.

Definition after {A} (call : Prisma A) (db : Db) : Db := snd (call db).

Definition learner : Id := 7.

Definition new_plan (durationDays : Z) : Db :=
  after (LearningPlanService.createLearningPlan learner GENERIC durationDays) empty.

Definition complete_days (ids : list Id) (db : Db) : Db :=
  fold_left (fun db id => after (DailyPlanService.completeDailyPlan id learner) db) ids db.

Definition set_currentDay (c : Z) (db : Db) : Db :=
  after (LearningPlanService.updateLearningPlanProgress 0 learner
           (LearningPlanService.progressData (Some c) None)) db.

Definition set_durationDays (d : Z) : LearningPlanService.UpdateData :=
  LearningPlanService.updateData None (Some d) None.

Definition two_days : Db := Eval vm_compute in new_plan 2.
Definition three_days : Db := Eval vm_compute in new_plan 3.

(** Forty days, the first twenty-two completed in order. *)
Definition forty_days_22_done : Db :=
  Eval vm_compute in complete_days (seq 1 22) (new_plan 40).



(** Five days with the learner moved to the last one. *)
Definition five_days_at_5 : Db := Eval vm_compute in set_currentDay 5 (new_plan 5).

(** A one-day plan with one learning resource the learner has not
    completed, and a one-day plan with a quiz the learner has not attempted. *)
Definition one_day_open_resource : Db :=
  let db := new_plan 1 in
  mkDb (learningPlans db) (dailyPlans db) [Resource.mk 50 (Some 1%nat) None]
       [] [] [] [] (uuidSeed db).

Definition one_day_open_quiz : Db :=
  let db := new_plan 1 in
  mkDb (learningPlans db) (dailyPlans db) [] [] [Quiz.mk 60 1] [] [] (uuidSeed db).

(* ===================================================================== *)
(** ** Statements of the specification that are compared with the code *)

(** "The error returned identifies the specific gate": the gate can be read
    off the exception whenever exactly one gate fails. *)
Definition error_identifies_gate : Prop :=
  exists identify : Exn -> Gate,
    forall id userId db dailyPlan learningPlan g,
      daily_of id db = Some dailyPlan ->
      prisma.include_learningPlan dailyPlan db = Some learningPlan ->
      LearningPlan.userId learningPlan = userId ->
      only_gate_failing g dailyPlan userId db = true ->
      exists e db',
        DailyPlanService.completeDailyPlan id userId db = (Throw e, db')
        /\ identify e = g.

(** "After a successful completeDailyPlan on day N < durationDays ... the
    plan's progress equals round(100 × completedDaysCount / durationDays)". *)
Definition inner_day_completion_as_specified : Prop :=
  forall id userId db dailyPlan learningPlan completed db',
    daily_of id db = Some dailyPlan ->
    prisma.include_learningPlan dailyPlan db = Some learningPlan ->
    DailyPlan.dayNumber dailyPlan < LearningPlan.durationDays learningPlan ->
    DailyPlanService.completeDailyPlan id userId db = (Ok completed, db') ->
    (exists d, daily_of id db' = Some d /\ DailyPlan.isCompleted d = true)
    /\ (forall nextDay,
          day_of (DailyPlan.learningPlanId dailyPlan) (DailyPlan.dayNumber dailyPlan + 1) db
          = Some nextDay ->
          exists d,
            day_of (DailyPlan.learningPlanId dailyPlan) (DailyPlan.dayNumber dailyPlan + 1) db'
            = Some d /\ DailyPlan.isUnlocked d = true)
    /\ exists plan',
         plan_of (DailyPlan.learningPlanId dailyPlan) db' = Some plan'
         /\ LearningPlan.currentDay plan' = DailyPlan.dayNumber dailyPlan + 1
         /\ LearningPlan.progress plan'
            = Number.of_Z
                (spec_progress
                   (completedDaysCount_of (DailyPlan.learningPlanId dailyPlan) (dailyPlans db'))
                   (LearningPlan.durationDays learningPlan)).



(** The invariant of the data model. *)
Definition currentDay_bounded (p : LearningPlan.t) : Prop :=
  LearningPlan.currentDay p <= LearningPlan.durationDays p.

(* ===================================================================== *)
(** ** Further Prisma client calls

    The calls of the remaining service functions.  A resource's day
    references are optional relations to [DailyPlan]; [UserResource] has
    [@@unique([userId, resourceId])] and a required relation to [Resource];
    [Quiz.dailyPlanId] is [@unique] and a required relation to [DailyPlan];
    deleting a learning plan cascades to its daily plans, and from there as
    for [deleteMany]. *)

Module prisma'.

Definition with_resources (l : list Resource.t) (db : Db) : Db :=
  mkDb (learningPlans db) (dailyPlans db) l (userResources db) (quizzes db)
       (quizAttempts db) (mockInterviews db) (uuidSeed db).

Definition by_id (id : Id) (r : Resource.t) : bool := Nat.eqb (Resource.id r) id.

Definition resource_findUnique (id : Id) : Prisma (option Resource.t) :=
  prisma.read (fun db => find (by_id id) (resources db)).

(** [resource.findMany({ where: { id: { in } } })] *)
Definition resource_findMany (ids : list Id) : Prisma (list Resource.t) :=
  prisma.read (fun db => filter (fun r => prisma.mem_id (Resource.id r) ids) (resources db)).

(** [resource.updateMany({ where: { learningPlanDayId }, data:
    { learningPlanDayId: null } })] and the same for [practicePlanDayId]. *)
Definition clear_learning (dailyPlanId : Id) (r : Resource.t) : Resource.t :=
  if prisma.opt_is dailyPlanId (Resource.learningPlanDayId r)
  then Resource.mk (Resource.id r) None (Resource.practicePlanDayId r) else r.

Definition clear_practice (dailyPlanId : Id) (r : Resource.t) : Resource.t :=
  if prisma.opt_is dailyPlanId (Resource.practicePlanDayId r)
  then Resource.mk (Resource.id r) (Resource.learningPlanDayId r) None else r.

Definition resource_updateMany (clear : Resource.t -> Resource.t) : Prisma unit :=
  fun db => (Ok tt, with_resources (map clear (resources db)) db).

(** [resource.update({ where: { id }, data: { learningPlanDayId } })] and the
    same for [practicePlanDayId]. *)
Definition set_learning (dailyPlanId : Id) (r : Resource.t) : Resource.t :=
  Resource.mk (Resource.id r) (Some dailyPlanId) (Resource.practicePlanDayId r).

Definition set_practice (dailyPlanId : Id) (r : Resource.t) : Resource.t :=
  Resource.mk (Resource.id r) (Resource.learningPlanDayId r) (Some dailyPlanId).

Definition resource_update (id dailyPlanId : Id) (set : Id -> Resource.t -> Resource.t)
  : Prisma Resource.t :=
  fun db =>
    match find (by_id id) (resources db) with
    | None => (Throw (PrismaClientKnownRequestError "P2025"), db)
    | Some r =>
        if negb (existsb (fun d => Nat.eqb (DailyPlan.id d) dailyPlanId) (dailyPlans db))
        then (Throw (PrismaClientKnownRequestError "P2003"), db)
        else
          (Ok (set dailyPlanId r),
           with_resources
             (map (fun x => if by_id id x then set dailyPlanId x else x) (resources db)) db)
    end.

(** [userResource.findUnique({ where: { userId_resourceId } })]; the users
    are not a table here: a requester is an authenticated user, whose row
    exists. *)
Definition completion_of (userId resourceId : Id) (ur : UserResource.t) : bool :=
  Nat.eqb (UserResource.userId ur) userId && Nat.eqb (UserResource.resourceId ur) resourceId.

Definition userResource_findUnique (userId resourceId : Id)
  : Prisma (option UserResource.t) :=
  prisma.read (fun db => find (completion_of userId resourceId) (userResources db)).

Definition userResource_create (userId resourceId : Id) : Prisma UserResource.t :=
  fun db =>
    if existsb (completion_of userId resourceId) (userResources db)
    then (Throw (PrismaClientKnownRequestError "P2002"), db)
    else if negb (existsb (by_id resourceId) (resources db))
    then (Throw (PrismaClientKnownRequestError "P2003"), db)
    else
      let row := UserResource.mk (uuidSeed db) userId resourceId in
      (Ok row,
       mkDb (learningPlans db) (dailyPlans db) (resources db) (userResources db ++ [row])
            (quizzes db) (quizAttempts db) (mockInterviews db) (S (uuidSeed db))).

(** [quiz.create({ data: { dailyPlanId, ... } })]; the title, the description
    and the nested question rows are columns and a table nothing here reads. *)
Definition quiz_create (dailyPlanId : Id) : Prisma Quiz.t :=
  fun db =>
    if existsb (fun q => Nat.eqb (Quiz.dailyPlanId q) dailyPlanId) (quizzes db)
    then (Throw (PrismaClientKnownRequestError "P2002"), db)
    else if negb (existsb (fun d => Nat.eqb (DailyPlan.id d) dailyPlanId) (dailyPlans db))
    then (Throw (PrismaClientKnownRequestError "P2003"), db)
    else
      let row := Quiz.mk (uuidSeed db) dailyPlanId in
      (Ok row,
       mkDb (learningPlans db) (dailyPlans db) (resources db) (userResources db)
            (quizzes db ++ [row]) (quizAttempts db) (mockInterviews db) (S (uuidSeed db))).

(** [learningPlan.delete({ where: { id } })] with the referential actions of
    the schema. *)
Definition learningPlan_delete (id : Id) : Prisma unit :=
  fun db =>
    match find (fun p => Nat.eqb (LearningPlan.id p) id) (learningPlans db) with
    | None => (Throw (PrismaClientKnownRequestError "P2025"), db)
    | Some _ =>
        let gone := map DailyPlan.id (filter (prisma.of_plan id) (dailyPlans db)) in
        let deadQuiz :=
          map Quiz.id (filter (fun q => prisma.mem_id (Quiz.dailyPlanId q) gone) (quizzes db)) in
        (Ok tt,
         mkDb (filter (fun p => negb (Nat.eqb (LearningPlan.id p) id)) (learningPlans db))
              (filter (fun d => negb (prisma.of_plan id d)) (dailyPlans db))
              (map (fun r => Resource.mk (Resource.id r)
                               (prisma.null_if_deleted gone (Resource.learningPlanDayId r))
                               (prisma.null_if_deleted gone (Resource.practicePlanDayId r)))
                   (resources db))
              (userResources db)
              (filter (fun q => negb (prisma.mem_id (Quiz.dailyPlanId q) gone)) (quizzes db))
              (filter (fun a => negb (prisma.mem_id (QuizAttempt.quizId a) deadQuiz))
                      (quizAttempts db))
              (mockInterviews db)
              (uuidSeed db))
    end.

End prisma'.

(** [prisma.$transaction([q1, q2, ...])] runs its queries in order inside one
    transaction; [for_each] is the sequence built by [ids.map(...)]. *)
Fixpoint for_each {A B} (l : list A) (query : A -> Prisma B) : Prisma unit :=
  match l with
  | [] => ret tt
  | x :: r => query x ;;; for_each r query
  end.

(* ===================================================================== *)
(** ** The remaining functions of [src/services/learning-plan.service.ts] *)

Module LearningPlanService'.

Definition getLearningPlanById (id userId : Id) : Prisma PlanWithDays :=
  rethrow "Error fetching learning plan"
    (learningPlan <- findUnique_with_days id ;;
     match learningPlan with
     | None => throw (ApiError 404 "Learning plan not found")
     | Some learningPlan =>
         if negb (Nat.eqb (LearningPlan.userId (fst learningPlan)) userId) then
           throw (ApiError 403 "You do not have permission to access this learning plan")
         else ret learningPlan
     end).

Definition deleteLearningPlan (id userId : Id) : Prisma unit :=
  rethrow "Error deleting learning plan"
    (existingPlan <- prisma.learningPlan_findUnique id ;;
     match existingPlan with
     | None => throw (ApiError 404 "Learning plan not found")
     | Some existingPlan =>
         if negb (Nat.eqb (LearningPlan.userId existingPlan) userId) then
           throw (ApiError 403 "You do not have permission to delete this learning plan")
         else prisma'.learningPlan_delete id
     end).

End LearningPlanService'.

(* ===================================================================== *)
(** ** The remaining functions of [src/services/daily-plan.service.ts] *)

Module DailyPlanService'.

Definition getDailyPlanById (id userId : Id) : Prisma DailyPlan.t :=
  rethrow "Error fetching daily plan"
    (dailyPlan <- prisma.dailyPlan_findUnique id ;;
     match dailyPlan with
     | None => throw (ApiError 404 "Daily plan not found")
     | Some dailyPlan =>
         learningPlan <- prisma.read (prisma.include_learningPlan dailyPlan) ;;
         match learningPlan with
         | None => throw TypeError
         | Some learningPlan =>
             if negb (Nat.eqb (LearningPlan.userId learningPlan) userId) then
               throw (ApiError 403 "You do not have permission to access this daily plan")
             else ret dailyPlan
         end
     end).

Definition getLearningPlanDailyPlans (learningPlanId userId : Id)
  : Prisma (list DailyPlan.t) :=
  rethrow "Error fetching daily plans"
    (learningPlan <- prisma.learningPlan_findUnique learningPlanId ;;
     match learningPlan with
     | None => throw (ApiError 404 "Learning plan not found")
     | Some learningPlan =>
         if negb (Nat.eqb (LearningPlan.userId learningPlan) userId) then
           throw (ApiError 403 "You do not have permission to access this learning plan")
         else prisma.dailyPlan_findMany learningPlanId
     end).

Definition assignResourcesToDailyPlan (dailyPlanId : Id)
    (learningResourceIds practiceResourceIds : list Id) : Prisma (option DailyPlan.t) :=
  rethrow "Error assigning resources to daily plan"
    (dailyPlan <- prisma.dailyPlan_findUnique dailyPlanId ;;
     match dailyPlan with
     | None => throw (ApiError 404 "Daily plan not found")
     | Some _ =>
         let allResourceIds := learningResourceIds in
         resources <- prisma'.resource_findMany allResourceIds ;;
         if negb (Nat.eqb (length resources) (length allResourceIds)) then
           throw (ApiError 400 "One or more resources do not exist")
         else
           transaction
             (prisma'.resource_updateMany (prisma'.clear_learning dailyPlanId) ;;;
              prisma'.resource_updateMany (prisma'.clear_practice dailyPlanId) ;;;
              for_each learningResourceIds
                (fun resourceId =>
                   prisma'.resource_update resourceId dailyPlanId prisma'.set_learning) ;;;
              for_each practiceResourceIds
                (fun resourceId =>
                   prisma'.resource_update resourceId dailyPlanId prisma'.set_practice)) ;;;
           prisma.dailyPlan_findUnique dailyPlanId
     end).

(** The quiz data (title, description, questions) goes into columns and a
    table that are not modelled; what is kept is the quiz row and its day. *)
Definition addQuizToDailyPlan (dailyPlanId : Id) : Prisma Quiz.t :=
  rethrow "Error adding quiz to daily plan"
    (dailyPlan <- prisma.dailyPlan_findUnique dailyPlanId ;;
     match dailyPlan with
     | None => throw (ApiError 404 "Daily plan not found")
     | Some dailyPlan =>
         quiz <- prisma.read (prisma.include_quiz dailyPlan) ;;
         match quiz with
         | Some _ => throw (ApiError 400 "Daily plan already has a quiz")
         | None => prisma'.quiz_create dailyPlanId
         end
     end).

End DailyPlanService'.

(* ===================================================================== *)
(** ** [src/services/resource.service.ts]: completing a resource *)

Module ResourceService.

Definition completeResource (resourceId userId : Id) : Prisma unit :=
  rethrow "Error completing resource"
    (resource <- prisma'.resource_findUnique resourceId ;;
     match resource with
     | None => throw (ApiError 404 "Resource not found")
     | Some _ =>
         existingCompletion <- prisma'.userResource_findUnique userId resourceId ;;
         match existingCompletion with
         | Some _ => throw (ApiError 400 "Resource already marked as completed")
         | None => prisma'.userResource_create userId resourceId ;;; ret tt
         end
     end).

End ResourceService.

(* ===================================================================== *)
(** ** The service calls as data

    One constructor per modelled service function, so that statements can
    range over every call a client can make. *)

Inductive Call :=
| CreateLearningPlan (userId : Id) (track : Track) (durationDays : Z)
| GetLearningPlanById (id userId : Id)
| UpdateLearningPlan (id userId : Id) (updateData : LearningPlanService.UpdateData)
| DeleteLearningPlan (id userId : Id)
| UpdateLearningPlanProgress (id userId : Id)
    (progressData : LearningPlanService.ProgressData)
| GetDailyPlanById (id userId : Id)
| GetLearningPlanDailyPlans (learningPlanId userId : Id)
| UnlockDailyPlan (id userId : Id)
| CompleteDailyPlan (id userId : Id)
| AssignResourcesToDailyPlan (dailyPlanId : Id)
    (learningResourceIds practiceResourceIds : list Id)
| AddQuizToDailyPlan (dailyPlanId : Id)
| CompleteResource (resourceId userId : Id).

(** A call with its result dropped. *)
Definition perform (c : Call) : Prisma unit :=
  match c with
  | CreateLearningPlan userId track durationDays =>
      LearningPlanService.createLearningPlan userId track durationDays ;;; ret tt
  | GetLearningPlanById id userId =>
      LearningPlanService'.getLearningPlanById id userId ;;; ret tt
  | UpdateLearningPlan id userId updateData =>
      LearningPlanService.updateLearningPlan id userId updateData ;;; ret tt
  | DeleteLearningPlan id userId =>
      LearningPlanService'.deleteLearningPlan id userId
  | UpdateLearningPlanProgress id userId progressData =>
      LearningPlanService.updateLearningPlanProgress id userId progressData ;;; ret tt
  | GetDailyPlanById id userId =>
      DailyPlanService'.getDailyPlanById id userId ;;; ret tt
  | GetLearningPlanDailyPlans learningPlanId userId =>
      DailyPlanService'.getLearningPlanDailyPlans learningPlanId userId ;;; ret tt
  | UnlockDailyPlan id userId =>
      DailyPlanService.unlockDailyPlan id userId ;;; ret tt
  | CompleteDailyPlan id userId =>
      DailyPlanService.completeDailyPlan id userId ;;; ret tt
  | AssignResourcesToDailyPlan dailyPlanId learningResourceIds practiceResourceIds =>
      DailyPlanService'.assignResourcesToDailyPlan dailyPlanId
        learningResourceIds practiceResourceIds ;;; ret tt
  | AddQuizToDailyPlan dailyPlanId =>
      DailyPlanService'.addQuizToDailyPlan dailyPlanId ;;; ret tt
  | CompleteResource resourceId userId =>
      ResourceService.completeResource resourceId userId
  end.

(** The learning plan whose owner a call compares with its requester, and
    that requester; [None] for the calls that take no requester or find no
    plan. *)
Definition checked_against (c : Call) (db : Db) : option (LearningPlan.t * Id) :=
  match c with
  | GetLearningPlanById id userId
  | UpdateLearningPlan id userId _
  | DeleteLearningPlan id userId
  | UpdateLearningPlanProgress id userId _
  | GetLearningPlanDailyPlans id userId =>
      option_map (fun p => (p, userId)) (plan_of id db)
  | GetDailyPlanById id userId
  | UnlockDailyPlan id userId
  | CompleteDailyPlan id userId =>
      match daily_of id db with
      | Some d => option_map (fun p => (p, userId)) (prisma.include_learningPlan d db)
      | None => None
      end
  | _ => None
  end.



(** What [assignResourcesToDailyPlan] makes of a resource row: detached from
    the day, then attached again as the two lists say. *)
Definition reassigned (dailyPlanId : Id) (learningResourceIds practiceResourceIds : list Id)
    (r : Resource.t) : Resource.t :=
  let r1 := prisma'.clear_practice dailyPlanId (prisma'.clear_learning dailyPlanId r) in
  let r2 := if prisma.mem_id (Resource.id r) learningResourceIds
            then prisma'.set_learning dailyPlanId r1 else r1 in
  if prisma.mem_id (Resource.id r) practiceResourceIds
  then prisma'.set_practice dailyPlanId r2 else r2.

(** [resource.update] once per listed key, on the rows of the table. *)
Definition updated_each (set : Resource.t -> Resource.t) (ids : list Id)
    (l : list Resource.t) : list Resource.t :=
  fold_left (fun l id => map (fun x => if prisma'.by_id id x then set x else x) l) ids l.

(** Every listed key is the key of a stored resource. *)
Definition all_stored (ids : list Id) (db : Db) : bool :=
  forallb (fun id => existsb (prisma'.by_id id) (resources db)) ids.

(* ===================================================================== *)
(** ** Further scenarios *)

(** Somebody who owns none of the learner's plans. *)
Definition stranger : Id := 8.

(** The two-day plan beside a catalogue of two resources attached to no
    day. *)
Definition two_days_catalogue : Db :=
  Eval vm_compute in
    prisma'.with_resources [Resource.mk 50 None None; Resource.mk 51 None None] two_days.

(** [@@unique([userId, resourceId])] on [UserResource]. *)
Definition completions_unique (db : Db) : Prop :=
  NoDup (map (fun ur => (UserResource.userId ur, UserResource.resourceId ur))
             (userResources db)).

(** The rows [completeDailyPlan] loads as the resources of a day. *)
Definition resources_of_day (d : DailyPlan.t) (db : Db) : list Resource.t :=
  (prisma.include_learningResources d db ++ prisma.include_practiceResources d db)%list.

(** A resource that is a learning and a practice resource of the same day. *)
Definition booked_twice (d : DailyPlan.t) (r : Resource.t) : bool :=
  prisma.opt_is (DailyPlan.id d) (Resource.learningPlanDayId r)
  && prisma.opt_is (DailyPlan.id d) (Resource.practicePlanDayId r).

(** Day 1 of the two-day plan with resource 50 as learning and resource 51
    as practice resource, both completed by the learner; and with resource
    50 in both roles, completed by the learner. *)
Definition two_days_resources_done : Db :=
  Eval vm_compute in
    after (ResourceService.completeResource 51 learner)
      (after (ResourceService.completeResource 50 learner)
         (after (DailyPlanService'.assignResourcesToDailyPlan 1 [50%nat] [51%nat])
            two_days_catalogue)).

Definition two_days_booked_twice : Db :=
  Eval vm_compute in
    after (ResourceService.completeResource 50 learner)
      (after (DailyPlanService'.assignResourcesToDailyPlan 1 [50%nat] [50%nat])
         two_days_catalogue).

(** The three-day plan after [updateLearningPlan] with [durationDays: 0],
    which takes the plain update and keeps the three stored days. *)
Definition three_days_duration_0 : Db :=
  Eval vm_compute in
    after (LearningPlanService.updateLearningPlan 0 learner (set_durationDays 0)) three_days.

(** The two-day plan with its first day completed. *)
Definition two_days_first_done : Db := Eval vm_compute in complete_days [1%nat] two_days.


(** The two-day plan after the owner switched it off with
    [updateLearningPlan]. *)
Definition two_days_paused : Db :=
  Eval vm_compute in
    after (LearningPlanService.updateLearningPlan 0 learner
             (LearningPlanService.updateData None None (Some false))) two_days.

(** [@@unique([learningPlanId, dayNumber])] on [DailyPlan]. *)
Definition days_unique (db : Db) : Prop :=
  NoDup (map (fun d => (DailyPlan.learningPlanId d, DailyPlan.dayNumber d)) (dailyPlans db)).

(* ===================================================================== *)
(** ** Interview templates

    [addInterviewToDailyPlan] works on the table of interview templates,
    which none of the functions above reads; the database is extended by
    that table here.  [InterviewTemplate.dailyPlanId] is optional, [@unique]
    and a relation to [DailyPlan]. *)

Module InterviewTemplate.
Record t := mk { id : Id; dailyPlanId : option Id }.
End InterviewTemplate.

Record Store := mkStore {
  db_of : Db;
  interviewTemplates : list InterviewTemplate.t
}.

Definition Prisma' (A : Type) : Type := Store -> Outcome A * Store.

Definition throw' {A} (e : Exn) : Prisma' A := fun s => (Throw e, s).

Definition bind' {A B} (m : Prisma' A) (k : A -> Prisma' B) : Prisma' B :=
  fun s =>
    match m s with
    | (Ok a, s') => k a s'
    | (Throw e, s') => (Throw e, s')
    end.

Definition rethrow' {A} (message : string) (body : Prisma' A) : Prisma' A :=
  fun s =>
    match body s with
    | (Throw (ApiError c m), s') => (Throw (ApiError c m), s')
    | (Throw _, s') => (Throw (ApiError 500 message), s')
    | r => r
    end.

(** A call on the tables of [Db]. *)
Definition on_db {A} (call : Prisma A) : Prisma' A :=
  fun s => let (o, db') := call (db_of s) in (o, mkStore db' (interviewTemplates s)).

Definition interviewTemplate_findUnique (id : Id) : Prisma' (option InterviewTemplate.t) :=
  fun s =>
    (Ok (find (fun t => Nat.eqb (InterviewTemplate.id t) id) (interviewTemplates s)), s).

(** [interviewTemplate.update({ where: { id }, data: { dailyPlanId } })] *)
Definition linked_elsewhere (id dailyPlanId : Id) (t : InterviewTemplate.t) : bool :=
  prisma.opt_is dailyPlanId (InterviewTemplate.dailyPlanId t)
  && negb (Nat.eqb (InterviewTemplate.id t) id).

Definition interviewTemplate_update (id dailyPlanId : Id) : Prisma' InterviewTemplate.t :=
  fun s =>
    match find (fun t => Nat.eqb (InterviewTemplate.id t) id) (interviewTemplates s) with
    | None => (Throw (PrismaClientKnownRequestError "P2025"), s)
    | Some t =>
        if existsb (linked_elsewhere id dailyPlanId) (interviewTemplates s)
        then (Throw (PrismaClientKnownRequestError "P2002"), s)
        else if negb (existsb (fun d => Nat.eqb (DailyPlan.id d) dailyPlanId)
                              (dailyPlans (db_of s)))
        then (Throw (PrismaClientKnownRequestError "P2003"), s)
        else
          (Ok (InterviewTemplate.mk (InterviewTemplate.id t) (Some dailyPlanId)),
           mkStore (db_of s)
             (map (fun x => if Nat.eqb (InterviewTemplate.id x) id
                            then InterviewTemplate.mk (InterviewTemplate.id x) (Some dailyPlanId)
                            else x)
                  (interviewTemplates s)))
    end.

Definition addInterviewToDailyPlan (dailyPlanId interviewTemplateId : Id)
  : Prisma' (option DailyPlan.t) :=
  rethrow' "Error adding interview to daily plan"
    (bind' (on_db (prisma.dailyPlan_findUnique dailyPlanId)) (fun dailyPlan =>
     match dailyPlan with
     | None => throw' (ApiError 404 "Daily plan not found")
     | Some _ =>
         bind' (interviewTemplate_findUnique interviewTemplateId) (fun interviewTemplate =>
         match interviewTemplate with
         | None => throw' (ApiError 404 "Interview template not found")
         | Some _ =>
             bind' (interviewTemplate_update interviewTemplateId dailyPlanId) (fun _ =>
             on_db (prisma.dailyPlan_findUnique dailyPlanId))
         end)
     end)).

(** The template that is linked to a day. *)
Definition template_of_day (dailyPlanId : Id) (s : Store) : option InterviewTemplate.t :=
  find (fun t => prisma.opt_is dailyPlanId (InterviewTemplate.dailyPlanId t))
       (interviewTemplates s).

(** The two-day plan beside two interview templates linked to no day, and
    with the first template linked to day 1. *)
Definition two_days_templates : Store :=
  mkStore two_days [InterviewTemplate.mk 70 None; InterviewTemplate.mk 71 None].

Definition two_days_interview : Store :=
  Eval vm_compute in snd (addInterviewToDailyPlan 1 70 two_days_templates).

(* ===================================================================== *)
(** ** Lemmas on tables *)

(** Comparisons of integers whose outcome follows from the context. *)
Tactic Notation "holds" constr(t) :=
  replace t with true
    by (symmetry; first [apply Z.ltb_lt | apply Z.leb_le | apply Z.eqb_eq]; lia).
Tactic Notation "holds" constr(t) "in" hyp(H) :=
  replace t with true in H
    by (symmetry; first [apply Z.ltb_lt | apply Z.leb_le | apply Z.eqb_eq]; lia).
Tactic Notation "fails" constr(t) :=
  replace t with false
    by (symmetry; first [apply Z.ltb_ge | apply Z.leb_gt | apply Z.eqb_neq]; lia).
Tactic Notation "fails" constr(t) "in" hyp(H) :=
  replace t with false in H
    by (symmetry; first [apply Z.ltb_ge | apply Z.leb_gt | apply Z.eqb_neq]; lia).

Section Tables.

Context {A : Type}.

Lemma find_map_stable (p : A -> bool) (f : A -> A) (l : list A) :
  (forall x, p (f x) = p x) ->
  find p (map f l) = option_map f (find p l).
Proof.
  intros Hp; induction l as [|x r IH]; cbn; [reflexivity|].
  rewrite Hp. destruct (p x); [reflexivity | exact IH].
Qed.

Lemma find_In_some (p : A -> bool) (l : list A) (x : A) :
  In x l -> p x = true -> exists y, find p l = Some y.
Proof.
  intros Hin Hpx. destruct (find p l) as [y|] eqn:E; [now exists y|].
  apply (find_none _ _ E) in Hin. congruence.
Qed.


End Tables.

Lemma on_day_apply learningPlanId dayNumber id u x :
  prisma.on_day learningPlanId dayNumber
    (if Nat.eqb (DailyPlan.id x) id then DailyPlan.apply u x else x)
  = prisma.on_day learningPlanId dayNumber x.
Proof. destruct (Nat.eqb (DailyPlan.id x) id); reflexivity. Qed.

Lemma id_apply k id u x :
  Nat.eqb (DailyPlan.id (if Nat.eqb (DailyPlan.id x) id then DailyPlan.apply u x else x)) k
  = Nat.eqb (DailyPlan.id x) k.
Proof. destruct (Nat.eqb (DailyPlan.id x) id); reflexivity. Qed.

Lemma plan_id_apply k id u x :
  Nat.eqb (LearningPlan.id (if Nat.eqb (LearningPlan.id x) id
                            then LearningPlan.apply u x else x)) k
  = Nat.eqb (LearningPlan.id x) k.
Proof. destruct (Nat.eqb (LearningPlan.id x) id); reflexivity. Qed.

Lemma find_mark_by_id k id u l :
  find (fun d => Nat.eqb (DailyPlan.id d) k) (mark id u l)
  = option_map (fun x => if Nat.eqb (DailyPlan.id x) id then DailyPlan.apply u x else x)
               (find (fun d => Nat.eqb (DailyPlan.id d) k) l).
Proof. apply find_map_stable. intros x. apply id_apply. Qed.

Lemma id_apply_same id u x :
  DailyPlan.id (if Nat.eqb (DailyPlan.id x) id then DailyPlan.apply u x else x)
  = DailyPlan.id x.
Proof. destruct (Nat.eqb (DailyPlan.id x) id); reflexivity. Qed.

Lemma find_mark_on_day learningPlanId dayNumber id u l :
  find (prisma.on_day learningPlanId dayNumber) (mark id u l)
  = option_map (fun x => if Nat.eqb (DailyPlan.id x) id then DailyPlan.apply u x else x)
               (find (prisma.on_day learningPlanId dayNumber) l).
Proof. apply find_map_stable. intros x. apply on_day_apply. Qed.

(** Every call of the completion transaction goes through once the gates
    have been passed, so the whole call is one case distinction. *)
Lemma completeDailyPlan_cases id userId db :
  DailyPlanService.completeDailyPlan id userId db =
  match daily_of id db with
  | None => (Throw (ApiError 404 "Daily plan not found"), db)
  | Some dailyPlan =>
      match prisma.include_learningPlan dailyPlan db with
      | None => (Throw (ApiError 500 "Error completing daily plan"), db)
      | Some learningPlan =>
          if negb (Nat.eqb (LearningPlan.userId learningPlan) userId) then
            (Throw (ApiError 403 "You do not have permission to update this daily plan"), db)
          else if negb (DailyPlan.isUnlocked dailyPlan) then
            (Throw (ApiError 400 "Cannot complete a locked daily plan"), db)
          else if negb (gates_open dailyPlan userId db) then
            (Throw (ApiError 400 "All resources, quizzes, and interviews must be completed"),
             db)
          else
            (Ok (DailyPlan.apply (DailyPlan.data None (Some true)) dailyPlan),
             state_after_completion dailyPlan learningPlan db)
      end
  end.
Proof.
  unfold DailyPlanService.completeDailyPlan, rethrow, bind, daily_of,
    prisma.dailyPlan_findUnique, prisma.read, throw.
  destruct (find (fun d => Nat.eqb (DailyPlan.id d) id) (dailyPlans db))
    as [dailyPlan|] eqn:Hday; [|reflexivity].
  destruct (prisma.include_learningPlan dailyPlan db) as [learningPlan|] eqn:Hplan;
    [|reflexivity].
  destruct (negb (Nat.eqb (LearningPlan.userId learningPlan) userId)); [reflexivity|].
  destruct (negb (DailyPlan.isUnlocked dailyPlan)); [reflexivity|].
  unfold gates_open.
  destruct (DailyPlanService.allResourcesCompleted dailyPlan userId db); [|reflexivity].
  destruct (DailyPlanService.quizCompleted dailyPlan userId db); [|reflexivity].
  destruct (DailyPlanService.interviewCompleted dailyPlan userId db); [|reflexivity].
  cbn [negb orb andb].
  unfold transaction, prisma.dailyPlan_update. rewrite Hday.
  unfold state_after_completion, plan_after_completion, days_after_completion,
    completedDaysCount_of.
  assert (Hid : DailyPlan.id dailyPlan = id).
  { apply find_some in Hday as [_ H]. now apply Nat.eqb_eq in H. }
  rewrite Hid.
  fold (mark id (DailyPlan.data None (Some true)) (dailyPlans db)).
  set (l1 := mark id (DailyPlan.data None (Some true)) (dailyPlans db)).
  unfold prisma.include_learningPlan in Hplan.
  destruct (DailyPlan.dayNumber dailyPlan <? LearningPlan.durationDays learningPlan).
  - unfold prisma.dailyPlan_findFirst. cbn [dailyPlans with_dailyPlans].
    destruct (find (prisma.on_day (DailyPlan.learningPlanId dailyPlan)
                      (DailyPlan.dayNumber dailyPlan + 1)) l1) as [nextDay|] eqn:Hnext.
    + destruct (find_In_some (fun d => Nat.eqb (DailyPlan.id d) (DailyPlan.id nextDay))
                  l1 nextDay) as [d Hd].
      { now apply find_some in Hnext. }
      { apply Nat.eqb_refl. }
      unfold prisma.dailyPlan_update. cbn [dailyPlans with_dailyPlans].
      rewrite Hd. unfold ret, prisma.dailyPlan_count, prisma.learningPlan_update.
      cbn [dailyPlans learningPlans with_dailyPlans]. rewrite Hplan. reflexivity.
    + unfold ret, prisma.dailyPlan_count, prisma.learningPlan_update.
      cbn [dailyPlans learningPlans with_dailyPlans]. rewrite Hplan. reflexivity.
  - unfold ret, prisma.dailyPlan_count, prisma.learningPlan_update.
    cbn [dailyPlans learningPlans with_dailyPlans]. rewrite Hplan. reflexivity.
Qed.

(** *** The day-creation loop *)










(** *** Plan creation *)

Lemma find_app_fresh {A} (p : A -> bool) (l : list A) (x : A) :
  forallb (fun y => negb (p y)) l = true -> p x = true ->
  find p (l ++ [x]) = Some x.
Proof.
  intros Hl Hx. induction l as [|y r IH]; cbn in *.
  - now rewrite Hx.
  - apply andb_true_iff in Hl as [Hy Hr]. apply negb_true_iff in Hy.
    now rewrite Hy, IH.
Qed.

Lemma filter_none {A} (p : A -> bool) (l : list A) :
  forallb (fun y => negb (p y)) l = true -> filter p l = [].
Proof.
  intros Hl. induction l as [|y r IH]; cbn in *; [reflexivity|].
  apply andb_true_iff in Hl as [Hy Hr]. apply negb_true_iff in Hy.
  now rewrite Hy, IH.
Qed.

Lemma findUnique_with_days_run id db :
  findUnique_with_days id db
  = (Ok (option_map
           (fun p => (p, prisma.orderBy_dayNumber_asc (days_of id db)))
           (plan_of id db)),
     db).
Proof.
  unfold findUnique_with_days, bind, prisma.learningPlan_findUnique, plan_of.
  destruct (find _ (learningPlans db)); reflexivity.
Qed.


(** *** Duration changes *)

Lemma find_plans_after_update k id u l :
  find (fun p => Nat.eqb (LearningPlan.id p) k) (plans_after_update id u l)
  = option_map (fun x => if Nat.eqb (LearningPlan.id x) id
                         then LearningPlan.apply u x else x)
               (find (fun p => Nat.eqb (LearningPlan.id p) k) l).
Proof. apply find_map_stable. intros x. apply plan_id_apply. Qed.

Lemma find_existsb {A} (p : A -> bool) (l : list A) (x : A) :
  find p l = Some x -> existsb p l = true.
Proof.
  intros H. apply find_some in H as [Hin Hp].
  apply existsb_exists. now exists x.
Qed.




(** A new duration of 0 is falsy in the guard of [updateLearningPlan]: the
    plain update stores it and no daily plan is created or deleted. *)
Lemma updateLearningPlan_zero_duration id userId updateData db existingPlan :
  plan_of id db = Some existingPlan ->
  LearningPlan.userId existingPlan = userId ->
  LearningPlanService.durationDays updateData = Some 0 ->
  exists r,
    LearningPlanService.updateLearningPlan id userId updateData db
    = (Ok r,
       with_learningPlans
         (plans_after_update id (LearningPlanService.data_of updateData) (learningPlans db))
         db).
Proof.
  intros Hplan Howner Hzero. unfold plan_of in Hplan.
  unfold LearningPlanService.updateLearningPlan, rethrow, bind at 1,
    prisma.learningPlan_findUnique.
  rewrite Hplan, Howner, Nat.eqb_refl, Hzero. cbn [negb truthy Z.eqb andb].
  unfold bind, prisma.learningPlan_update, prisma.dailyPlan_findMany, ret.
  rewrite Hplan. eexists. reflexivity.
Qed.

(** *** Unlocking *)

Lemma unlockDailyPlan_cases id userId db :
  DailyPlanService.unlockDailyPlan id userId db =
  match daily_of id db with
  | None => (Throw (ApiError 404 "Daily plan not found"), db)
  | Some dailyPlan =>
      match prisma.include_learningPlan dailyPlan db with
      | None => (Throw (ApiError 500 "Error unlocking daily plan"), db)
      | Some learningPlan =>
          if negb (Nat.eqb (LearningPlan.userId learningPlan) userId) then
            (Throw (ApiError 403 "You do not have permission to update this daily plan"), db)
          else if previous_day_open dailyPlan db then
            (Throw (ApiError 400
                      "Cannot unlock this day until the previous day is completed"), db)
          else
            (Ok (DailyPlan.apply (DailyPlan.data (Some true) None) dailyPlan),
             with_dailyPlans (mark id (DailyPlan.data (Some true) None) (dailyPlans db)) db)
      end
  end.
Proof.
  unfold DailyPlanService.unlockDailyPlan, rethrow, bind, daily_of,
    prisma.dailyPlan_findUnique, prisma.read, throw, previous_day_open, day_of,
    prisma.dailyPlan_findFirst.
  destruct (find (fun d => Nat.eqb (DailyPlan.id d) id) (dailyPlans db))
    as [dailyPlan|] eqn:Hday; [|reflexivity].
  destruct (prisma.include_learningPlan dailyPlan db) as [learningPlan|]; [|reflexivity].
  destruct (negb (Nat.eqb (LearningPlan.userId learningPlan) userId)); [reflexivity|].
  unfold prisma.dailyPlan_update, mark.
  destruct (1 <? DailyPlan.dayNumber dailyPlan); cbn [andb].
  - destruct (find _ (dailyPlans db)) as [previousDay|] eqn:Hprev in |- * at 1.
    + rewrite Hprev. destruct (DailyPlan.isCompleted previousDay); cbn [negb].
      * unfold ret. now rewrite Hday.
      * reflexivity.
    + rewrite Hprev. unfold ret. now rewrite Hday.
  - unfold ret. now rewrite Hday.
Qed.

(** The previous-day check of [unlockDailyPlan] is skipped when no row is
    stored for the previous day. *)
Lemma unlockDailyPlan_without_previous_row id userId db dailyPlan learningPlan :
  daily_of id db = Some dailyPlan ->
  prisma.include_learningPlan dailyPlan db = Some learningPlan ->
  LearningPlan.userId learningPlan = userId ->
  day_of (DailyPlan.learningPlanId dailyPlan) (DailyPlan.dayNumber dailyPlan - 1) db = None ->
  DailyPlanService.unlockDailyPlan id userId db
  = (Ok (DailyPlan.apply (DailyPlan.data (Some true) None) dailyPlan),
     with_dailyPlans (mark id (DailyPlan.data (Some true) None) (dailyPlans db)) db).
Proof.
  intros Hday Hplan Howner Hnone.
  rewrite unlockDailyPlan_cases, Hday, Hplan, Howner, Nat.eqb_refl. cbn [negb].
  unfold previous_day_open. rewrite Hnone. now rewrite andb_false_r.
Qed.

(** *** Direct progress updates *)

Lemma updateLearningPlanProgress_cases id userId progressData db :
  exists days,
  LearningPlanService.updateLearningPlanProgress id userId progressData db =
  match plan_of id db with
  | None => (Throw (ApiError 404 "Learning plan not found"), db)
  | Some existingPlan =>
      if negb (Nat.eqb (LearningPlan.userId existingPlan) userId) then
        (Throw (ApiError 403 "You do not have permission to update this learning plan"), db)
      else if currentDay_out_of_range progressData existingPlan then
        (Throw (ApiError 400
                  ("Current day must be between 1 and "
                   ++ string_of_Z (LearningPlan.durationDays existingPlan))), db)
      else
        (Ok (LearningPlan.apply (progress_input progressData) existingPlan, days),
         state_after_progress id progressData existingPlan db)
  end.
Proof.
  unfold LearningPlanService.updateLearningPlanProgress, rethrow.
  unfold bind at 1. rewrite findUnique_with_days_run.
  destruct (plan_of id db) as [existingPlan|] eqn:Hplan; cbn [option_map];
    [|exists []; reflexivity].
  destruct (negb (Nat.eqb (LearningPlan.userId existingPlan) userId));
    [exists []; reflexivity|].
  unfold currentDay_out_of_range.
  destruct (match LearningPlanService.currentDay progressData with
            | Some c => _ | None => false end); [exists []; reflexivity|].
  unfold state_after_progress. fold (moves_forward progressData existingPlan).
  unfold plan_of in Hplan.
  destruct (moves_forward progressData existingPlan).
  - unfold bind, LearningPlanService.unlockDailyPlan, catch_all,
      prisma.dailyPlan_updateMany, prisma.learningPlan_update, prisma.dailyPlan_findMany, ret.
    cbn [learningPlans with_dailyPlans]. rewrite Hplan.
    eexists. reflexivity.
  - unfold bind, prisma.learningPlan_update, prisma.dailyPlan_findMany, ret.
    rewrite Hplan. eexists. reflexivity.
Qed.


(** *** Doubles of integers and the quotient of a number by itself *)









(** *** The state a successful completion leaves *)

Lemma completeDailyPlan_ok_inv id userId db dailyPlan learningPlan completed db' :
  daily_of id db = Some dailyPlan ->
  prisma.include_learningPlan dailyPlan db = Some learningPlan ->
  DailyPlanService.completeDailyPlan id userId db = (Ok completed, db') ->
  LearningPlan.userId learningPlan = userId
  /\ DailyPlan.isUnlocked dailyPlan = true
  /\ gates_open dailyPlan userId db = true
  /\ completed = DailyPlan.apply (DailyPlan.data None (Some true)) dailyPlan
  /\ db' = state_after_completion dailyPlan learningPlan db.
Proof.
  intros Hday Hplan. rewrite completeDailyPlan_cases, Hday, Hplan.
  destruct (Nat.eqb (LearningPlan.userId learningPlan) userId) eqn:Howner;
    cbn [negb]; [|discriminate].
  destruct (DailyPlan.isUnlocked dailyPlan); cbn [negb]; [|discriminate].
  destruct (gates_open dailyPlan userId db); cbn [negb]; [|discriminate].
  intros H. injection H as <- <-. apply Nat.eqb_eq in Howner. now repeat split.
Qed.

Lemma completeDailyPlan_ok_found id userId db completed db' :
  DailyPlanService.completeDailyPlan id userId db = (Ok completed, db') ->
  exists dailyPlan learningPlan,
    daily_of id db = Some dailyPlan
    /\ prisma.include_learningPlan dailyPlan db = Some learningPlan.
Proof.
  rewrite completeDailyPlan_cases.
  destruct (daily_of id db) as [dailyPlan|]; [|discriminate].
  destruct (prisma.include_learningPlan dailyPlan db) as [learningPlan|] eqn:Hplan;
    [|discriminate].
  intros _. now exists dailyPlan, learningPlan.
Qed.

Lemma plan_after_completion_found dailyPlan learningPlan db :
  prisma.include_learningPlan dailyPlan db = Some learningPlan ->
  plan_of (DailyPlan.learningPlanId dailyPlan) (state_after_completion dailyPlan learningPlan db)
  = Some (LearningPlan.apply
            (plan_after_completion dailyPlan learningPlan (dailyPlans db)) learningPlan).
Proof.
  unfold prisma.include_learningPlan, plan_of, state_after_completion. intros Hplan.
  cbn [learningPlans with_learningPlans].
  rewrite (find_map_stable _ _ _ (fun x => plan_id_apply _ _ _ x)), Hplan.
  cbn [option_map]. apply find_some in Hplan as [_ ->]. reflexivity.
Qed.

Lemma day_after_completion_completed id dailyPlan learningPlan db :
  daily_of id db = Some dailyPlan ->
  exists d,
    daily_of id (state_after_completion dailyPlan learningPlan db) = Some d
    /\ DailyPlan.isCompleted d = true.
Proof.
  unfold daily_of, state_after_completion. intros Hday.
  cbn [dailyPlans with_learningPlans with_dailyPlans].
  assert (Hid : Nat.eqb (DailyPlan.id dailyPlan) (DailyPlan.id dailyPlan) = true)
    by apply Nat.eqb_refl.
  assert (H1 : find (fun d => Nat.eqb (DailyPlan.id d) id)
                 (mark (DailyPlan.id dailyPlan) (DailyPlan.data None (Some true))
                       (dailyPlans db))
               = Some (DailyPlan.apply (DailyPlan.data None (Some true)) dailyPlan)).
  { rewrite find_mark_by_id, Hday. cbn [option_map]. now rewrite Hid. }
  unfold days_after_completion.
  destruct (DailyPlan.dayNumber dailyPlan <? LearningPlan.durationDays learningPlan);
    [|eexists; split; [exact H1 | reflexivity]].
  destruct (find (prisma.on_day _ _) _) as [nextDay|];
    [|eexists; split; [exact H1 | reflexivity]].
  rewrite find_mark_by_id, H1. cbn [option_map].
  eexists; split; [reflexivity|].
  destruct (Nat.eqb _ (DailyPlan.id nextDay)); reflexivity.
Qed.

Lemma next_day_after_completion_unlocked dailyPlan learningPlan db nextDay :
  DailyPlan.dayNumber dailyPlan < LearningPlan.durationDays learningPlan ->
  day_of (DailyPlan.learningPlanId dailyPlan) (DailyPlan.dayNumber dailyPlan + 1) db
  = Some nextDay ->
  exists d,
    day_of (DailyPlan.learningPlanId dailyPlan) (DailyPlan.dayNumber dailyPlan + 1)
           (state_after_completion dailyPlan learningPlan db) = Some d
    /\ DailyPlan.id d = DailyPlan.id nextDay
    /\ DailyPlan.isUnlocked d = true.
Proof.
  unfold day_of, state_after_completion. intros Hlt Hnext.
  cbn [dailyPlans with_learningPlans with_dailyPlans].
  unfold days_after_completion.
  holds (DailyPlan.dayNumber dailyPlan <? LearningPlan.durationDays learningPlan).
  rewrite find_mark_on_day, Hnext. cbn [option_map].
  rewrite find_mark_on_day, find_mark_on_day, Hnext. cbn [option_map].
  eexists; split; [reflexivity|].
  rewrite id_apply_same, Nat.eqb_refl.
  split; [|reflexivity].
  destruct (Nat.eqb (DailyPlan.id nextDay) (DailyPlan.id dailyPlan)); reflexivity.
Qed.

(** *** The bound on [currentDay] along the sibling paths *)

(** Completing a day keeps [currentDay <= durationDays] on every plan. *)
Lemma completeDailyPlan_keeps_bound id userId db completed db' planId p p' :
  DailyPlanService.completeDailyPlan id userId db = (Ok completed, db') ->
  plan_of planId db = Some p ->
  currentDay_bounded p ->
  plan_of planId db' = Some p' ->
  currentDay_bounded p'.
Proof.
  intros Hrun Hp Hbound Hp'.
  destruct (completeDailyPlan_ok_found _ _ _ _ _ Hrun) as (dailyPlan & plan & Hday & Hplan).
  destruct (completeDailyPlan_ok_inv _ _ _ _ _ _ _ Hday Hplan Hrun) as (_ & _ & _ & _ & ->).
  unfold plan_of, state_after_completion in Hp'. cbn [learningPlans with_learningPlans] in Hp'.
  rewrite (find_map_stable _ _ _ (fun x => plan_id_apply _ _ _ x)) in Hp'.
  unfold plan_of in Hp. rewrite Hp in Hp'. cbn [option_map] in Hp'.
  injection Hp' as <-.
  destruct (Nat.eqb (LearningPlan.id p) (DailyPlan.learningPlanId dailyPlan)) eqn:E;
    [|exact Hbound].
  unfold currentDay_bounded. cbn. unfold Math.min.
  assert (p = plan); [|subst; lia].
  destruct (find_some _ _ Hp) as [_ Hid]. apply Nat.eqb_eq in E, Hid.
  unfold prisma.include_learningPlan in Hplan. rewrite <- E, Hid in Hplan.
  congruence.
Qed.

(** A direct progress update keeps it too: a supplied [currentDay] is
    checked against [durationDays] before it is stored. *)
Lemma updateLearningPlanProgress_keeps_bound id userId progressData db r db' planId p p' :
  LearningPlanService.updateLearningPlanProgress id userId progressData db = (Ok r, db') ->
  plan_of planId db = Some p ->
  currentDay_bounded p ->
  plan_of planId db' = Some p' ->
  currentDay_bounded p'.
Proof.
  intros Hrun Hp Hbound Hp'.
  destruct (updateLearningPlanProgress_cases id userId progressData db) as (days & Hcases).
  rewrite Hcases in Hrun. clear Hcases.
  destruct (plan_of id db) as [existingPlan|] eqn:Hplan; [|discriminate].
  destruct (negb (Nat.eqb (LearningPlan.userId existingPlan) userId)); [discriminate|].
  destruct (currentDay_out_of_range progressData existingPlan) eqn:Hrange; [discriminate|].
  injection Hrun as _ <-.
  unfold plan_of, state_after_progress in Hp'. cbn [learningPlans with_learningPlans] in Hp'.
  rewrite find_plans_after_update in Hp'. unfold plan_of in Hp. rewrite Hp in Hp'.
  cbn [option_map] in Hp'. injection Hp' as <-.
  destruct (Nat.eqb (LearningPlan.id p) id) eqn:E; [|exact Hbound].
  assert (p = existingPlan).
  { destruct (find_some _ _ Hp) as [_ Hid]. apply Nat.eqb_eq in E, Hid.
    unfold plan_of in Hplan. rewrite <- Hid in Hp. rewrite <- E in Hplan.
    congruence. }
  subst p. unfold currentDay_bounded in *. unfold currentDay_out_of_range in Hrange.
  cbn. destruct (LearningPlanService.currentDay progressData) as [c|]; cbn; [|exact Hbound].
  apply orb_false_iff in Hrange as [_ H]. apply Z.ltb_ge in H. exact H.
Qed.

(* ===================================================================== *)
(** ** Plan creation *)



(* ===================================================================== *)
(** ** Unlocking a day *)

(** C5.  For a day after the first that belongs to the requester,
    [unlockDailyPlan] fails with the 400 error "previous day not completed"
    when the previous day of the same plan is not completed, and then leaves
    the database, hence every [isUnlocked], as it was; when the previous day
    is completed the call goes through and the day is unlocked. *)
Theorem unlockDailyPlan_needs_previous_day id userId db dailyPlan learningPlan previousDay :
  daily_of id db = Some dailyPlan ->
  prisma.include_learningPlan dailyPlan db = Some learningPlan ->
  LearningPlan.userId learningPlan = userId ->
  1 < DailyPlan.dayNumber dailyPlan ->
  day_of (DailyPlan.learningPlanId dailyPlan) (DailyPlan.dayNumber dailyPlan - 1) db
  = Some previousDay ->
  (DailyPlan.isCompleted previousDay = false ->
   DailyPlanService.unlockDailyPlan id userId db
   = (Throw (ApiError 400 "Cannot unlock this day until the previous day is completed"), db))
  /\ (DailyPlan.isCompleted previousDay = true ->
      exists unlocked db',
        DailyPlanService.unlockDailyPlan id userId db = (Ok unlocked, db')
        /\ DailyPlan.isUnlocked unlocked = true
        /\ daily_of id db' = Some unlocked).
Proof.
  intros Hday Hplan Howner Hlater Hprev.
  rewrite unlockDailyPlan_cases, Hday, Hplan, Howner, Nat.eqb_refl. cbn [negb].
  unfold previous_day_open. rewrite Hprev.
  holds (1 <? DailyPlan.dayNumber dailyPlan).
  cbn [andb]. split; intros Hdone; rewrite Hdone; cbn [negb]; [reflexivity|].
  eexists _, _. split; [reflexivity|]. split; [reflexivity|].
  unfold daily_of in *. cbn [dailyPlans with_dailyPlans].
  rewrite find_mark_by_id, Hday. cbn [option_map].
  apply find_some in Hday as [_ ->]. reflexivity.
Qed.

Lemma unlockDailyPlan_needs_previous_day_witness :
  exists dailyPlan learningPlan previousDay,
    daily_of 2 three_days = Some dailyPlan
    /\ prisma.include_learningPlan dailyPlan three_days = Some learningPlan
    /\ LearningPlan.userId learningPlan = learner
    /\ 1 < DailyPlan.dayNumber dailyPlan
    /\ day_of (DailyPlan.learningPlanId dailyPlan) (DailyPlan.dayNumber dailyPlan - 1)
              three_days = Some previousDay
    /\ DailyPlan.isCompleted previousDay = false
    /\ DailyPlanService.unlockDailyPlan 2 learner three_days
       = (Throw (ApiError 400 "Cannot unlock this day until the previous day is completed"),
          three_days).
Proof.
  eexists _, _, _.
  split; [reflexivity|]. split; [reflexivity|]. split; [reflexivity|].
  split; [reflexivity|]. split; [reflexivity|]. split; [reflexivity|].
  refine (proj1 (unlockDailyPlan_needs_previous_day 2 learner three_days _ _ _
                   eq_refl eq_refl eq_refl eq_refl eq_refl) eq_refl).
Defined.

(* ===================================================================== *)
(** ** Completing a day: the gates *)

(** C6.  A locked day of the requester cannot be completed: the call fails
    with the 400 error "Cannot complete a locked daily plan" whatever the
    state of its resources, quiz and mock interview, and the database is
    left as it was. *)
Theorem completeDailyPlan_locked id userId db dailyPlan learningPlan :
  daily_of id db = Some dailyPlan ->
  prisma.include_learningPlan dailyPlan db = Some learningPlan ->
  LearningPlan.userId learningPlan = userId ->
  DailyPlan.isUnlocked dailyPlan = false ->
  DailyPlanService.completeDailyPlan id userId db = (Throw locked_error, db).
Proof.
  intros Hday Hplan Howner Hlocked.
  rewrite completeDailyPlan_cases, Hday, Hplan, Howner, Nat.eqb_refl, Hlocked.
  reflexivity.
Qed.

Lemma completeDailyPlan_locked_witness :
  exists dailyPlan learningPlan,
    daily_of 2 three_days = Some dailyPlan
    /\ prisma.include_learningPlan dailyPlan three_days = Some learningPlan
    /\ LearningPlan.userId learningPlan = learner
    /\ DailyPlan.isUnlocked dailyPlan = false
    /\ DailyPlanService.completeDailyPlan 2 learner three_days
       = (Throw locked_error, three_days).
Proof.
  eexists _, _.
  split; [reflexivity|]. split; [reflexivity|]. split; [reflexivity|].
  split; [reflexivity|].
  exact (completeDailyPlan_locked 2 learner three_days _ _ eq_refl eq_refl eq_refl eq_refl).
Defined.

(** C7, as the code has it.  The lock check comes first and has an error of
    its own; the resource, quiz and interview checks are decided together
    and share one error.  So when some gate fails, the call throws
    "Cannot complete a locked daily plan" if the day is locked, whatever
    the other gates say, and otherwise the one message "All resources,
    quizzes, and interviews must be completed", which does not tell the
    three remaining gates apart; the database is left as it was. *)
Theorem completeDailyPlan_first_failing_check id userId db dailyPlan learningPlan g :
  daily_of id db = Some dailyPlan ->
  prisma.include_learningPlan dailyPlan db = Some learningPlan ->
  LearningPlan.userId learningPlan = userId ->
  gate_fails g dailyPlan userId db = true ->
  DailyPlanService.completeDailyPlan id userId db
  = (Throw (if gate_fails LockState dailyPlan userId db
            then locked_error else incomplete_error), db).
Proof.
  intros Hday Hplan Howner Hfails.
  rewrite completeDailyPlan_cases, Hday, Hplan, Howner, Nat.eqb_refl.
  cbn [negb gate_fails].
  destruct (DailyPlan.isUnlocked dailyPlan) eqn:Hlock; cbn [negb]; [|reflexivity].
  unfold gates_open.
  destruct g; cbn [gate_fails] in Hfails; apply negb_true_iff in Hfails.
  - congruence.
  - now rewrite Hfails.
  - rewrite Hfails. now rewrite andb_false_r.
  - rewrite Hfails. now rewrite andb_false_r.
Qed.

Lemma completeDailyPlan_first_failing_check_witness :
  exists dailyPlan learningPlan,
    daily_of 1 one_day_open_quiz = Some dailyPlan
    /\ prisma.include_learningPlan dailyPlan one_day_open_quiz = Some learningPlan
    /\ LearningPlan.userId learningPlan = learner
    /\ gate_fails QuizGate dailyPlan learner one_day_open_quiz = true
    /\ DailyPlanService.completeDailyPlan 1 learner one_day_open_quiz
       = (Throw incomplete_error, one_day_open_quiz).
Proof.
  eexists _, _.
  split; [reflexivity|]. split; [reflexivity|]. split; [reflexivity|].
  split; [reflexivity|].
  exact (completeDailyPlan_first_failing_check 1 learner one_day_open_quiz _ _ QuizGate
           eq_refl eq_refl eq_refl eq_refl).
Defined.

(** C7, as the specification states it, does not hold: a day whose only
    failing gate is its resources and a day whose only failing gate is its
    quiz are answered with the same exception, so no reading of the
    exception recovers the gate. *)
Lemma error_does_not_identify_gate : ~ error_identifies_gate.
Proof.
  intros (identify & H).
  destruct (H 1%nat learner one_day_open_resource
              (DailyPlan.mk 1 0 1 true false None)
              (LearningPlan.mk 0 learner GENERIC 1 true 1 (S754_zero false))
              ResourcesGate eq_refl eq_refl eq_refl eq_refl) as (e1 & db1 & Hrun1 & Hid1).
  destruct (H 1%nat learner one_day_open_quiz
              (DailyPlan.mk 1 0 1 true false None)
              (LearningPlan.mk 0 learner GENERIC 1 true 1 (S754_zero false))
              QuizGate eq_refl eq_refl eq_refl eq_refl) as (e2 & db2 & Hrun2 & Hid2).
  vm_compute in Hrun1, Hrun2.
  injection Hrun1 as <- _. injection Hrun2 as <- _.
  rewrite Hid1 in Hid2. discriminate.
Qed.

(* ===================================================================== *)
(** ** Completing a day: the effects *)

(** C2, as the code has it.  After a successful [completeDailyPlan] on a day
    N before the last one: day N is completed, the stored day N+1 is
    unlocked, the plan's [currentDay] is N+1, and the plan's progress is
    [Math.round((completedDaysCount / durationDays) * 100)] evaluated in
    double precision, quotient first, where [completedDaysCount] counts the
    completed days of the plan after the update. *)
Theorem completeDailyPlan_inner_day id userId db dailyPlan learningPlan completed db' :
  daily_of id db = Some dailyPlan ->
  prisma.include_learningPlan dailyPlan db = Some learningPlan ->
  DailyPlan.dayNumber dailyPlan < LearningPlan.durationDays learningPlan ->
  DailyPlanService.completeDailyPlan id userId db = (Ok completed, db') ->
  (exists d, daily_of id db' = Some d /\ DailyPlan.isCompleted d = true)
  /\ (forall nextDay,
        day_of (DailyPlan.learningPlanId dailyPlan) (DailyPlan.dayNumber dailyPlan + 1) db
        = Some nextDay ->
        exists d,
          day_of (DailyPlan.learningPlanId dailyPlan) (DailyPlan.dayNumber dailyPlan + 1) db'
          = Some d
          /\ DailyPlan.id d = DailyPlan.id nextDay
          /\ DailyPlan.isUnlocked d = true)
  /\ exists plan',
       plan_of (DailyPlan.learningPlanId dailyPlan) db' = Some plan'
       /\ LearningPlan.currentDay plan' = DailyPlan.dayNumber dailyPlan + 1
       /\ LearningPlan.progress plan'
          = progress_of
              (completedDaysCount_of (DailyPlan.learningPlanId dailyPlan) (dailyPlans db'))
              (LearningPlan.durationDays learningPlan).
Proof.
  intros Hday Hplan Hlt Hrun.
  destruct (completeDailyPlan_ok_inv _ _ _ _ _ _ _ Hday Hplan Hrun)
    as (_ & _ & _ & _ & ->).
  split; [now apply day_after_completion_completed|].
  split; [intros nextDay; now apply next_day_after_completion_unlocked|].
  eexists. split; [now apply plan_after_completion_found|].
  cbn. unfold Math.min. split; [lia | reflexivity].
Qed.

Lemma completeDailyPlan_inner_day_witness :
  exists dailyPlan learningPlan completed db',
    daily_of 1 three_days = Some dailyPlan
    /\ prisma.include_learningPlan dailyPlan three_days = Some learningPlan
    /\ DailyPlan.dayNumber dailyPlan < LearningPlan.durationDays learningPlan
    /\ DailyPlanService.completeDailyPlan 1 learner three_days = (Ok completed, db')
    /\ exists plan',
         plan_of 0 db' = Some plan'
         /\ LearningPlan.currentDay plan' = 2
         /\ LearningPlan.progress plan' = Number.of_Z 33.
Proof.
  eexists _, _, _, _.
  split; [reflexivity|]. split; [reflexivity|]. split; [reflexivity|].
  split; [reflexivity|].
  destruct (completeDailyPlan_inner_day 1 learner three_days _ _ _ _
              eq_refl eq_refl eq_refl eq_refl) as (_ & _ & plan' & Hfound & Hday & Hprog).
  exists plan'. split; [exact Hfound|]. split; [exact Hday|].
  rewrite Hprog. reflexivity.
Defined.

(** C2, as the specification states it, does not hold: with 40 days of
    which 22 are completed, completing day 23 stores the progress 57, while
    round(100 × 23 / 40) = round(57.5) = 58.  The double nearest to 23/40
    lies below 0.575, and its product with 100 rounds to
    57.49999999999999. *)
Lemma inner_day_progress_counterexample : ~ inner_day_completion_as_specified.
Proof.
  intros H.
  destruct (H 23%nat learner forty_days_22_done
              (DailyPlan.mk 23 0 23 true false None)
              (LearningPlan.mk 0 learner GENERIC 40 true 23 (Number.of_Z 55))
              (DailyPlan.mk 23 0 23 true true None)
              (after (DailyPlanService.completeDailyPlan 23 learner) forty_days_22_done)
              eq_refl eq_refl eq_refl eq_refl)
    as (_ & _ & plan' & Hfound & _ & Hprog).
  vm_compute in Hfound. injection Hfound as <-.
  vm_compute in Hprog. discriminate.
Qed.







(* ===================================================================== *)
(** ** Changing the duration *)



(* ===================================================================== *)
(** ** Direct progress updates *)



(* ===================================================================== *)
(** ** The bound on [currentDay] *)

(** C3 at the failing input.  A five-day plan whose [currentDay] is 5
    satisfies the bound; shortening it to three days through
    [updateLearningPlan] succeeds and leaves [currentDay = 5] next to
    [durationDays = 3]: [handleDurationChange] writes the new duration and
    deletes days 4 and 5 but never touches [currentDay]. *)
Theorem updateLearningPlan_shorter_breaks_bound :
  exists before r db' afterwards,
    plan_of 0 five_days_at_5 = Some before
    /\ currentDay_bounded before
    /\ LearningPlanService.updateLearningPlan 0 learner (set_durationDays 3) five_days_at_5
       = (Ok r, db')
    /\ map DailyPlan.dayNumber (dailyPlans db') = [1; 2; 3]
    /\ plan_of 0 db' = Some afterwards
    /\ LearningPlan.durationDays afterwards = 3
    /\ LearningPlan.currentDay afterwards = 5
    /\ ~ currentDay_bounded afterwards.
Proof.
  eexists _, _, _, _.
  split; [reflexivity|]. split; [unfold currentDay_bounded; cbn; lia|].
  split; [vm_compute; reflexivity|]. split; [reflexivity|]. split; [reflexivity|].
  split; [reflexivity|]. split; [reflexivity|].
  unfold currentDay_bounded. cbn. lia.
Qed.

(* ===================================================================== *)
(** ** Every call fails cleanly *)

Lemma for_days_create_plans learningPlanId unlocked n :
  forall day db o db',
    for_days n day
      (fun day => prisma.dailyPlan_create learningPlanId day (unlocked day) false ;;; ret tt)
      db = (o, db') ->
    learningPlans db' = learningPlans db.
Proof.
  induction n as [|n IH]; intros day db o db' Hrun.
  - cbn in Hrun. unfold ret in Hrun. now injection Hrun as _ <-.
  - cbn [for_days] in Hrun. unfold bind at 1 in Hrun. unfold bind at 1 in Hrun.
    unfold prisma.dailyPlan_create in Hrun.
    destruct (existsb _ (dailyPlans db)); [now injection Hrun as _ <-|].
    destruct (negb _); [now injection Hrun as _ <-|].
    unfold ret at 1 in Hrun. apply IH in Hrun. exact Hrun.
Qed.









(* ===================================================================== *)
(** ** Counting rows by key *)


Section Counting.

Context {A : Type} (key : A -> Id).

Lemma NoDup_map_filter (p : A -> bool) (l : list A) :
  NoDup (map key l) -> NoDup (map key (filter p l)).
Proof.
  induction l as [|x r IH]; cbn; intros H; [constructor|].
  inversion H as [|? ? Hnotin Hr]; subst.
  destruct (p x); cbn; [constructor|]; auto.
  intros Hin. apply Hnotin. apply in_map_iff in Hin as (y & Hy & Hin).
  apply filter_In in Hin as [Hin _]. apply in_map_iff. now exists y.
Qed.

(** Rows with distinct keys that cover a duplicate-free list of keys are as
    many as the keys. *)
Lemma length_by_keys (l : list A) (ids : list Id) :
  NoDup (map key l) -> NoDup ids ->
  (forall i, In i (map key l) <-> In i ids) ->
  length l = length ids.
Proof.
  intros Hl Hids Hsame. rewrite <- (length_map key l).
  apply Permutation_length. now apply NoDup_Permutation.
Qed.

Lemma length_nodup_lt (ids : list Id) :
  ~ NoDup ids -> (length (nodup Nat.eq_dec ids) < length ids)%nat.
Proof.
  induction ids as [|a r IH]; intros Hdup.
  - exfalso. apply Hdup. constructor.
  - cbn [nodup]. destruct (in_dec Nat.eq_dec a r) as [Hin|Hnotin].
    + pose proof (nodup_incl Nat.eq_dec) as _. cbn.
      assert (length (nodup Nat.eq_dec r) <= length r)%nat; [|lia].
      apply NoDup_incl_length; [apply NoDup_nodup|].
      intros x Hx. now apply nodup_In in Hx.
    + cbn. apply -> Nat.succ_lt_mono. apply IH. intros Hr. apply Hdup.
      now constructor.
Qed.

(** Rows with distinct keys taken from a list that names a key twice are
    fewer than the entries of the list. *)
Lemma length_by_keys_lt (l : list A) (ids : list Id) :
  NoDup (map key l) -> incl (map key l) ids -> ~ NoDup ids ->
  (length l < length ids)%nat.
Proof.
  intros Hl Hincl Hdup. rewrite <- (length_map key l).
  apply Nat.le_lt_trans with (length (nodup Nat.eq_dec ids)).
  - apply NoDup_incl_length; [exact Hl|].
    intros x Hx. apply nodup_In. now apply Hincl.
  - now apply length_nodup_lt.
Qed.

End Counting.

Lemma mem_id_In i l : prisma.mem_id i l = true <-> In i l.
Proof.
  unfold prisma.mem_id. rewrite existsb_exists. split.
  - intros (x & Hin & Heq). apply Nat.eqb_eq in Heq. now subst.
  - intros Hin. exists i. split; [exact Hin | apply Nat.eqb_refl].
Qed.

(* ===================================================================== *)
(** ** Assigning resources to a day *)

Lemma by_id_update id (day : Id) (set : Id -> Resource.t -> Resource.t) x k :
  (forall d r, Resource.id (set d r) = Resource.id r) ->
  prisma'.by_id k (if prisma'.by_id id x then set day x else x) = prisma'.by_id k x.
Proof.
  intros Hset. destruct (prisma'.by_id id x); [|reflexivity].
  unfold prisma'.by_id. now rewrite Hset.
Qed.

(** A sequence of updates whose keys are all stored goes through, one
    [map] per key. *)
Lemma for_each_update_run (day : Id) (set : Id -> Resource.t -> Resource.t)
    (Hset : forall d r, Resource.id (set d r) = Resource.id r) :
  forall ids db,
    existsb (fun d => Nat.eqb (DailyPlan.id d) day) (dailyPlans db) = true ->
    all_stored ids db = true ->
    for_each ids (fun resourceId => prisma'.resource_update resourceId day set) db
    = (Ok tt, prisma'.with_resources (updated_each (set day) ids (resources db)) db).
Proof.
  induction ids as [|i r IH]; intros db Hday Hall.
  - cbn. unfold ret. now destruct db.
  - cbn [for_each]. unfold bind at 1, prisma'.resource_update.
    cbn [all_stored forallb] in Hall. apply andb_true_iff in Hall as [Hi Hr].
    apply existsb_exists in Hi as (x & Hin & Hx).
    destruct (find_In_some _ _ _ Hin Hx) as [y Hy]. rewrite Hy, Hday. cbn [negb].
    rewrite IH.
    + reflexivity.
    + exact Hday.
    + cbn [resources prisma'.with_resources]. unfold all_stored in *.
      rewrite forallb_forall in *. intros k Hk. specialize (Hr k Hk).
      rewrite existsb_exists in *. destruct Hr as (z & Hz & Hkz).
      exists (if prisma'.by_id i z then set day z else z). split.
      * apply in_map_iff. now exists z.
      * now rewrite by_id_update.
Qed.

(** A sequence of updates that names a key which is not stored throws, and
    what it throws is a Prisma error. *)
Lemma for_each_update_throws (day : Id) (set : Id -> Resource.t -> Resource.t)
    (Hset : forall d r, Resource.id (set d r) = Resource.id r) :
  forall ids db,
    all_stored ids db = false ->
    exists code db',
      for_each ids (fun resourceId => prisma'.resource_update resourceId day set) db
      = (Throw (PrismaClientKnownRequestError code), db').
Proof.
  induction ids as [|i r IH]; intros db Hall; [discriminate|].
  cbn [for_each]. unfold bind at 1, prisma'.resource_update.
  destruct (find (prisma'.by_id i) (resources db)) as [x|] eqn:Hx; [|eauto].
  destruct (negb _); [eauto|].
  apply IH. cbn [all_stored forallb] in Hall.
  rewrite (find_existsb _ _ _ Hx) in Hall. cbn [andb] in Hall.
  cbn [resources prisma'.with_resources]. unfold all_stored in *.
  apply not_true_iff_false. intros Hr. apply not_true_iff_false in Hall. apply Hall.
  rewrite forallb_forall in *. intros k Hk. specialize (Hr k Hk).
  rewrite existsb_exists in *. destruct Hr as (z & Hz & Hkz).
  apply in_map_iff in Hz as (z0 & <- & Hz0). exists z0. split; [exact Hz0|].
  now rewrite by_id_update in Hkz.
Qed.

Lemma updated_each_map set (Hidem : forall r, set (set r) = set r)
    (Hid : forall r, Resource.id (set r) = Resource.id r) :
  forall ids l,
    updated_each set ids l
    = map (fun x => if prisma.mem_id (Resource.id x) ids then set x else x) l.
Proof.
  unfold updated_each.
  induction ids as [|i r IH]; intros l; cbn [fold_left].
  - cbn. symmetry. apply map_id.
  - rewrite IH, map_map. apply map_ext. intros x.
    unfold prisma'.by_id, prisma.mem_id. cbn [existsb].
    destruct (Nat.eqb (Resource.id x) i) eqn:E; cbn [orb].
    + rewrite Hid.
      destruct (existsb (Nat.eqb (Resource.id x)) r); [apply Hidem | reflexivity].
    + reflexivity.
Qed.

Lemma existsb_map_stable {A} (p : A -> bool) (f : A -> A) (l : list A) :
  (forall x, p (f x) = p x) -> existsb p (map f l) = existsb p l.
Proof.
  intros Hp. induction l as [|x r IH]; cbn; [reflexivity|]. now rewrite Hp, IH.
Qed.

Lemma all_stored_over f ids l db db' :
  (forall r, Resource.id (f r) = Resource.id r) ->
  all_stored ids (prisma'.with_resources (map f l) db)
  = all_stored ids (prisma'.with_resources l db').
Proof.
  intros Hf. unfold all_stored. cbn [resources prisma'.with_resources].
  induction ids as [|i r IH]; cbn [forallb]; [reflexivity|].
  rewrite IH. f_equal. apply existsb_map_stable.
  intros x. unfold prisma'.by_id. now rewrite Hf.
Qed.

Lemma all_stored_same ids db db' :
  all_stored ids (prisma'.with_resources (resources db) db') = all_stored ids db.
Proof. reflexivity. Qed.

Lemma clear_learning_id day r :
  Resource.id (prisma'.clear_learning day r) = Resource.id r.
Proof. unfold prisma'.clear_learning. now destruct (prisma.opt_is _ _). Qed.

Lemma clear_practice_id day r :
  Resource.id (prisma'.clear_practice day r) = Resource.id r.
Proof. unfold prisma'.clear_practice. now destruct (prisma.opt_is _ _). Qed.

Lemma all_stored_cleared day ids db db' :
  all_stored ids
    (prisma'.with_resources
       (map (prisma'.clear_practice day)
          (map (prisma'.clear_learning day) (resources db))) db')
  = all_stored ids db.
Proof.
  rewrite (all_stored_over _ ids _ db' db (clear_practice_id day)).
  rewrite (all_stored_over _ ids _ db db (clear_learning_id day)).
  apply all_stored_same.
Qed.

Lemma assignResources_run day ls ps db d :
  daily_of day db = Some d ->
  length (filter (fun r => prisma.mem_id (Resource.id r) ls) (resources db)) = length ls ->
  all_stored ls db = true ->
  all_stored ps db = true ->
  DailyPlanService'.assignResourcesToDailyPlan day ls ps db
  = (Ok (Some d),
     prisma'.with_resources (map (reassigned day ls ps) (resources db)) db).
Proof.
  intros Hday Hcount Hls Hps. unfold daily_of in Hday.
  assert (Hstored : existsb (fun x => Nat.eqb (DailyPlan.id x) day) (dailyPlans db) = true)
    by exact (find_existsb _ _ _ Hday).
  unfold DailyPlanService'.assignResourcesToDailyPlan, rethrow, bind at 1,
    prisma.dailyPlan_findUnique.
  rewrite Hday. unfold bind at 1, prisma'.resource_findMany, prisma.read.
  rewrite Hcount, Nat.eqb_refl. cbn [negb].
  unfold bind at 1, transaction.
  unfold bind at 1, prisma'.resource_updateMany.
  unfold bind at 1.
  unfold bind at 1.
  cbn [resources prisma'.with_resources].
  rewrite for_each_update_run; [|reflexivity|exact Hstored|].
  2:{ rewrite all_stored_cleared. exact Hls. }
  cbn [resources prisma'.with_resources].
  rewrite for_each_update_run; [|reflexivity|exact Hstored|].
  2:{ cbn [resources prisma'.with_resources].
      rewrite updated_each_map by reflexivity.
      rewrite (all_stored_over _ ps _ _ db).
      - rewrite all_stored_cleared. exact Hps.
      - intros r. now destruct (prisma.mem_id _ ls). }
  cbn [dailyPlans resources prisma'.with_resources]. rewrite Hday.
  f_equal. unfold prisma'.with_resources. cbn. f_equal.
  rewrite !updated_each_map by reflexivity. rewrite !map_map.
  apply map_ext. intros r. unfold reassigned.
  rewrite clear_practice_id, clear_learning_id.
  destruct (prisma.mem_id (Resource.id r) ls); cbn [prisma'.set_learning Resource.id];
    rewrite ?clear_practice_id, ?clear_learning_id; reflexivity.
Qed.

(* ===================================================================== *)
(** ** The remaining calls, case by case *)


Lemma getLearningPlanById_cases id userId db :
  LearningPlanService'.getLearningPlanById id userId db =
  match plan_of id db with
  | None => (Throw (ApiError 404 "Learning plan not found"), db)
  | Some learningPlan =>
      if negb (Nat.eqb (LearningPlan.userId learningPlan) userId) then
        (Throw (ApiError 403 "You do not have permission to access this learning plan"), db)
      else (Ok (learningPlan, prisma.orderBy_dayNumber_asc (days_of id db)), db)
  end.
Proof.
  unfold LearningPlanService'.getLearningPlanById, rethrow, bind.
  rewrite findUnique_with_days_run.
  destruct (plan_of id db) as [p|]; cbn [option_map fst]; [|reflexivity].
  now destruct (negb _).
Qed.

Lemma deleteLearningPlan_cases id userId db :
  LearningPlanService'.deleteLearningPlan id userId db =
  match plan_of id db with
  | None => (Throw (ApiError 404 "Learning plan not found"), db)
  | Some existingPlan =>
      if negb (Nat.eqb (LearningPlan.userId existingPlan) userId) then
        (Throw (ApiError 403 "You do not have permission to delete this learning plan"), db)
      else prisma'.learningPlan_delete id db
  end.
Proof.
  unfold LearningPlanService'.deleteLearningPlan, rethrow, bind,
    prisma.learningPlan_findUnique, plan_of.
  destruct (find _ (learningPlans db)) as [p|] eqn:Hp; [|reflexivity].
  destruct (negb _); [reflexivity|].
  unfold prisma'.learningPlan_delete. now rewrite Hp.
Qed.

Lemma getDailyPlanById_cases id userId db :
  DailyPlanService'.getDailyPlanById id userId db =
  match daily_of id db with
  | None => (Throw (ApiError 404 "Daily plan not found"), db)
  | Some dailyPlan =>
      match prisma.include_learningPlan dailyPlan db with
      | None => (Throw (ApiError 500 "Error fetching daily plan"), db)
      | Some learningPlan =>
          if negb (Nat.eqb (LearningPlan.userId learningPlan) userId) then
            (Throw (ApiError 403 "You do not have permission to access this daily plan"), db)
          else (Ok dailyPlan, db)
      end
  end.
Proof.
  unfold DailyPlanService'.getDailyPlanById, rethrow, bind at 1,
    prisma.dailyPlan_findUnique, daily_of.
  destruct (find _ (dailyPlans db)) as [d|]; [|reflexivity].
  unfold bind, prisma.read.
  destruct (prisma.include_learningPlan d db); [|reflexivity].
  now destruct (negb _).
Qed.

Lemma getLearningPlanDailyPlans_cases learningPlanId userId db :
  DailyPlanService'.getLearningPlanDailyPlans learningPlanId userId db =
  match plan_of learningPlanId db with
  | None => (Throw (ApiError 404 "Learning plan not found"), db)
  | Some learningPlan =>
      if negb (Nat.eqb (LearningPlan.userId learningPlan) userId) then
        (Throw (ApiError 403 "You do not have permission to access this learning plan"), db)
      else (Ok (prisma.orderBy_dayNumber_asc (days_of learningPlanId db)), db)
  end.
Proof.
  unfold DailyPlanService'.getLearningPlanDailyPlans, rethrow, bind,
    prisma.learningPlan_findUnique, plan_of.
  destruct (find _ (learningPlans db)) as [p|]; [|reflexivity].
  now destruct (negb _).
Qed.

Lemma addQuizToDailyPlan_cases dailyPlanId db :
  DailyPlanService'.addQuizToDailyPlan dailyPlanId db =
  match daily_of dailyPlanId db with
  | None => (Throw (ApiError 404 "Daily plan not found"), db)
  | Some dailyPlan =>
      match prisma.include_quiz dailyPlan db with
      | Some _ => (Throw (ApiError 400 "Daily plan already has a quiz"), db)
      | None =>
          let quiz := Quiz.mk (uuidSeed db) dailyPlanId in
          (Ok quiz,
           mkDb (learningPlans db) (dailyPlans db) (resources db) (userResources db)
                (quizzes db ++ [quiz]) (quizAttempts db) (mockInterviews db)
                (S (uuidSeed db)))
      end
  end.
Proof.
  unfold DailyPlanService'.addQuizToDailyPlan, rethrow, bind at 1,
    prisma.dailyPlan_findUnique, daily_of.
  destruct (find _ (dailyPlans db)) as [d|] eqn:Hd; [|reflexivity].
  unfold bind, prisma.read, prisma.include_quiz.
  destruct (find_some _ _ Hd) as [_ Hid]. apply Nat.eqb_eq in Hid. rewrite Hid.
  destruct (find _ (quizzes db)) as [q|] eqn:Hq; [reflexivity|].
  unfold prisma'.quiz_create.
  destruct (existsb _ (quizzes db)) eqn:Hex.
  { apply existsb_exists in Hex as (q & Hin & Hq'). pose proof (find_none _ _ Hq _ Hin).
    congruence. }
  rewrite (find_existsb _ _ _ Hd). reflexivity.
Qed.

Lemma completeResource_cases resourceId userId db :
  ResourceService.completeResource resourceId userId db =
  match find (prisma'.by_id resourceId) (resources db) with
  | None => (Throw (ApiError 404 "Resource not found"), db)
  | Some _ =>
      if existsb (prisma'.completion_of userId resourceId) (userResources db) then
        (Throw (ApiError 400 "Resource already marked as completed"), db)
      else
        (Ok tt,
         mkDb (learningPlans db) (dailyPlans db) (resources db)
              (userResources db ++ [UserResource.mk (uuidSeed db) userId resourceId])
              (quizzes db) (quizAttempts db) (mockInterviews db) (S (uuidSeed db)))
  end.
Proof.
  unfold ResourceService.completeResource, rethrow, bind at 1,
    prisma'.resource_findUnique, prisma.read.
  destruct (find _ (resources db)) as [r|] eqn:Hr; [|reflexivity].
  unfold bind at 1, prisma'.userResource_findUnique, prisma.read.
  destruct (find _ (userResources db)) as [ur|] eqn:Hur.
  { now rewrite (find_existsb _ _ _ Hur). }
  destruct (existsb _ (userResources db)) eqn:Hex.
  { apply existsb_exists in Hex as (q & Hin & Hq'). pose proof (find_none _ _ Hur _ Hin).
    congruence. }
  unfold bind, prisma'.userResource_create. rewrite Hex.
  rewrite (find_existsb _ _ _ Hr). reflexivity.
Qed.


(* ===================================================================== *)
(** ** Failures *)



(** X2.  Every call that takes a requester and finds the learning plan it
    addresses (directly, or through the daily plan it addresses) answers
    403 to a requester who is not the owner of that plan, and changes
    nothing. *)
Theorem requester_must_own_plan c db learningPlan userId :
  checked_against c db = Some (learningPlan, userId) ->
  LearningPlan.userId learningPlan <> userId ->
  exists message, perform c db = (Throw (ApiError 403 message), db).
Proof.
  intros Hchecked Hother.
  assert (Hneq : forall p u, Some (p, u) = Some (learningPlan, userId) ->
                             negb (Nat.eqb (LearningPlan.userId p) u) = true).
  { intros p u Heq. injection Heq as -> ->. apply negb_true_iff. now apply Nat.eqb_neq. }
  destruct c; cbn [checked_against] in Hchecked; try discriminate;
    cbn [perform]; try unfold bind at 1.
  - rewrite getLearningPlanById_cases.
    destruct (plan_of id db) as [p|]; [|discriminate]. rewrite (Hneq _ _ Hchecked). eauto.
  - unfold LearningPlanService.updateLearningPlan, rethrow, bind at 1,
      prisma.learningPlan_findUnique. unfold plan_of in Hchecked.
    destruct (find _ (learningPlans db)) as [p|]; [|discriminate].
    rewrite (Hneq _ _ Hchecked). unfold throw. eauto.
  - rewrite deleteLearningPlan_cases.
    destruct (plan_of id db) as [p|]; [|discriminate]. rewrite (Hneq _ _ Hchecked). eauto.
  - destruct (updateLearningPlanProgress_cases id userId0 progressData db) as (days & ->).
    destruct (plan_of id db) as [p|]; [|discriminate]. rewrite (Hneq _ _ Hchecked). eauto.
  - rewrite getDailyPlanById_cases.
    destruct (daily_of id db) as [d|]; [|discriminate].
    destruct (prisma.include_learningPlan d db) as [p|]; [|discriminate].
    rewrite (Hneq _ _ Hchecked). eauto.
  - rewrite getLearningPlanDailyPlans_cases.
    destruct (plan_of learningPlanId db) as [p|]; [|discriminate].
    rewrite (Hneq _ _ Hchecked). eauto.
  - rewrite unlockDailyPlan_cases.
    destruct (daily_of id db) as [d|]; [|discriminate].
    destruct (prisma.include_learningPlan d db) as [p|]; [|discriminate].
    rewrite (Hneq _ _ Hchecked). eauto.
  - rewrite completeDailyPlan_cases.
    destruct (daily_of id db) as [d|]; [|discriminate].
    destruct (prisma.include_learningPlan d db) as [p|]; [|discriminate].
    rewrite (Hneq _ _ Hchecked). eauto.
Qed.

Lemma requester_must_own_plan_witness :
  exists learningPlan,
    checked_against (DeleteLearningPlan 0 stranger) two_days = Some (learningPlan, stranger)
    /\ LearningPlan.userId learningPlan <> stranger
    /\ exists message,
         perform (DeleteLearningPlan 0 stranger) two_days
         = (Throw (ApiError 403 message), two_days).
Proof.
  eexists. split; [reflexivity|]. split; [discriminate|].
  refine (requester_must_own_plan (DeleteLearningPlan 0 stranger) two_days _ stranger
            eq_refl _).
  discriminate.
Defined.

(* ===================================================================== *)
(** ** Assigning resources to a day *)

Lemma all_stored_In ids db i :
  all_stored ids db = true -> In i ids -> In i (map Resource.id (resources db)).
Proof.
  unfold all_stored. rewrite forallb_forall. intros Hall Hi.
  specialize (Hall i Hi). apply existsb_exists in Hall as (r & Hin & Hr).
  apply Nat.eqb_eq in Hr. apply in_map_iff. now exists r.
Qed.

Lemma In_all_stored ids db :
  incl ids (map Resource.id (resources db)) -> all_stored ids db = true.
Proof.
  intros Hincl. unfold all_stored. apply forallb_forall. intros i Hi.
  apply Hincl in Hi. apply in_map_iff in Hi as (r & Hr & Hin).
  apply existsb_exists. exists r. split; [exact Hin|]. now apply Nat.eqb_eq.
Qed.

Lemma found_keys_listed ids db :
  incl (map Resource.id
          (filter (fun r => prisma.mem_id (Resource.id r) ids) (resources db))) ids.
Proof.
  intros i Hi. apply in_map_iff in Hi as (r & <- & Hin).
  apply filter_In in Hin as [_ Hmem]. now apply mem_id_In.
Qed.

(** The existence check of [assignResourcesToDailyPlan] compares two
    lengths; on a table with distinct keys they agree exactly when the list
    names stored resources and names none twice. *)
Lemma findMany_count_eq ids db :
  NoDup (map Resource.id (resources db)) ->
  NoDup ids -> all_stored ids db = true ->
  length (filter (fun r => prisma.mem_id (Resource.id r) ids) (resources db)) = length ids.
Proof.
  intros Hkeys Hids Hall. apply (length_by_keys Resource.id).
  - now apply NoDup_map_filter.
  - exact Hids.
  - intros i. split; [apply found_keys_listed|]. intros Hi.
    pose proof (all_stored_In _ _ _ Hall Hi) as Hin.
    apply in_map_iff in Hin as (r & <- & Hin). apply in_map_iff. exists r.
    split; [reflexivity|]. apply filter_In. split; [exact Hin|]. now apply mem_id_In.
Qed.

Lemma findMany_count_neq ids db :
  NoDup (map Resource.id (resources db)) ->
  all_stored ids db = false \/ ~ NoDup ids ->
  length (filter (fun r => prisma.mem_id (Resource.id r) ids) (resources db)) <> length ids.
Proof.
  intros Hkeys Hbad.
  assert (Hfound : NoDup (map Resource.id
            (filter (fun r => prisma.mem_id (Resource.id r) ids) (resources db))))
    by now apply NoDup_map_filter.
  destruct (ListDec.NoDup_dec Nat.eq_dec ids) as [Hids|Hdup].
  - destruct Hbad as [Hmissing|Hdup]; [|contradiction].
    intros Heq. apply not_true_iff_false in Hmissing. apply Hmissing.
    apply In_all_stored. intros i Hi.
    assert (Hincl : incl ids (map Resource.id
              (filter (fun r => prisma.mem_id (Resource.id r) ids) (resources db)))).
    { apply NoDup_length_incl; [exact Hfound| |apply found_keys_listed].
      rewrite length_map. lia. }
    apply Hincl in Hi. apply in_map_iff in Hi as (r & <- & Hin).
    apply filter_In in Hin as [Hin _]. apply in_map_iff. now exists r.
  - pose proof (length_by_keys_lt Resource.id _ ids Hfound (found_keys_listed ids db) Hdup).
    lia.
Qed.

Lemma reassigned_id day ls ps r : Resource.id (reassigned day ls ps r) = Resource.id r.
Proof.
  unfold reassigned.
  destruct (prisma.mem_id _ ps), (prisma.mem_id _ ls);
    cbn [prisma'.set_learning prisma'.set_practice Resource.id];
    now rewrite clear_practice_id, clear_learning_id.
Qed.

Lemma reassigned_learning day ls ps r :
  Resource.learningPlanDayId (reassigned day ls ps r)
  = if prisma.mem_id (Resource.id r) ls then Some day
    else if prisma.opt_is day (Resource.learningPlanDayId r) then None
    else Resource.learningPlanDayId r.
Proof.
  unfold reassigned, prisma'.clear_practice, prisma'.clear_learning.
  destruct (prisma.mem_id _ ps), (prisma.mem_id _ ls),
    (prisma.opt_is day (Resource.learningPlanDayId r)) eqn:Hl; cbn;
    try reflexivity;
    destruct (prisma.opt_is day (Resource.practicePlanDayId r)); reflexivity.
Qed.

Lemma reassigned_practice day ls ps r :
  Resource.practicePlanDayId (reassigned day ls ps r)
  = if prisma.mem_id (Resource.id r) ps then Some day
    else if prisma.opt_is day (Resource.practicePlanDayId r) then None
    else Resource.practicePlanDayId r.
Proof.
  unfold reassigned, prisma'.clear_practice, prisma'.clear_learning.
  destruct (prisma.mem_id _ ps), (prisma.mem_id _ ls),
    (prisma.opt_is day (Resource.learningPlanDayId r)) eqn:Hl; cbn;
    try reflexivity;
    destruct (prisma.opt_is day (Resource.practicePlanDayId r)) eqn:Hp; cbn;
    try reflexivity; try (now rewrite Hp).
Qed.

Lemma opt_is_same day : prisma.opt_is day (Some day) = true.
Proof. cbn. apply Nat.eqb_refl. Qed.

Lemma learning_after day ls ps r :
  prisma.opt_is day (Resource.learningPlanDayId (reassigned day ls ps r))
  = prisma.mem_id (Resource.id r) ls.
Proof.
  rewrite reassigned_learning.
  destruct (prisma.mem_id _ ls); [apply opt_is_same|].
  now destruct (prisma.opt_is day (Resource.learningPlanDayId r)) eqn:H.
Qed.

Lemma practice_after day ls ps r :
  prisma.opt_is day (Resource.practicePlanDayId (reassigned day ls ps r))
  = prisma.mem_id (Resource.id r) ps.
Proof.
  rewrite reassigned_practice.
  destruct (prisma.mem_id _ ps); [apply opt_is_same|].
  now destruct (prisma.opt_is day (Resource.practicePlanDayId r)) eqn:H.
Qed.

Lemma attached_keys (f : Resource.t -> Resource.t) (attached : Resource.t -> bool)
    ids db i :
  (forall r, Resource.id (f r) = Resource.id r) ->
  (forall r, attached (f r) = prisma.mem_id (Resource.id r) ids) ->
  all_stored ids db = true ->
  In i (map Resource.id (filter attached (map f (resources db)))) <-> In i ids.
Proof.
  intros Hid Hattached Hall. split.
  - intros Hi. apply in_map_iff in Hi as (r' & <- & Hin).
    apply filter_In in Hin as [Hin Hr']. apply in_map_iff in Hin as (r & <- & Hin).
    rewrite Hattached in Hr'. rewrite Hid. now apply mem_id_In.
  - intros Hi. pose proof (all_stored_In _ _ _ Hall Hi) as Hin.
    apply in_map_iff in Hin as (r & <- & Hin). apply in_map_iff. exists (f r).
    split; [apply Hid|]. apply filter_In. split; [now apply in_map|].
    rewrite Hattached. now apply mem_id_In.
Qed.

Lemma Forall2_map_right {A B} (P : A -> B -> Prop) (f : A -> B) (l : list A) :
  (forall x, P x (f x)) -> Forall2 P l (map f l).
Proof. intros H. induction l; cbn; constructor; auto. Qed.

(** X3.  On a resource table with distinct keys, [assignResourcesToDailyPlan]
    with stored resources, the learning ones named once each, succeeds and
    returns the day.  Afterwards the learning resources of the day are
    exactly the listed learning resources and its practice resources exactly
    the listed practice resources; every resource row keeps its key, a
    listed one points to the day, one that pointed to the day and is not
    listed points nowhere, and any other reference stays as it was (so a
    listed resource is taken away from the day it belonged to); the daily
    plans and the completions are untouched. *)
Theorem assignResources_attaches day ls ps db d :
  daily_of day db = Some d ->
  NoDup (map Resource.id (resources db)) ->
  NoDup ls ->
  all_stored ls db = true ->
  all_stored ps db = true ->
  exists db',
    DailyPlanService'.assignResourcesToDailyPlan day ls ps db = (Ok (Some d), db')
    /\ (forall i, In i (map Resource.id (prisma.include_learningResources d db'))
                  <-> In i ls)
    /\ (forall i, In i (map Resource.id (prisma.include_practiceResources d db'))
                  <-> In i ps)
    /\ Forall2
         (fun r r' =>
            Resource.id r' = Resource.id r
            /\ Resource.learningPlanDayId r'
               = (if prisma.mem_id (Resource.id r) ls then Some day
                  else if prisma.opt_is day (Resource.learningPlanDayId r) then None
                  else Resource.learningPlanDayId r)
            /\ Resource.practicePlanDayId r'
               = (if prisma.mem_id (Resource.id r) ps then Some day
                  else if prisma.opt_is day (Resource.practicePlanDayId r) then None
                  else Resource.practicePlanDayId r))
         (resources db) (resources db')
    /\ learningPlans db' = learningPlans db
    /\ dailyPlans db' = dailyPlans db
    /\ userResources db' = userResources db.
Proof.
  intros Hday Hkeys Hls Hlearning Hpractice.
  eexists. split.
  { apply assignResources_run; try assumption. now apply findMany_count_eq. }
  assert (Hid : DailyPlan.id d = day).
  { apply find_some in Hday as [_ Hid]. now apply Nat.eqb_eq. }
  unfold prisma.include_learningResources, prisma.include_practiceResources.
  cbn [resources learningPlans dailyPlans userResources prisma'.with_resources].
  rewrite Hid.
  split; [|split; [|split; [|now repeat split]]].
  - intros i.
    apply (attached_keys (reassigned day ls ps)
             (fun r => prisma.opt_is day (Resource.learningPlanDayId r)));
      [apply reassigned_id|apply learning_after|exact Hlearning].
  - intros i.
    apply (attached_keys (reassigned day ls ps)
             (fun r => prisma.opt_is day (Resource.practicePlanDayId r)));
      [apply reassigned_id|apply practice_after|exact Hpractice].
  - apply Forall2_map_right. intros r.
    now rewrite reassigned_id, reassigned_learning, reassigned_practice.
Qed.

Ltac distinct := repeat constructor; cbn; intuition (discriminate || lia).

Lemma assignResources_attaches_witness :
  exists d,
    daily_of 1 two_days_catalogue = Some d
    /\ NoDup (map Resource.id (resources two_days_catalogue))
    /\ NoDup [50%nat]
    /\ all_stored [50%nat] two_days_catalogue = true
    /\ all_stored [51%nat] two_days_catalogue = true
    /\ exists db',
         DailyPlanService'.assignResourcesToDailyPlan 1 [50%nat] [51%nat] two_days_catalogue
         = (Ok (Some d), db')
         /\ resources db' = [Resource.mk 50 (Some 1%nat) None; Resource.mk 51 None (Some 1%nat)].
Proof.
  eexists. split; [reflexivity|].
  assert (Hkeys : NoDup (map Resource.id (resources two_days_catalogue))) by distinct.
  assert (Hls : NoDup [50%nat]) by distinct.
  split; [exact Hkeys|]. split; [exact Hls|]. split; [reflexivity|]. split; [reflexivity|].
  destruct (assignResources_attaches 1 [50%nat] [51%nat] two_days_catalogue _
              eq_refl Hkeys Hls eq_refl eq_refl) as (db' & Hrun & _).
  exists db'. split; [exact Hrun|].
  vm_compute in Hrun. now injection Hrun as <-.
Defined.

(** X4.  The existence check of [assignResourcesToDailyPlan] covers the
    learning resources only.  With every learning resource stored and
    named once, a practice resource that is not stored is met by the
    [update] inside the transaction: the call answers 500 "Error assigning
    resources to daily plan", not the 400 of the check, and the transaction
    is rolled back, so that the resources the day had stay attached. *)
Theorem assignResources_unknown_practice_resource day ls ps db d :
  daily_of day db = Some d ->
  NoDup (map Resource.id (resources db)) ->
  NoDup ls ->
  all_stored ls db = true ->
  all_stored ps db = false ->
  DailyPlanService'.assignResourcesToDailyPlan day ls ps db
  = (Throw (ApiError 500 "Error assigning resources to daily plan"), db).
Proof.
  intros Hday Hkeys Hls Hlearning Hpractice. unfold daily_of in Hday.
  assert (Hstored : existsb (fun x => Nat.eqb (DailyPlan.id x) day) (dailyPlans db) = true)
    by exact (find_existsb _ _ _ Hday).
  unfold DailyPlanService'.assignResourcesToDailyPlan, rethrow, bind at 1,
    prisma.dailyPlan_findUnique.
  rewrite Hday. unfold bind at 1, prisma'.resource_findMany, prisma.read.
  rewrite (findMany_count_eq _ _ Hkeys Hls Hlearning), Nat.eqb_refl. cbn [negb].
  unfold bind at 1, transaction.
  unfold bind at 1, prisma'.resource_updateMany.
  unfold bind at 1.
  unfold bind at 1.
  cbn [resources prisma'.with_resources].
  rewrite for_each_update_run; [|reflexivity|exact Hstored|].
  2:{ rewrite all_stored_cleared. exact Hlearning. }
  cbn [resources prisma'.with_resources].
  edestruct (for_each_update_throws day prisma'.set_practice) as (code & db0 & ->);
    [reflexivity| |reflexivity].
  cbn [resources prisma'.with_resources].
  rewrite updated_each_map by reflexivity.
  rewrite (all_stored_over _ ps _ _ db).
  - rewrite all_stored_cleared. exact Hpractice.
  - intros r. now destruct (prisma.mem_id _ ls).
Qed.

Lemma assignResources_unknown_practice_resource_witness :
  exists d,
    daily_of 1 two_days_catalogue = Some d
    /\ NoDup (map Resource.id (resources two_days_catalogue))
    /\ NoDup [50%nat]
    /\ all_stored [50%nat] two_days_catalogue = true
    /\ all_stored [99%nat] two_days_catalogue = false
    /\ DailyPlanService'.assignResourcesToDailyPlan 1 [50%nat] [99%nat] two_days_catalogue
       = (Throw (ApiError 500 "Error assigning resources to daily plan"),
          two_days_catalogue).
Proof.
  eexists. split; [reflexivity|].
  assert (Hkeys : NoDup (map Resource.id (resources two_days_catalogue))) by distinct.
  assert (Hls : NoDup [50%nat]) by distinct.
  split; [exact Hkeys|]. split; [exact Hls|]. split; [reflexivity|]. split; [reflexivity|].
  exact (assignResources_unknown_practice_resource 1 [50%nat] [99%nat] two_days_catalogue _
           eq_refl Hkeys Hls eq_refl eq_refl).
Defined.

(** X5.  On a resource table with distinct keys the check of
    [assignResourcesToDailyPlan] rejects a learning list as soon as it names
    a resource that is not stored or names a resource twice: the call
    answers 400 "One or more resources do not exist" and changes nothing,
    in the second case although every named resource exists. *)
Theorem assignResources_rejects_learning_list day ls ps db d :
  daily_of day db = Some d ->
  NoDup (map Resource.id (resources db)) ->
  all_stored ls db = false \/ ~ NoDup ls ->
  DailyPlanService'.assignResourcesToDailyPlan day ls ps db
  = (Throw (ApiError 400 "One or more resources do not exist"), db).
Proof.
  intros Hday Hkeys Hbad. unfold daily_of in Hday.
  unfold DailyPlanService'.assignResourcesToDailyPlan, rethrow, bind at 1,
    prisma.dailyPlan_findUnique.
  rewrite Hday. unfold bind at 1, prisma'.resource_findMany, prisma.read.
  apply (findMany_count_neq _ _ Hkeys) in Hbad. apply Nat.eqb_neq in Hbad.
  now rewrite Hbad.
Qed.

Lemma assignResources_rejects_learning_list_witness :
  exists d,
    daily_of 1 two_days_catalogue = Some d
    /\ NoDup (map Resource.id (resources two_days_catalogue))
    /\ all_stored [50%nat; 50%nat] two_days_catalogue = true
    /\ ~ NoDup [50%nat; 50%nat]
    /\ DailyPlanService'.assignResourcesToDailyPlan 1 [50%nat; 50%nat] [] two_days_catalogue
       = (Throw (ApiError 400 "One or more resources do not exist"), two_days_catalogue).
Proof.
  eexists. split; [reflexivity|].
  assert (Hkeys : NoDup (map Resource.id (resources two_days_catalogue))) by distinct.
  assert (Htwice : ~ NoDup [50%nat; 50%nat]).
  { intros H. inversion H as [|? ? Hnotin _]. apply Hnotin. now left. }
  split; [exact Hkeys|]. split; [reflexivity|]. split; [exact Htwice|].
  exact (assignResources_rejects_learning_list 1 [50%nat; 50%nat] [] two_days_catalogue _
           eq_refl Hkeys (or_intror Htwice)).
Defined.

(* ===================================================================== *)
(** ** The resources gate *)

Lemma completed_keys_distinct userId (p : Id -> bool) (l : list UserResource.t) :
  NoDup (map (fun ur => (UserResource.userId ur, UserResource.resourceId ur)) l) ->
  NoDup (map UserResource.resourceId
           (filter (fun ur => Nat.eqb (UserResource.userId ur) userId
                              && p (UserResource.resourceId ur)) l)).
Proof.
  induction l as [|x r IH]; cbn [map filter]; intros Hl; [constructor|].
  inversion Hl as [|? ? Hnotin Hr]; subst.
  destruct (Nat.eqb (UserResource.userId x) userId && p (UserResource.resourceId x))
    eqn:Hx; [|now apply IH].
  cbn [map]. constructor; [|now apply IH].
  intros Hin. apply Hnotin. apply in_map_iff in Hin as (y & Hy & Hin).
  apply filter_In in Hin as [Hin Hyu]. apply in_map_iff. exists y.
  split; [|exact Hin].
  apply andb_true_iff in Hx as [Hxu _]. apply andb_true_iff in Hyu as [Hyu _].
  apply Nat.eqb_eq in Hxu, Hyu. congruence.
Qed.

Lemma completed_where_distinct userId ids db :
  completions_unique db ->
  NoDup (map UserResource.resourceId (prisma.userResource_where userId ids db)).
Proof.
  intros H.
  exact (completed_keys_distinct userId (fun i => prisma.mem_id i ids) _ H).
Qed.

Lemma completed_keys_listed userId ids db :
  incl (map UserResource.resourceId (prisma.userResource_where userId ids db)) ids.
Proof.
  intros i Hi. apply in_map_iff in Hi as (ur & <- & Hin).
  apply filter_In in Hin as [_ H]. apply andb_true_iff in H as [_ H].
  now apply mem_id_In.
Qed.

Lemma completed_key_iff userId ids db i :
  In i (map UserResource.resourceId (prisma.userResource_where userId ids db))
  <-> In i ids /\ existsb (prisma'.completion_of userId i) (userResources db) = true.
Proof.
  unfold prisma.userResource_where, prisma'.completion_of. split.
  - intros Hi. apply in_map_iff in Hi as (ur & <- & Hin).
    apply filter_In in Hin as [Hin H]. apply andb_true_iff in H as [Hu Hm].
    split; [now apply mem_id_In|]. apply existsb_exists. exists ur.
    split; [exact Hin|]. now rewrite Hu, Nat.eqb_refl.
  - intros [Hi Hex]. apply existsb_exists in Hex as (ur & Hin & H).
    apply andb_true_iff in H as [Hu Hr]. apply Nat.eqb_eq in Hr. subst i.
    apply in_map_iff. exists ur. split; [reflexivity|]. apply filter_In.
    split; [exact Hin|]. rewrite Hu. now apply mem_id_In.
Qed.

Lemma allResourcesCompleted_count dailyPlan userId db :
  DailyPlanService.allResourcesCompleted dailyPlan userId db
  = Nat.eqb
      (length (map UserResource.resourceId
                 (prisma.userResource_where userId
                    (map Resource.id (resources_of_day dailyPlan db)) db)))
      (length (map Resource.id (resources_of_day dailyPlan db))).
Proof.
  unfold DailyPlanService.allResourcesCompleted, resources_of_day.
  now rewrite !map_app, !length_map, !length_app, !length_map.
Qed.

Lemma same_key_same_row {A B} (key : A -> B) (l : list A) a b :
  NoDup (map key l) -> In a l -> In b l -> key a = key b -> a = b.
Proof.
  induction l as [|x r IH]; cbn; intros Hl Ha Hb Hkey; [contradiction|].
  inversion Hl as [|? ? Hnotin Hr]; subst.
  destruct Ha as [->|Ha], Hb as [->|Hb]; auto.
  - exfalso. apply Hnotin. rewrite Hkey. now apply in_map.
  - exfalso. apply Hnotin. rewrite <- Hkey. now apply in_map.
Qed.

(** X6.  A resource that is attached to a day as learning and as practice
    resource is counted twice by [completeDailyPlan], while the completions
    of a user name a resource once: the resources gate is closed for every
    user, and every attempt to complete the day throws and changes
    nothing. *)
Theorem completeDailyPlan_blocked_by_resource_booked_twice id userId db dailyPlan r :
  daily_of id db = Some dailyPlan ->
  completions_unique db ->
  In r (resources db) ->
  booked_twice dailyPlan r = true ->
  DailyPlanService.allResourcesCompleted dailyPlan userId db = false
  /\ exists e, DailyPlanService.completeDailyPlan id userId db = (Throw e, db).
Proof.
  intros Hday Hunique Hin Htwice.
  assert (Hgate : DailyPlanService.allResourcesCompleted dailyPlan userId db = false).
  { rewrite allResourcesCompleted_count. apply Nat.eqb_neq.
    apply andb_true_iff in Htwice as [Hl Hp].
    assert (Hlt : (length (map UserResource.resourceId
                     (prisma.userResource_where userId
                        (map Resource.id (resources_of_day dailyPlan db)) db))
                   < length (map Resource.id (resources_of_day dailyPlan db)))%nat);
      [|lia].
    apply (length_by_keys_lt (fun x : Id => x)).
    - rewrite map_id. now apply completed_where_distinct.
    - rewrite map_id. apply completed_keys_listed.
    - unfold resources_of_day. rewrite map_app. intros Hnodup.
      assert (Hfirst : In (Resource.id r)
                         (map Resource.id (prisma.include_learningResources dailyPlan db))).
      { apply in_map. apply filter_In. now split. }
      assert (Hsecond : In (Resource.id r)
                          (map Resource.id (prisma.include_practiceResources dailyPlan db))).
      { apply in_map. apply filter_In. now split. }
      apply in_split in Hfirst as (l1 & l2 & Hfirst). rewrite Hfirst in Hnodup.
      rewrite <- app_assoc in Hnodup. cbn [app] in Hnodup.
      apply NoDup_remove_2 in Hnodup. apply Hnodup.
      apply in_or_app. right. apply in_or_app. now right. }
  split; [exact Hgate|].
  rewrite completeDailyPlan_cases, Hday.
  destruct (prisma.include_learningPlan dailyPlan db); [|eauto].
  destruct (negb (Nat.eqb _ _)); [eauto|].
  destruct (negb (DailyPlan.isUnlocked _)); [eauto|].
  unfold gates_open. rewrite Hgate. cbn. eauto.
Qed.

Lemma completeDailyPlan_blocked_by_resource_booked_twice_witness :
  exists dailyPlan,
    daily_of 1 two_days_booked_twice = Some dailyPlan
    /\ completions_unique two_days_booked_twice
    /\ In (Resource.mk 50 (Some 1%nat) (Some 1%nat)) (resources two_days_booked_twice)
    /\ booked_twice dailyPlan (Resource.mk 50 (Some 1%nat) (Some 1%nat)) = true
    /\ userResources two_days_booked_twice = [UserResource.mk 3 learner 50]
    /\ DailyPlanService.allResourcesCompleted dailyPlan learner two_days_booked_twice = false
    /\ exists e,
         DailyPlanService.completeDailyPlan 1 learner two_days_booked_twice
         = (Throw e, two_days_booked_twice).
Proof.
  eexists. split; [reflexivity|].
  assert (Hunique : completions_unique two_days_booked_twice)
    by (unfold completions_unique; distinct).
  assert (Hin : In (Resource.mk 50 (Some 1%nat) (Some 1%nat))
                   (resources two_days_booked_twice)) by (now left).
  split; [exact Hunique|]. split; [exact Hin|]. split; [reflexivity|].
  split; [reflexivity|].
  exact (completeDailyPlan_blocked_by_resource_booked_twice 1 learner two_days_booked_twice
           _ _ eq_refl Hunique Hin eq_refl).
Defined.

Lemma resources_of_day_keys_distinct dailyPlan db :
  NoDup (map Resource.id (resources db)) ->
  (forall r, In r (resources db) -> booked_twice dailyPlan r = false) ->
  NoDup (map Resource.id (resources_of_day dailyPlan db)).
Proof.
  intros Hkeys Honce. unfold resources_of_day. rewrite map_app.
  apply NoDup_app; try now apply NoDup_map_filter.
  intros i Hl Hp.
  apply in_map_iff in Hl as (r1 & <- & Hl). apply in_map_iff in Hp as (r2 & Heq & Hp).
  apply filter_In in Hl as [Hin1 Hl]. apply filter_In in Hp as [Hin2 Hp].
  assert (r2 = r1) by (now apply (same_key_same_row Resource.id (resources db))).
  subst r2. specialize (Honce r1 Hin1). unfold booked_twice in Honce.
  rewrite Hl, Hp in Honce. discriminate.
Qed.

(** X7.  On a resource table with distinct keys, with completions unique
    per user and resource and no resource attached to the day in both
    roles, the count comparison that [completeDailyPlan] makes is exact:
    the resources gate is open for a user if and only if that user has
    completed every learning and every practice resource of the day. *)
Theorem allResourcesCompleted_iff_each_completed dailyPlan userId db :
  NoDup (map Resource.id (resources db)) ->
  completions_unique db ->
  (forall r, In r (resources db) -> booked_twice dailyPlan r = false) ->
  DailyPlanService.allResourcesCompleted dailyPlan userId db = true
  <-> (forall r, In r (resources_of_day dailyPlan db) ->
         existsb (prisma'.completion_of userId (Resource.id r)) (userResources db) = true).
Proof.
  intros Hkeys Hunique Honce.
  pose proof (resources_of_day_keys_distinct _ _ Hkeys Honce) as Hids.
  pose proof (completed_where_distinct userId
                (map Resource.id (resources_of_day dailyPlan db)) db Hunique) as Hdone.
  rewrite allResourcesCompleted_count, Nat.eqb_eq. split.
  - intros Hcount r Hr.
    assert (Hincl : incl (map Resource.id (resources_of_day dailyPlan db))
                      (map UserResource.resourceId
                         (prisma.userResource_where userId
                            (map Resource.id (resources_of_day dailyPlan db)) db))).
    { apply NoDup_length_incl; [exact Hdone|lia|apply completed_keys_listed]. }
    apply (completed_key_iff userId (map Resource.id (resources_of_day dailyPlan db)) db).
    apply Hincl. now apply in_map.
  - intros Hall. apply Permutation_length. apply NoDup_Permutation; [exact Hdone|exact Hids|].
    intros i. rewrite completed_key_iff. split; [tauto|].
    intros Hi. split; [exact Hi|].
    apply in_map_iff in Hi as (r & <- & Hr). now apply Hall.
Qed.

Lemma allResourcesCompleted_iff_each_completed_witness :
  exists dailyPlan,
    daily_of 1 two_days_resources_done = Some dailyPlan
    /\ NoDup (map Resource.id (resources two_days_resources_done))
    /\ completions_unique two_days_resources_done
    /\ (forall r, In r (resources two_days_resources_done) ->
                  booked_twice dailyPlan r = false)
    /\ DailyPlanService.allResourcesCompleted dailyPlan learner two_days_resources_done = true
    /\ forall r, In r (resources_of_day dailyPlan two_days_resources_done) ->
         existsb (prisma'.completion_of learner (Resource.id r))
                 (userResources two_days_resources_done) = true.
Proof.
  eexists. split; [reflexivity|].
  assert (Hkeys : NoDup (map Resource.id (resources two_days_resources_done))) by distinct.
  assert (Hunique : completions_unique two_days_resources_done)
    by (unfold completions_unique; distinct).
  assert (Honce : forall r, In r (resources two_days_resources_done) ->
                            booked_twice (DailyPlan.mk 1 0 1 true false None) r = false).
  { intros r [<-|[<-|[]]]; reflexivity. }
  split; [exact Hkeys|]. split; [exact Hunique|]. split; [exact Honce|].
  split; [reflexivity|].
  exact (proj1 (allResourcesCompleted_iff_each_completed _ learner two_days_resources_done
                  Hkeys Hunique Honce) eq_refl).
Defined.

(* ===================================================================== *)
(** ** Completing a resource *)

(** X8.  [completeResource] records a completion once: after a successful
    call the user has a completion of the resource, the other tables are as
    before, and the same call again answers 400 "Resource already marked as
    completed" and changes nothing. *)
Theorem completeResource_once resourceId userId db db1 :
  ResourceService.completeResource resourceId userId db = (Ok tt, db1) ->
  existsb (prisma'.completion_of userId resourceId) (userResources db1) = true
  /\ length (userResources db1) = S (length (userResources db))
  /\ (learningPlans db1, dailyPlans db1, resources db1, quizzes db1, quizAttempts db1)
     = (learningPlans db, dailyPlans db, resources db, quizzes db, quizAttempts db)
  /\ ResourceService.completeResource resourceId userId db1
     = (Throw (ApiError 400 "Resource already marked as completed"), db1).
Proof.
  rewrite completeResource_cases.
  destruct (find _ (resources db)) as [r|] eqn:Hr; [|discriminate].
  destruct (existsb _ (userResources db)); [discriminate|].
  intros Hrun. injection Hrun as <-.
  assert (Hdone : existsb (prisma'.completion_of userId resourceId)
                    (userResources db ++ [UserResource.mk (uuidSeed db) userId resourceId])
                  = true).
  { rewrite existsb_app. apply orb_true_iff. right. cbn.
    unfold prisma'.completion_of. cbn. now rewrite !Nat.eqb_refl. }
  split; [exact Hdone|].
  split; [cbn [userResources]; rewrite length_app; cbn; lia|]. split; [reflexivity|].
  rewrite completeResource_cases. cbn [resources userResources].
  now rewrite Hr, Hdone.
Qed.

Lemma completeResource_once_witness :
  exists db1,
    ResourceService.completeResource 50 learner two_days_catalogue = (Ok tt, db1)
    /\ ResourceService.completeResource 50 learner db1
       = (Throw (ApiError 400 "Resource already marked as completed"), db1).
Proof.
  eexists. split; [reflexivity|].
  exact (proj2 (proj2 (proj2
           (completeResource_once 50 learner two_days_catalogue _ eq_refl)))).
Defined.

(** X9.  [completeResource] keeps the completions unique per user and
    resource: its own check answers before the unique index of the table
    would. *)
Theorem completeResource_keeps_completions_unique resourceId userId db db1 :
  completions_unique db ->
  ResourceService.completeResource resourceId userId db = (Ok tt, db1) ->
  completions_unique db1.
Proof.
  intros Hunique. rewrite completeResource_cases.
  destruct (find _ (resources db)) as [r|]; [|discriminate].
  destruct (existsb _ (userResources db)) eqn:Hnew; [discriminate|].
  intros Hrun. injection Hrun as <-.
  unfold completions_unique in *. cbn [userResources]. rewrite map_app. cbn [map].
  apply NoDup_app; [exact Hunique|distinct|].
  intros [u i] Hin [Heq|[]]. cbn in Heq. injection Heq as <- <-.
  apply in_map_iff in Hin as (ur & Heq & Hin). injection Heq as Hu Hi.
  apply not_true_iff_false in Hnew. apply Hnew. apply existsb_exists. exists ur.
  split; [exact Hin|]. unfold prisma'.completion_of. now rewrite Hu, Hi, !Nat.eqb_refl.
Qed.

Lemma completeResource_keeps_completions_unique_witness :
  completions_unique two_days_resources_done.
Proof.
  assert (Hbefore : completions_unique
            (after (ResourceService.completeResource 50 learner)
               (after (DailyPlanService'.assignResourcesToDailyPlan 1 [50%nat] [51%nat])
                  two_days_catalogue)))
    by (unfold completions_unique; distinct).
  exact (completeResource_keeps_completions_unique 51 learner _ two_days_resources_done
           Hbefore eq_refl).
Defined.

(* ===================================================================== *)
(** ** Adding a quiz *)

(** X10.  [addQuizToDailyPlan] gives a day its one quiz.  After a
    successful call the new quiz is the quiz of the day; as long as no
    attempt refers to its fresh key the quiz gate of the day is closed for
    every user, so that [completeDailyPlan] on the day throws and changes
    nothing; and a second [addQuizToDailyPlan] on the day answers 400
    "Daily plan already has a quiz". *)
Theorem addQuizToDailyPlan_closes_quiz_gate dailyPlanId userId db quiz db1 :
  DailyPlanService'.addQuizToDailyPlan dailyPlanId db = (Ok quiz, db1) ->
  (forall a, In a (quizAttempts db) -> QuizAttempt.quizId a <> uuidSeed db) ->
  exists dailyPlan,
    daily_of dailyPlanId db1 = Some dailyPlan
    /\ prisma.include_quiz dailyPlan db1 = Some quiz
    /\ DailyPlanService.quizCompleted dailyPlan userId db1 = false
    /\ (exists e, DailyPlanService.completeDailyPlan dailyPlanId userId db1 = (Throw e, db1))
    /\ DailyPlanService'.addQuizToDailyPlan dailyPlanId db1
       = (Throw (ApiError 400 "Daily plan already has a quiz"), db1).
Proof.
  rewrite addQuizToDailyPlan_cases.
  destruct (daily_of dailyPlanId db) as [d|] eqn:Hday; [|discriminate].
  destruct (prisma.include_quiz d db) as [q|] eqn:Hnone; [discriminate|].
  cbv zeta. intros Hrun Hfresh. injection Hrun as <- <-.
  set (quiz := Quiz.mk (uuidSeed db) dailyPlanId).
  set (db1 := mkDb _ _ _ _ _ _ _ _).
  assert (Hid : DailyPlan.id d = dailyPlanId).
  { apply find_some in Hday as [_ Hid]. now apply Nat.eqb_eq. }
  assert (Hquiz : prisma.include_quiz d db1 = Some quiz).
  { unfold prisma.include_quiz in *. cbn [quizzes db1].
    apply find_app_fresh; [|cbn; rewrite Hid; apply Nat.eqb_refl].
    apply forallb_forall. intros x Hx. apply negb_true_iff.
    exact (find_none _ _ Hnone x Hx). }
  assert (Hgate : DailyPlanService.quizCompleted d userId db1 = false).
  { unfold DailyPlanService.quizCompleted. rewrite Hquiz.
    unfold prisma.include_attempts. cbn [quizAttempts db1 Quiz.id quiz].
    rewrite (filter_none _ (quizAttempts db)); [reflexivity|].
    apply forallb_forall. intros a Ha. apply negb_true_iff, andb_false_iff. left.
    apply Nat.eqb_neq. now apply Hfresh. }
  exists d. split; [exact Hday|]. split; [exact Hquiz|]. split; [exact Hgate|]. split.
  - rewrite completeDailyPlan_cases.
    change (daily_of dailyPlanId db1) with (daily_of dailyPlanId db). rewrite Hday.
    destruct (prisma.include_learningPlan d db1); [|eauto].
    destruct (negb (Nat.eqb _ _)); [eauto|].
    destruct (negb (DailyPlan.isUnlocked _)); [eauto|].
    unfold gates_open. rewrite Hgate, andb_false_r. cbn. eauto.
  - rewrite addQuizToDailyPlan_cases.
    change (daily_of dailyPlanId db1) with (daily_of dailyPlanId db).
    now rewrite Hday, Hquiz.
Qed.

Lemma addQuizToDailyPlan_closes_quiz_gate_witness :
  (exists completed db', DailyPlanService.completeDailyPlan 1 learner two_days
                         = (Ok completed, db'))
  /\ exists quiz db1,
       DailyPlanService'.addQuizToDailyPlan 1 two_days = (Ok quiz, db1)
       /\ (forall a, In a (quizAttempts two_days) -> QuizAttempt.quizId a <> uuidSeed two_days)
       /\ exists e, DailyPlanService.completeDailyPlan 1 learner db1 = (Throw e, db1).
Proof.
  split; [eexists _, _; reflexivity|].
  assert (Hfresh : forall a, In a (quizAttempts two_days) ->
                             QuizAttempt.quizId a <> uuidSeed two_days)
    by (intros a []).
  eexists _, _. split; [reflexivity|]. split; [exact Hfresh|].
  destruct (addQuizToDailyPlan_closes_quiz_gate 1 learner two_days _ _ eq_refl Hfresh)
    as (d & _ & _ & _ & Hblocked & _).
  exact Hblocked.
Defined.

(* ===================================================================== *)
(** ** Deleting a learning plan *)

Section Filtered.

Context {A : Type}.

Lemma find_filter_implied (p q : A -> bool) (l : list A) :
  (forall x, p x = true -> q x = true) -> find p (filter q l) = find p l.
Proof.
  intros H. induction l as [|x r IH]; cbn; [reflexivity|].
  destruct (q x) eqn:Hq; cbn; [now rewrite IH|].
  destruct (p x) eqn:Hp; [|exact IH]. apply H in Hp. congruence.
Qed.

Lemma find_filter_excluded (p q : A -> bool) (l : list A) :
  (forall x, p x = true -> q x = false) -> find p (filter q l) = None.
Proof.
  intros H. induction l as [|x r IH]; cbn; [reflexivity|].
  destruct (q x) eqn:Hq; cbn; [|exact IH].
  destruct (p x) eqn:Hp; [|exact IH]. apply H in Hp. congruence.
Qed.

Lemma filter_filter_implied (p q : A -> bool) (l : list A) :
  (forall x, p x = true -> q x = true) -> filter p (filter q l) = filter p l.
Proof.
  intros H. induction l as [|x r IH]; cbn; [reflexivity|].
  destruct (q x) eqn:Hq; cbn; [now rewrite IH|].
  destruct (p x) eqn:Hp; [|exact IH]. apply H in Hp. congruence.
Qed.

Lemma filter_filter_excluded (p q : A -> bool) (l : list A) :
  (forall x, p x = true -> q x = false) -> filter p (filter q l) = [].
Proof.
  intros H. induction l as [|x r IH]; cbn; [reflexivity|].
  destruct (q x) eqn:Hq; cbn; [|exact IH].
  destruct (p x) eqn:Hp; [|exact IH]. apply H in Hp. congruence.
Qed.


End Filtered.

Lemma null_if_deleted_survivor gone r k :
  prisma.null_if_deleted gone r = Some k -> r = Some k /\ ~ In k gone.
Proof.
  unfold prisma.null_if_deleted. destruct r as [i|]; [|discriminate].
  destruct (prisma.mem_id i gone) eqn:Hmem; [discriminate|].
  intros Heq. injection Heq as ->. split; [reflexivity|].
  intros Hin. apply mem_id_In in Hin. congruence.
Qed.

(** X11.  After a successful [deleteLearningPlan] the plan and all of its
    days are gone, while every other plan and the days of every other plan
    are as before; with the days went their quizzes, and no resource refers
    to one of them any more, the resources themselves and the completions
    staying in place; asking for the plan again answers 404. *)
Theorem deleteLearningPlan_removes_plan_and_days id userId db db' :
  LearningPlanService'.deleteLearningPlan id userId db = (Ok tt, db') ->
  plan_of id db' = None
  /\ days_of id db' = []
  /\ (forall other, other <> id ->
        plan_of other db' = plan_of other db /\ days_of other db' = days_of other db)
  /\ (forall q, In q (quizzes db') ->
        In q (quizzes db)
        /\ ~ In (Quiz.dailyPlanId q) (map DailyPlan.id (days_of id db)))
  /\ (forall r k, In r (resources db') ->
        Resource.learningPlanDayId r = Some k \/ Resource.practicePlanDayId r = Some k ->
        ~ In k (map DailyPlan.id (days_of id db)))
  /\ map Resource.id (resources db') = map Resource.id (resources db)
  /\ userResources db' = userResources db
  /\ LearningPlanService'.getLearningPlanById id userId db'
     = (Throw (ApiError 404 "Learning plan not found"), db').
Proof.
  rewrite deleteLearningPlan_cases.
  destruct (plan_of id db) as [existingPlan|] eqn:Hplan; [|discriminate].
  destruct (negb (Nat.eqb _ userId)); [discriminate|].
  unfold prisma'.learningPlan_delete. unfold plan_of in Hplan. rewrite Hplan.
  intros Hrun. injection Hrun as <-.
  assert (Hgone : find (fun p => Nat.eqb (LearningPlan.id p) id)
                    (filter (fun p => negb (Nat.eqb (LearningPlan.id p) id))
                       (learningPlans db)) = None).
  { apply find_filter_excluded. now intros x ->. }
  unfold plan_of, days_of. cbn [learningPlans dailyPlans quizzes resources userResources].
  split; [exact Hgone|]. split.
  { apply filter_filter_excluded. now intros x ->. }
  split.
  { intros other Hother. split.
    - apply find_filter_implied. intros x Hx. apply Nat.eqb_eq in Hx. rewrite Hx.
      apply negb_true_iff. now apply Nat.eqb_neq.
    - apply filter_filter_implied. unfold prisma.of_plan. intros x Hx.
      apply Nat.eqb_eq in Hx. rewrite Hx. apply negb_true_iff. now apply Nat.eqb_neq. }
  split.
  { intros q Hq. apply filter_In in Hq as [Hin Hq]. split; [exact Hin|].
    intros Hk. apply mem_id_In in Hk. now rewrite Hk in Hq. }
  split.
  { intros r k Hr Hk. apply in_map_iff in Hr as (r0 & <- & _).
    cbn [Resource.learningPlanDayId Resource.practicePlanDayId] in Hk.
    destruct Hk as [Hk|Hk]; now apply null_if_deleted_survivor in Hk. }
  split; [now rewrite map_map|]. split; [reflexivity|].
  rewrite getLearningPlanById_cases. unfold plan_of. cbn [learningPlans].
  now rewrite Hgone.
Qed.

Lemma deleteLearningPlan_removes_plan_and_days_witness :
  exists db',
    LearningPlanService'.deleteLearningPlan 0 learner two_days_resources_done = (Ok tt, db')
    /\ dailyPlans db' = []
    /\ resources db' = [Resource.mk 50 None None; Resource.mk 51 None None]
    /\ LearningPlanService'.getLearningPlanById 0 learner db'
       = (Throw (ApiError 404 "Learning plan not found"), db').
Proof.
  eexists. split; [reflexivity|]. split; [reflexivity|]. split; [reflexivity|].
  exact (proj2 (proj2 (proj2 (proj2 (proj2 (proj2 (proj2
           (deleteLearningPlan_removes_plan_and_days 0 learner two_days_resources_done _
              eq_refl)))))))).
Defined.



(* ===================================================================== *)
(** ** Reading a plan and its days *)

Lemma insert_by_day_perm d l : Permutation (prisma.insert_by_day d l) (d :: l).
Proof.
  induction l as [|x r IH]; cbn; [reflexivity|].
  destruct (DailyPlan.dayNumber d <? DailyPlan.dayNumber x); [reflexivity|].
  rewrite IH. apply perm_swap.
Qed.

Lemma orderBy_dayNumber_asc_perm l : Permutation (prisma.orderBy_dayNumber_asc l) l.
Proof.
  induction l as [|x r IH]; cbn; [reflexivity|].
  rewrite insert_by_day_perm. now constructor.
Qed.

Lemma insert_by_day_sorted d l :
  StronglySorted (fun a b => DailyPlan.dayNumber a <= DailyPlan.dayNumber b) l ->
  StronglySorted (fun a b => DailyPlan.dayNumber a <= DailyPlan.dayNumber b)
    (prisma.insert_by_day d l).
Proof.
  induction l as [|x r IH]; cbn; intros Hl.
  - repeat constructor.
  - inversion Hl as [|? ? Hr Hx]; subst.
    destruct (DailyPlan.dayNumber d <? DailyPlan.dayNumber x) eqn:Hlt.
    + apply Z.ltb_lt in Hlt.
      constructor; [exact Hl|]. constructor; [lia|].
      rewrite Forall_forall in *. intros y Hy. specialize (Hx y Hy). cbv beta in *. lia.
    + apply Z.ltb_ge in Hlt.
      constructor; [now apply IH|].
      rewrite Forall_forall in *. intros y Hy.
      apply (Permutation_in _ (insert_by_day_perm d r)) in Hy as [<-|Hy]; [exact Hlt|].
      now apply Hx.
Qed.

Lemma orderBy_dayNumber_asc_sorted l :
  StronglySorted (fun a b => DailyPlan.dayNumber a <= DailyPlan.dayNumber b)
    (prisma.orderBy_dayNumber_asc l).
Proof.
  induction l as [|x r IH]; cbn; [constructor|]. now apply insert_by_day_sorted.
Qed.

(** X13.  For the owner of a stored plan, [getLearningPlanDailyPlans] and
    [getLearningPlanById] change nothing and return the same days: the
    stored days of the plan, each one once, in ascending order of
    [dayNumber]; [getLearningPlanById] returns them with the stored plan. *)
Theorem reads_return_the_days_in_order learningPlanId userId db learningPlan :
  plan_of learningPlanId db = Some learningPlan ->
  LearningPlan.userId learningPlan = userId ->
  exists days,
    DailyPlanService'.getLearningPlanDailyPlans learningPlanId userId db = (Ok days, db)
    /\ LearningPlanService'.getLearningPlanById learningPlanId userId db
       = (Ok (learningPlan, days), db)
    /\ Permutation days (days_of learningPlanId db)
    /\ StronglySorted (fun a b => DailyPlan.dayNumber a <= DailyPlan.dayNumber b) days.
Proof.
  intros Hplan Howner.
  exists (prisma.orderBy_dayNumber_asc (days_of learningPlanId db)).
  rewrite getLearningPlanDailyPlans_cases, getLearningPlanById_cases, Hplan, Howner.
  rewrite Nat.eqb_refl. cbn [negb].
  split; [reflexivity|]. split; [reflexivity|].
  split; [apply orderBy_dayNumber_asc_perm|apply orderBy_dayNumber_asc_sorted].
Qed.

Lemma reads_return_the_days_in_order_witness :
  exists learningPlan,
    plan_of 0 three_days = Some learningPlan
    /\ LearningPlan.userId learningPlan = learner
    /\ exists days,
         DailyPlanService'.getLearningPlanDailyPlans 0 learner three_days
         = (Ok days, three_days)
         /\ LearningPlanService'.getLearningPlanById 0 learner three_days
            = (Ok (learningPlan, days), three_days)
         /\ Permutation days (days_of 0 three_days)
         /\ StronglySorted (fun a b => DailyPlan.dayNumber a <= DailyPlan.dayNumber b) days.
Proof.
  eexists. split; [reflexivity|]. split; [reflexivity|].
  exact (reads_return_the_days_in_order 0 learner three_days _ eq_refl eq_refl).
Defined.

(* ===================================================================== *)
(** ** Changing the duration *)

Lemma for_days_create_collides learningPlanId unlocked n :
  forall day db d,
    In d (dailyPlans db) ->
    prisma.of_plan learningPlanId d = true ->
    day <= DailyPlan.dayNumber d < day + Z.of_nat n ->
    exists e db',
      for_days n day
        (fun day => prisma.dailyPlan_create learningPlanId day (unlocked day) false ;;; ret tt)
        db = (Throw e, db').
Proof.
  induction n as [|n IH]; intros day db d Hin Hplan Hday; [lia|].
  cbn [for_days]. unfold bind at 1. unfold bind at 1. unfold prisma.dailyPlan_create.
  destruct (existsb _ (dailyPlans db)) eqn:Hex; [eauto|].
  destruct (negb _); [eauto|].
  unfold ret at 1. apply IH with (d := d).
  - cbn [dailyPlans with_uuidSeed with_dailyPlans]. apply in_or_app. now left.
  - exact Hplan.
  - assert (DailyPlan.dayNumber d <> day); [|lia].
    intros Heq. apply not_true_iff_false in Hex. apply Hex.
    apply existsb_exists. exists d. split; [exact Hin|].
    unfold prisma.on_day. unfold prisma.of_plan in Hplan. rewrite Hplan.
    now apply Z.eqb_eq.
Qed.

(** X14.  When the owner asks for a longer plan and a day is already stored
    under a number the extension would create, the unique index on the plan
    and the day number rejects the insert inside [handleDurationChange]: the
    call answers 500 "Error updating learning plan duration" and the
    transaction leaves the plan, its duration included, as it was.  Such
    days exist after a plain update wrote a duration of 0 and left the
    stored days in place. *)
Theorem updateLearningPlan_extension_collides id userId updateData db existingPlan
    newDuration d :
  plan_of id db = Some existingPlan ->
  LearningPlan.userId existingPlan = userId ->
  LearningPlanService.durationDays updateData = Some newDuration ->
  newDuration <> 0 ->
  In d (days_of id db) ->
  LearningPlan.durationDays existingPlan < DailyPlan.dayNumber d <= newDuration ->
  LearningPlanService.updateLearningPlan id userId updateData db
  = (Throw (ApiError 500 "Error updating learning plan duration"), db).
Proof.
  intros Hplan Howner Hnew Hnonzero Hin Hday. unfold plan_of in Hplan.
  apply filter_In in Hin as [Hin Hof].
  unfold LearningPlanService.updateLearningPlan, rethrow, bind at 1,
    prisma.learningPlan_findUnique.
  rewrite Hplan, Howner, Nat.eqb_refl, Hnew. cbn [negb truthy LearningPlan.or_keep].
  fails (newDuration =? 0).
  fails (newDuration =? LearningPlan.durationDays existingPlan). cbn [negb andb].
  unfold LearningPlanService.handleDurationChange, catch_all, transaction.
  unfold bind at 1, prisma.learningPlan_update. rewrite Hplan.
  holds (LearningPlan.durationDays existingPlan <? newDuration).
  unfold bind at 1, for_each_day.
  match goal with
  | |- context [for_days ?n ?day ?body ?state] =>
      assert (Hrange : day <= DailyPlan.dayNumber d < day + Z.of_nat n) by lia;
      destruct (for_days_create_collides id (fun _ => false) n day state d
                  Hin Hof Hrange) as (e & db' & Hloop)
  end.
  now rewrite Hloop.
Qed.

Lemma updateLearningPlan_extension_collides_witness :
  (exists r, LearningPlanService.updateLearningPlan 0 learner (set_durationDays 0) three_days
             = (Ok r, three_days_duration_0))
  /\ exists existingPlan d,
       plan_of 0 three_days_duration_0 = Some existingPlan
       /\ LearningPlan.userId existingPlan = learner
       /\ LearningPlan.durationDays existingPlan = 0
       /\ In d (days_of 0 three_days_duration_0)
       /\ LearningPlan.durationDays existingPlan < DailyPlan.dayNumber d <= 2
       /\ LearningPlanService.updateLearningPlan 0 learner (set_durationDays 2)
            three_days_duration_0
          = (Throw (ApiError 500 "Error updating learning plan duration"),
             three_days_duration_0).
Proof.
  split; [eexists; reflexivity|].
  assert (Hin : In (DailyPlan.mk 1 0 1 true false None) (days_of 0 three_days_duration_0))
    by (now left).
  assert (Hday : 0 < 1 <= 2) by lia.
  assert (Hnonzero : 2 <> 0) by lia.
  eexists _, _. split; [reflexivity|]. split; [reflexivity|]. split; [reflexivity|].
  split; [exact Hin|]. split; [exact Hday|].
  exact (updateLearningPlan_extension_collides 0 learner (set_durationDays 2)
           three_days_duration_0 _ 2 _ eq_refl eq_refl eq_refl Hnonzero Hin Hday).
Defined.

Lemma updateLearningPlan_plans id userId updateData db r db' :
  LearningPlanService.updateLearningPlan id userId updateData db = (Ok r, db') ->
  exists existingPlan,
    plan_of id db = Some existingPlan
    /\ learningPlans db'
       = plans_after_update id (LearningPlanService.data_of updateData) (learningPlans db).
Proof.
  unfold LearningPlanService.updateLearningPlan, rethrow, bind at 1,
    prisma.learningPlan_findUnique, plan_of.
  destruct (find _ (learningPlans db)) as [existingPlan|] eqn:Hplan; [|discriminate].
  destruct (negb (Nat.eqb _ userId)); [discriminate|].
  intros Hrun. exists existingPlan. split; [reflexivity|].
  destruct (truthy _ && _).
  - unfold LearningPlanService.handleDurationChange, catch_all, transaction in Hrun.
    unfold bind at 1, prisma.learningPlan_update in Hrun. rewrite Hplan in Hrun.
    unfold bind at 1 in Hrun.
    destruct (LearningPlan.durationDays existingPlan <? _).
    + unfold for_each_day in Hrun.
      destruct (for_days _ _ _ _) as [[[]|e] db2] eqn:Hloop; [|discriminate].
      apply for_days_create_plans in Hloop. cbn [learningPlans with_learningPlans] in Hloop.
      rewrite findUnique_with_days_run in Hrun. injection Hrun as _ <-. exact Hloop.
    + destruct (_ <? LearningPlan.durationDays existingPlan).
      * unfold prisma.dailyPlan_deleteMany in Hrun.
        rewrite findUnique_with_days_run in Hrun. now injection Hrun as _ <-.
      * unfold ret at 1 in Hrun.
        rewrite findUnique_with_days_run in Hrun. now injection Hrun as _ <-.
  - unfold bind, prisma.learningPlan_update, prisma.dailyPlan_findMany, ret in Hrun.
    rewrite Hplan in Hrun. now injection Hrun as _ <-.
Qed.



(* ===================================================================== *)
(** ** What no call does to a stored day *)










Lemma for_each_update_frame (day : Id) (set : Id -> Resource.t -> Resource.t)
    (Hset : forall d r, Resource.id (set d r) = Resource.id r) :
  forall ids db o db',
    for_each ids (fun resourceId => prisma'.resource_update resourceId day set) db = (o, db') ->
    (learningPlans db', dailyPlans db', userResources db', quizzes db', quizAttempts db')
    = (learningPlans db, dailyPlans db, userResources db, quizzes db, quizAttempts db)
    /\ map Resource.id (resources db') = map Resource.id (resources db).
Proof.
  induction ids as [|i r IH]; intros db o db' Hrun.
  - cbn in Hrun. unfold ret in Hrun. now injection Hrun as _ <-.
  - cbn [for_each] in Hrun. unfold bind at 1, prisma'.resource_update in Hrun.
    destruct (find _ (resources db)); [|now injection Hrun as _ <-].
    destruct (negb _); [now injection Hrun as _ <-|].
    apply IH in Hrun as [Hframe Hkeys]. cbn in Hframe, Hkeys. split; [exact Hframe|].
    rewrite Hkeys, map_map. apply map_ext. intros x.
    destruct (prisma'.by_id i x); [apply Hset|reflexivity].
Qed.

Lemma assignResources_frame dailyPlanId ls ps db r db' :
  DailyPlanService'.assignResourcesToDailyPlan dailyPlanId ls ps db = (Ok r, db') ->
  (learningPlans db', dailyPlans db', userResources db', quizzes db', quizAttempts db')
  = (learningPlans db, dailyPlans db, userResources db, quizzes db, quizAttempts db)
  /\ map Resource.id (resources db') = map Resource.id (resources db).
Proof.
  unfold DailyPlanService'.assignResourcesToDailyPlan, rethrow, bind at 1,
    prisma.dailyPlan_findUnique.
  destruct (find _ (dailyPlans db)); [|discriminate].
  unfold bind at 1, prisma'.resource_findMany, prisma.read.
  destruct (negb _); [discriminate|].
  unfold bind at 1, transaction.
  unfold bind at 1, prisma'.resource_updateMany.
  unfold bind at 1. unfold bind at 1.
  destruct (for_each ls _ _) as [[[]|e] db1] eqn:Hlearning.
  2:{ destruct e; discriminate. }
  destruct (for_each ps _ db1) as [[[]|e] db2] eqn:Hpractice.
  2:{ destruct e; discriminate. }
  intros Hrun. injection Hrun as _ <-.
  apply for_each_update_frame in Hlearning as [Hf1 Hk1]; [|reflexivity].
  apply for_each_update_frame in Hpractice as [Hf2 Hk2]; [|reflexivity].
  cbn in Hf1, Hk1. split; [congruence|].
  rewrite Hk2, Hk1, !map_map. apply map_ext. intros x.
  now rewrite clear_practice_id, clear_learning_id.
Qed.

Lemma drop_result_ok {A} (call : Prisma A) db db' :
  (call ;;; ret tt) db = (Ok tt, db') -> exists a, call db = (Ok a, db').
Proof.
  unfold bind, ret. destruct (call db) as [[a|e] db1]; [|discriminate].
  intros H. injection H as <-. eauto.
Qed.



(* ===================================================================== *)
(** ** What no call does to resources and completions *)

Lemma for_days_create_frame learningPlanId unlocked n :
  forall day db o db',
    for_days n day
      (fun day => prisma.dailyPlan_create learningPlanId day (unlocked day) false ;;; ret tt)
      db = (o, db') ->
    resources db' = resources db /\ userResources db' = userResources db.
Proof.
  induction n as [|n IH]; intros day db o db' Hrun.
  - cbn in Hrun. unfold ret in Hrun. now injection Hrun as _ <-.
  - cbn [for_days] in Hrun. unfold bind at 1 in Hrun. unfold bind at 1 in Hrun.
    unfold prisma.dailyPlan_create in Hrun.
    destruct (existsb _ (dailyPlans db)); [now injection Hrun as _ <-|].
    destruct (negb _); [now injection Hrun as _ <-|].
    unfold ret at 1 in Hrun. now apply IH in Hrun.
Qed.

Lemma createLearningPlan_frame userId track durationDays db r db' :
  LearningPlanService.createLearningPlan userId track durationDays db = (Ok r, db') ->
  resources db' = resources db /\ userResources db' = userResources db.
Proof.
  unfold LearningPlanService.createLearningPlan, rethrow.
  unfold bind at 1. unfold transaction.
  unfold bind at 1. unfold prisma.learningPlan_create, bind at 1, prisma.uuid.
  cbn [learningPlans with_uuidSeed with_learningPlans LearningPlan.id].
  unfold bind at 1, for_each_day.
  destruct (for_days _ _ _ _) as [[[]|e0] db2] eqn:Hloop.
  - apply for_days_create_frame in Hloop.
    rewrite findUnique_with_days_run.
    destruct (option_map _ (plan_of _ db2)) as [[p days]|].
    + unfold bind at 1, LearningPlanService.populateDailyPlans, catch_all, bind at 1,
        prisma.dailyPlan_findMany, ret.
      rewrite findUnique_with_days_run. intros Hrun. now injection Hrun as _ <-.
    + discriminate.
  - destruct e0; discriminate.
Qed.

Lemma updateLearningPlan_frame id userId updateData db r db' :
  LearningPlanService.updateLearningPlan id userId updateData db = (Ok r, db') ->
  map Resource.id (resources db') = map Resource.id (resources db)
  /\ userResources db' = userResources db.
Proof.
  unfold LearningPlanService.updateLearningPlan, rethrow, bind at 1,
    prisma.learningPlan_findUnique.
  destruct (find _ (learningPlans db)) as [existingPlan|] eqn:Hplan; [|discriminate].
  destruct (negb (Nat.eqb _ userId)); [discriminate|].
  intros Hrun. destruct (truthy _ && _).
  - unfold LearningPlanService.handleDurationChange, catch_all, transaction in Hrun.
    unfold bind at 1, prisma.learningPlan_update in Hrun. rewrite Hplan in Hrun.
    unfold bind at 1 in Hrun.
    destruct (LearningPlan.durationDays existingPlan <? _).
    + unfold for_each_day in Hrun.
      destruct (for_days _ _ _ _) as [[[]|e] db2] eqn:Hloop; [|discriminate].
      apply for_days_create_frame in Hloop as [Hr Hu].
      rewrite findUnique_with_days_run in Hrun. injection Hrun as _ <-.
      now rewrite Hr, Hu.
    + destruct (_ <? LearningPlan.durationDays existingPlan).
      * unfold prisma.dailyPlan_deleteMany in Hrun.
        rewrite findUnique_with_days_run in Hrun. injection Hrun as _ <-.
        cbn [resources userResources with_learningPlans]. now rewrite map_map.
      * unfold ret at 1 in Hrun.
        rewrite findUnique_with_days_run in Hrun. now injection Hrun as _ <-.
  - unfold bind, prisma.learningPlan_update, prisma.dailyPlan_findMany, ret in Hrun.
    rewrite Hplan in Hrun. now injection Hrun as _ <-.
Qed.

(** X17.  No call creates, deletes or re-keys a resource, and only
    [completeResource] touches the completions: after any successful call
    the resource table has the keys it had, in the same order, and unless
    the call was [completeResource] the completions are the ones there
    were; [completeResource] only appends one. *)
Theorem calls_keep_resources_and_completions c db db' :
  perform c db = (Ok tt, db') ->
  map Resource.id (resources db') = map Resource.id (resources db)
  /\ match c with
     | CompleteResource resourceId userId =>
         exists key,
           userResources db'
           = (userResources db ++ [UserResource.mk key userId resourceId])%list
     | _ => userResources db' = userResources db
     end.
Proof.
  intros Hrun.
  destruct c; cbn [perform] in Hrun; try apply drop_result_ok in Hrun as (a & Hrun).
  - apply createLearningPlan_frame in Hrun as [-> ->]. now split.
  - rewrite getLearningPlanById_cases in Hrun.
    destruct (plan_of id db); [|discriminate].
    destruct (negb _); [discriminate|]. now injection Hrun as _ <-.
  - exact (updateLearningPlan_frame _ _ _ _ _ _ Hrun).
  - rewrite deleteLearningPlan_cases in Hrun.
    destruct (plan_of id db) eqn:Hplan; [|discriminate].
    destruct (negb _); [discriminate|].
    unfold prisma'.learningPlan_delete in Hrun. unfold plan_of in Hplan.
    rewrite Hplan in Hrun. injection Hrun as <-. cbn [resources userResources].
    now rewrite map_map.
  - destruct (updateLearningPlanProgress_cases id userId progressData db) as (days & Hcases).
    rewrite Hcases in Hrun. destruct (plan_of id db) as [p|]; [|discriminate].
    destruct (negb _); [discriminate|].
    destruct (currentDay_out_of_range _ _); [discriminate|].
    injection Hrun as _ <-. unfold state_after_progress.
    now destruct (moves_forward progressData p).
  - rewrite getDailyPlanById_cases in Hrun.
    destruct (daily_of id db) as [x|]; [|discriminate].
    destruct (prisma.include_learningPlan x db); [|discriminate].
    destruct (negb _); [discriminate|]. now injection Hrun as _ <-.
  - rewrite getLearningPlanDailyPlans_cases in Hrun.
    destruct (plan_of learningPlanId db); [|discriminate].
    destruct (negb _); [discriminate|]. now injection Hrun as _ <-.
  - rewrite unlockDailyPlan_cases in Hrun.
    destruct (daily_of id db) as [x|]; [|discriminate].
    destruct (prisma.include_learningPlan x db); [|discriminate].
    destruct (negb _); [discriminate|].
    destruct (previous_day_open _ _); [discriminate|].
    now injection Hrun as _ <-.
  - destruct (completeDailyPlan_ok_found _ _ _ _ _ Hrun) as (x & p & Hday & Hplan).
    destruct (completeDailyPlan_ok_inv _ _ _ _ _ _ _ Hday Hplan Hrun)
      as (_ & _ & _ & _ & ->).
    now split.
  - apply assignResources_frame in Hrun as [Hframe Hkeys]. split; [exact Hkeys|congruence].
  - rewrite addQuizToDailyPlan_cases in Hrun.
    destruct (daily_of dailyPlanId db) as [x|]; [|discriminate].
    destruct (prisma.include_quiz x db); [discriminate|]. now injection Hrun as _ <-.
  - rewrite completeResource_cases in Hrun.
    destruct (find _ (resources db)); [|discriminate].
    destruct (existsb _ _); [discriminate|]. injection Hrun as <-.
    split; [reflexivity|]. cbn [userResources]. eauto.
Qed.

Lemma calls_keep_resources_and_completions_witness :
  exists db',
    perform (DeleteLearningPlan 0 learner) two_days_resources_done = (Ok tt, db')
    /\ map Resource.id (resources db') = [50%nat; 51%nat]
    /\ userResources db' = userResources two_days_resources_done.
Proof.
  eexists. split; [reflexivity|].
  exact (calls_keep_resources_and_completions (DeleteLearningPlan 0 learner)
           two_days_resources_done _ eq_refl).
Defined.

(* ===================================================================== *)
(** ** Counting completed days *)

Lemma mark_absent k u l : ~ In k (map DailyPlan.id l) -> mark k u l = l.
Proof.
  induction l as [|x r IH]; cbn; intros Hk; [reflexivity|].
  destruct (Nat.eqb (DailyPlan.id x) k) eqn:Hx.
  - apply Nat.eqb_eq in Hx. exfalso. apply Hk. now left.
  - f_equal. apply IH. intros Hin. apply Hk. now right.
Qed.

Lemma count_cons p x r :
  completedDaysCount_of p (x :: r)
  = (if prisma.completed_in p x then 1 else 0) + completedDaysCount_of p r.
Proof.
  unfold completedDaysCount_of. cbn [filter].
  destruct (prisma.completed_in p x); cbn [length]; lia.
Qed.

Lemma count_after_mark_completed p d l :
  NoDup (map DailyPlan.id l) ->
  In d l ->
  completedDaysCount_of p (mark (DailyPlan.id d) (DailyPlan.data None (Some true)) l)
  = completedDaysCount_of p l
    + (if prisma.of_plan p d && negb (DailyPlan.isCompleted d) then 1 else 0).
Proof.
  induction l as [|x r IH]; cbn [map In]; intros Hl Hin; [contradiction|].
  inversion Hl as [|? ? Hnotin Hr]; subst.
  destruct Hin as [->|Hin].
  - cbn [mark map]. rewrite Nat.eqb_refl. fold (mark (DailyPlan.id d)
      (DailyPlan.data None (Some true)) r). rewrite (mark_absent _ _ _ Hnotin).
    rewrite !count_cons. unfold prisma.completed_in, prisma.of_plan. cbn.
    destruct (Nat.eqb (DailyPlan.learningPlanId d) p), (DailyPlan.isCompleted d);
      cbn [andb negb]; lia.
  - assert (Hx : Nat.eqb (DailyPlan.id x) (DailyPlan.id d) = false).
    { apply Nat.eqb_neq. intros Heq. apply Hnotin. rewrite Heq. now apply in_map. }
    cbn [mark map]. rewrite Hx. fold (mark (DailyPlan.id d)
      (DailyPlan.data None (Some true)) r).
    rewrite !count_cons, (IH Hr Hin). lia.
Qed.

Lemma count_after_mark_unlocked p k l :
  completedDaysCount_of p (mark k (DailyPlan.data (Some true) None) l)
  = completedDaysCount_of p l.
Proof.
  induction l as [|x r IH]; [reflexivity|].
  cbn [mark map]. fold (mark k (DailyPlan.data (Some true) None) r).
  rewrite !count_cons, IH. now destruct (Nat.eqb (DailyPlan.id x) k).
Qed.

(** X18.  With distinct keys on the daily plans, a successful
    [completeDailyPlan] raises the number of completed days of the plan by
    one when the day was not completed before and leaves it as it is when
    the day was completed already; the numbers of the other plans do not
    move. *)
Theorem completeDailyPlan_counts_the_day_once id userId db dailyPlan completed db' :
  NoDup (map DailyPlan.id (dailyPlans db)) ->
  daily_of id db = Some dailyPlan ->
  DailyPlanService.completeDailyPlan id userId db = (Ok completed, db') ->
  completedDaysCount_of (DailyPlan.learningPlanId dailyPlan) (dailyPlans db')
  = completedDaysCount_of (DailyPlan.learningPlanId dailyPlan) (dailyPlans db)
    + (if DailyPlan.isCompleted dailyPlan then 0 else 1)
  /\ forall other,
       other <> DailyPlan.learningPlanId dailyPlan ->
       completedDaysCount_of other (dailyPlans db')
       = completedDaysCount_of other (dailyPlans db).
Proof.
  intros Hkeys Hday Hrun.
  destruct (completeDailyPlan_ok_found _ _ _ _ _ Hrun) as (x & p & Hday' & Hplan).
  rewrite Hday in Hday'. injection Hday' as <-.
  destruct (completeDailyPlan_ok_inv _ _ _ _ _ _ _ Hday Hplan Hrun) as (_ & _ & _ & _ & ->).
  cbn [dailyPlans state_after_completion with_learningPlans with_dailyPlans].
  assert (Hin : In dailyPlan (dailyPlans db)) by (now apply find_some in Hday).
  assert (Hcount : forall k,
            completedDaysCount_of k (days_after_completion dailyPlan p (dailyPlans db))
            = completedDaysCount_of k (dailyPlans db)
              + (if prisma.of_plan k dailyPlan && negb (DailyPlan.isCompleted dailyPlan)
                 then 1 else 0)).
  { intros k. unfold days_after_completion.
    destruct (_ <? _); [|now apply count_after_mark_completed].
    destruct (find _ _); [|now apply count_after_mark_completed].
    rewrite count_after_mark_unlocked. now apply count_after_mark_completed. }
  split.
  - rewrite Hcount. unfold prisma.of_plan. rewrite Nat.eqb_refl.
    now destruct (DailyPlan.isCompleted dailyPlan).
  - intros other Hother. rewrite Hcount. unfold prisma.of_plan.
    replace (Nat.eqb (DailyPlan.learningPlanId dailyPlan) other) with false;
      [cbn [andb]; lia|].
    symmetry. apply Nat.eqb_neq. congruence.
Qed.

Lemma completeDailyPlan_counts_the_day_once_witness :
  exists dailyPlan completed db',
    NoDup (map DailyPlan.id (dailyPlans two_days_first_done))
    /\ daily_of 1 two_days_first_done = Some dailyPlan
    /\ DailyPlan.isCompleted dailyPlan = true
    /\ DailyPlanService.completeDailyPlan 1 learner two_days_first_done = (Ok completed, db')
    /\ completedDaysCount_of 0 (dailyPlans db')
       = completedDaysCount_of 0 (dailyPlans two_days_first_done) + 0.
Proof.
  assert (Hkeys : NoDup (map DailyPlan.id (dailyPlans two_days_first_done))) by distinct.
  eexists _, _, _. split; [exact Hkeys|]. split; [reflexivity|]. split; [reflexivity|].
  split; [reflexivity|].
  exact (proj1 (completeDailyPlan_counts_the_day_once 1 learner two_days_first_done _ _ _
                  Hkeys eq_refl eq_refl)).
Defined.

(* ===================================================================== *)
(** ** Reading a day back *)

Lemma apply_unlock_unlocked d :
  DailyPlan.isUnlocked d = true ->
  DailyPlan.apply (DailyPlan.data (Some true) None) d = d.
Proof. destruct d. cbn. now intros ->. Qed.

Lemma day_after_completion_stored id dailyPlan learningPlan db :
  daily_of id db = Some dailyPlan ->
  DailyPlan.isUnlocked dailyPlan = true ->
  daily_of id (state_after_completion dailyPlan learningPlan db)
  = Some (DailyPlan.apply (DailyPlan.data None (Some true)) dailyPlan).
Proof.
  unfold daily_of, state_after_completion. intros Hday Hunlocked.
  cbn [dailyPlans with_learningPlans with_dailyPlans].
  assert (H1 : find (fun d => Nat.eqb (DailyPlan.id d) id)
                 (mark (DailyPlan.id dailyPlan) (DailyPlan.data None (Some true))
                       (dailyPlans db))
               = Some (DailyPlan.apply (DailyPlan.data None (Some true)) dailyPlan)).
  { rewrite find_mark_by_id, Hday. cbn [option_map]. now rewrite Nat.eqb_refl. }
  unfold days_after_completion.
  destruct (DailyPlan.dayNumber dailyPlan <? LearningPlan.durationDays learningPlan);
    [|exact H1].
  destruct (find (prisma.on_day _ _) _) as [nextDay|]; [|exact H1].
  rewrite find_mark_by_id, H1. cbn [option_map].
  destruct (Nat.eqb _ (DailyPlan.id nextDay)); [|reflexivity].
  now rewrite apply_unlock_unlocked.
Qed.

(** X19.  What [completeDailyPlan] and [unlockDailyPlan] return is what
    they stored: after either call succeeded for a requester,
    [getDailyPlanById] for the same day and requester returns the very row
    the call returned, completed respectively unlocked, and changes
    nothing. *)
Theorem written_day_is_read_back id userId db d db' :
  DailyPlanService.completeDailyPlan id userId db = (Ok d, db')
  \/ DailyPlanService.unlockDailyPlan id userId db = (Ok d, db') ->
  DailyPlanService'.getDailyPlanById id userId db' = (Ok d, db').
Proof.
  intros [Hrun|Hrun].
  - destruct (completeDailyPlan_ok_found _ _ _ _ _ Hrun) as (x & p & Hday & Hplan).
    destruct (completeDailyPlan_ok_inv _ _ _ _ _ _ _ Hday Hplan Hrun)
      as (Howner & Hunlocked & _ & -> & ->).
    rewrite getDailyPlanById_cases, (day_after_completion_stored _ _ _ _ Hday Hunlocked).
    unfold prisma.include_learningPlan. cbn [DailyPlan.apply DailyPlan.learningPlanId].
    pose proof (plan_after_completion_found _ _ _ Hplan) as Hfound.
    unfold plan_of in Hfound. rewrite Hfound.
    cbn [LearningPlan.apply LearningPlan.userId]. now rewrite Howner, Nat.eqb_refl.
  - rewrite unlockDailyPlan_cases in Hrun.
    destruct (daily_of id db) as [x|] eqn:Hday; [|discriminate].
    destruct (prisma.include_learningPlan x db) as [p|] eqn:Hplan; [|discriminate].
    destruct (negb (Nat.eqb _ _)) eqn:Howner; [discriminate|].
    destruct (previous_day_open _ _); [discriminate|].
    injection Hrun as <- <-.
    rewrite getDailyPlanById_cases. unfold daily_of in *.
    cbn [dailyPlans with_dailyPlans]. rewrite find_mark_by_id, Hday. cbn [option_map].
    apply find_some in Hday as [_ Hid]. rewrite Hid.
    unfold prisma.include_learningPlan in *.
    cbn [learningPlans with_dailyPlans DailyPlan.apply DailyPlan.learningPlanId].
    now rewrite Hplan, Howner.
Qed.

Lemma written_day_is_read_back_witness :
  exists d db',
    DailyPlanService.completeDailyPlan 1 learner two_days = (Ok d, db')
    /\ DailyPlan.isCompleted d = true
    /\ DailyPlanService'.getDailyPlanById 1 learner db' = (Ok d, db').
Proof.
  eexists _, _. split; [reflexivity|]. split; [reflexivity|].
  exact (written_day_is_read_back 1 learner two_days _ _ (or_introl eq_refl)).
Defined.

(* ===================================================================== *)
(** ** Unlocking again *)

Lemma mark_twice k u l : mark k u (mark k u l) = mark k u l.
Proof.
  unfold mark. rewrite map_map. apply map_ext. intros x.
  destruct (Nat.eqb (DailyPlan.id x) k) eqn:Hx; [|now rewrite Hx].
  cbn [DailyPlan.apply DailyPlan.id]. rewrite Hx.
  destruct u as [[unlocked|] [completed|]], x; reflexivity.
Qed.

(** X20.  [unlockDailyPlan] is idempotent: after a successful call the same
    call succeeds again, returns the same row and leaves the database as
    the first call left it. *)
Theorem unlockDailyPlan_again id userId db d db' :
  DailyPlanService.unlockDailyPlan id userId db = (Ok d, db') ->
  DailyPlanService.unlockDailyPlan id userId db' = (Ok d, db').
Proof.
  rewrite unlockDailyPlan_cases.
  destruct (daily_of id db) as [x|] eqn:Hday; [|discriminate].
  destruct (prisma.include_learningPlan x db) as [p|] eqn:Hplan; [|discriminate].
  destruct (negb (Nat.eqb _ _)) eqn:Howner; [discriminate|].
  destruct (previous_day_open x db) eqn:Hgate; [discriminate|].
  intros Hrun. injection Hrun as <- <-.
  rewrite unlockDailyPlan_cases. unfold daily_of in *.
  cbn [dailyPlans with_dailyPlans]. rewrite find_mark_by_id, Hday. cbn [option_map].
  destruct (find_some _ _ Hday) as [_ Hid]. rewrite Hid.
  unfold prisma.include_learningPlan in *.
  cbn [learningPlans with_dailyPlans DailyPlan.apply DailyPlan.learningPlanId].
  rewrite Hplan, Howner.
  unfold previous_day_open, day_of in *.
  cbn [dailyPlans with_dailyPlans DailyPlan.apply DailyPlan.learningPlanId
       DailyPlan.dayNumber].
  rewrite find_mark_on_day.
  destruct (1 <? DailyPlan.dayNumber x); cbn [andb] in *.
  - destruct (find (prisma.on_day _ _) (dailyPlans db)) as [previousDay|];
      cbn [option_map].
    + replace (DailyPlan.isCompleted
                 (if Nat.eqb (DailyPlan.id previousDay) id
                  then DailyPlan.apply (DailyPlan.data (Some true) None) previousDay
                  else previousDay))
        with (DailyPlan.isCompleted previousDay)
        by (now destruct (Nat.eqb (DailyPlan.id previousDay) id)).
      rewrite Hgate. now rewrite mark_twice.
    + now rewrite mark_twice.
  - now rewrite mark_twice.
Qed.

Lemma unlockDailyPlan_again_witness :
  exists d db',
    DailyPlanService.unlockDailyPlan 2 learner two_days_first_done = (Ok d, db')
    /\ DailyPlanService.unlockDailyPlan 2 learner db' = (Ok d, db').
Proof.
  eexists _, _. split; [reflexivity|].
  exact (unlockDailyPlan_again 2 learner two_days_first_done _ _ eq_refl).
Defined.

(* ===================================================================== *)
(** ** Completing a day of a plan that was switched off *)

(** X21.  [completeDailyPlan] neither reads nor keeps the [isActive] flag
    of the plan: whatever it was, after a successful call the plan is
    active exactly when fewer days are completed than the plan has.  A
    plan the owner switched off through [updateLearningPlan] is switched
    on again by completing one of its days. *)
Theorem completeDailyPlan_overwrites_isActive id userId db dailyPlan learningPlan
    completed db' :
  daily_of id db = Some dailyPlan ->
  prisma.include_learningPlan dailyPlan db = Some learningPlan ->
  DailyPlanService.completeDailyPlan id userId db = (Ok completed, db') ->
  exists updatedPlan,
    plan_of (DailyPlan.learningPlanId dailyPlan) db' = Some updatedPlan
    /\ LearningPlan.isActive updatedPlan
       = (completedDaysCount_of (DailyPlan.learningPlanId dailyPlan) (dailyPlans db')
          <? LearningPlan.durationDays learningPlan).
Proof.
  intros Hday Hplan Hrun.
  destruct (completeDailyPlan_ok_inv _ _ _ _ _ _ _ Hday Hplan Hrun) as (_ & _ & _ & _ & ->).
  eexists. split; [now apply plan_after_completion_found|]. reflexivity.
Qed.

Lemma completeDailyPlan_overwrites_isActive_witness :
  exists dailyPlan learningPlan completed db' updatedPlan,
    daily_of 1 two_days_paused = Some dailyPlan
    /\ prisma.include_learningPlan dailyPlan two_days_paused = Some learningPlan
    /\ LearningPlan.isActive learningPlan = false
    /\ DailyPlanService.completeDailyPlan 1 learner two_days_paused = (Ok completed, db')
    /\ plan_of 0 db' = Some updatedPlan
    /\ LearningPlan.isActive updatedPlan = true.
Proof.
  eexists _, _, _, _, _. split; [reflexivity|]. split; [reflexivity|].
  split; [reflexivity|]. split; [reflexivity|]. split; [reflexivity|].
  destruct (completeDailyPlan_overwrites_isActive 1 learner two_days_paused _ _ _ _
              eq_refl eq_refl eq_refl) as (p & Hp & _).
  vm_compute in Hp. injection Hp as <-. reflexivity.
Defined.

(* ===================================================================== *)
(** ** Completing a day and unlocking the next *)

Lemma find_by_key_is_row k d db :
  NoDup (map DailyPlan.id (dailyPlans db)) ->
  In d (dailyPlans db) ->
  DailyPlan.id d = k ->
  daily_of k db = Some d.
Proof.
  intros Hkeys Hin Hid. unfold daily_of.
  destruct (find_In_some (fun x => Nat.eqb (DailyPlan.id x) k) _ d Hin) as [y Hy].
  { now apply Nat.eqb_eq. }
  rewrite Hy. f_equal. apply find_some in Hy as [Hiny Hky]. apply Nat.eqb_eq in Hky.
  apply (same_key_same_row DailyPlan.id (dailyPlans db)); congruence.
Qed.

Lemma find_on_day_is_row d db :
  days_unique db ->
  In d (dailyPlans db) ->
  day_of (DailyPlan.learningPlanId d) (DailyPlan.dayNumber d) db = Some d.
Proof.
  intros Hdays Hin. unfold day_of.
  destruct (find_In_some
              (prisma.on_day (DailyPlan.learningPlanId d) (DailyPlan.dayNumber d)) _ d Hin)
    as [y Hy].
  { unfold prisma.on_day. now rewrite Nat.eqb_refl, Z.eqb_refl. }
  rewrite Hy. f_equal. apply find_some in Hy as [Hiny Hon].
  apply andb_true_iff in Hon as [Hp Hn]. apply Nat.eqb_eq in Hp. apply Z.eqb_eq in Hn.
  apply (same_key_same_row
           (fun d => (DailyPlan.learningPlanId d, DailyPlan.dayNumber d)) (dailyPlans db));
    try assumption.
  now rewrite Hp, Hn.
Qed.

(** X22.  Completing a day does what [unlockDailyPlan] asks for.  With
    distinct keys on the daily plans and one row per plan and day number,
    after a successful [completeDailyPlan] on a day before the last,
    [unlockDailyPlan] on the stored next day succeeds for the same
    requester, returns that day unlocked, and changes nothing: the
    completion has unlocked it already. *)
Theorem completeDailyPlan_then_unlock_next id userId db dailyPlan learningPlan nextDay
    completed db1 :
  NoDup (map DailyPlan.id (dailyPlans db)) ->
  days_unique db ->
  daily_of id db = Some dailyPlan ->
  prisma.include_learningPlan dailyPlan db = Some learningPlan ->
  DailyPlan.dayNumber dailyPlan < LearningPlan.durationDays learningPlan ->
  day_of (DailyPlan.learningPlanId dailyPlan) (DailyPlan.dayNumber dailyPlan + 1) db
  = Some nextDay ->
  DailyPlanService.completeDailyPlan id userId db = (Ok completed, db1) ->
  exists unlocked,
    DailyPlanService.unlockDailyPlan (DailyPlan.id nextDay) userId db1 = (Ok unlocked, db1)
    /\ DailyPlan.id unlocked = DailyPlan.id nextDay
    /\ DailyPlan.isUnlocked unlocked = true.
Proof.
  intros Hkeys Hdays Hday Hplan Hlt Hnext Hrun.
  destruct (completeDailyPlan_ok_inv _ _ _ _ _ _ _ Hday Hplan Hrun)
    as (Howner & _ & _ & _ & ->).
  destruct (find_some _ _ Hday) as [Hin Hid]. apply Nat.eqb_eq in Hid.
  destruct (find_some _ _ Hnext) as [Hin' Hon].
  apply andb_true_iff in Hon as [Hp' Hn']. apply Nat.eqb_eq in Hp'. apply Z.eqb_eq in Hn'.
  assert (Hother : Nat.eqb (DailyPlan.id nextDay) (DailyPlan.id dailyPlan) = false).
  { apply Nat.eqb_neq. intros Heq.
    assert (nextDay = dailyPlan)
      by (now apply (same_key_same_row DailyPlan.id (dailyPlans db))).
    subst nextDay. lia. }
  (* the rows the completion wrote *)
  assert (Hrows : dailyPlans (state_after_completion dailyPlan learningPlan db)
                  = mark (DailyPlan.id nextDay) (DailyPlan.data (Some true) None)
                      (mark (DailyPlan.id dailyPlan) (DailyPlan.data None (Some true))
                         (dailyPlans db))).
  { cbn [dailyPlans state_after_completion with_learningPlans with_dailyPlans].
    unfold days_after_completion. holds (DailyPlan.dayNumber dailyPlan
                                         <? LearningPlan.durationDays learningPlan).
    rewrite find_mark_on_day. unfold day_of in Hnext. rewrite Hnext. cbn [option_map].
    now rewrite Hother. }
  exists (DailyPlan.apply (DailyPlan.data (Some true) None) nextDay).
  split; [|split; reflexivity].
  rewrite unlockDailyPlan_cases. unfold daily_of. rewrite Hrows.
  rewrite !find_mark_by_id.
  pose proof (find_by_key_is_row _ _ _ Hkeys Hin' eq_refl) as Hfound.
  unfold daily_of in Hfound. rewrite Hfound. cbn [option_map].
  rewrite Hother, Nat.eqb_refl.
  unfold prisma.include_learningPlan.
  cbn [DailyPlan.apply DailyPlan.learningPlanId]. rewrite Hp'.
  pose proof (plan_after_completion_found _ _ _ Hplan) as Hupdated.
  unfold plan_of in Hupdated. rewrite Hupdated.
  cbn [LearningPlan.apply LearningPlan.userId]. rewrite Howner, Nat.eqb_refl. cbn [negb].
  unfold previous_day_open, day_of.
  cbn [DailyPlan.apply DailyPlan.learningPlanId DailyPlan.dayNumber].
  rewrite Hrows, Hp', Hn'.
  replace (DailyPlan.dayNumber dailyPlan + 1 - 1) with (DailyPlan.dayNumber dailyPlan) by lia.
  rewrite !find_mark_on_day.
  pose proof (find_on_day_is_row _ _ Hdays Hin) as Hprev. unfold day_of in Hprev.
  rewrite Hprev. cbn [option_map]. rewrite Nat.eqb_refl.
  replace (DailyPlan.isCompleted _) with true
    by (now destruct (Nat.eqb _ (DailyPlan.id nextDay))).
  cbn [negb]. rewrite andb_false_r.
  rewrite mark_twice. f_equal.
  rewrite <- Hrows. now destruct db.
Qed.

Lemma completeDailyPlan_then_unlock_next_witness :
  exists dailyPlan learningPlan nextDay completed db1 unlocked,
    NoDup (map DailyPlan.id (dailyPlans three_days))
    /\ days_unique three_days
    /\ daily_of 1 three_days = Some dailyPlan
    /\ prisma.include_learningPlan dailyPlan three_days = Some learningPlan
    /\ DailyPlan.dayNumber dailyPlan < LearningPlan.durationDays learningPlan
    /\ day_of (DailyPlan.learningPlanId dailyPlan) (DailyPlan.dayNumber dailyPlan + 1)
              three_days = Some nextDay
    /\ DailyPlanService.completeDailyPlan 1 learner three_days = (Ok completed, db1)
    /\ DailyPlanService.unlockDailyPlan (DailyPlan.id nextDay) learner db1
       = (Ok unlocked, db1).
Proof.
  assert (Hkeys : NoDup (map DailyPlan.id (dailyPlans three_days))) by distinct.
  assert (Hdays : days_unique three_days) by (unfold days_unique; distinct).
  assert (Hlt : 1 < 3) by lia.
  destruct (completeDailyPlan_then_unlock_next 1 learner three_days _ _ _ _ _
              Hkeys Hdays eq_refl eq_refl Hlt eq_refl eq_refl) as (unlocked & Hrun & _).
  eexists _, _, _, _, _, unlocked.
  split; [exact Hkeys|]. split; [exact Hdays|]. split; [reflexivity|].
  split; [reflexivity|]. split; [exact Hlt|]. split; [reflexivity|].
  split; [reflexivity|]. exact Hrun.
Defined.

(* ===================================================================== *)
(** ** Adding an interview *)

Lemma addInterviewToDailyPlan_cases dailyPlanId interviewTemplateId s :
  addInterviewToDailyPlan dailyPlanId interviewTemplateId s =
  match daily_of dailyPlanId (db_of s) with
  | None => (Throw (ApiError 404 "Daily plan not found"), s)
  | Some dailyPlan =>
      match find (fun t => Nat.eqb (InterviewTemplate.id t) interviewTemplateId)
                 (interviewTemplates s) with
      | None => (Throw (ApiError 404 "Interview template not found"), s)
      | Some _ =>
          if existsb (linked_elsewhere interviewTemplateId dailyPlanId)
                     (interviewTemplates s)
          then (Throw (ApiError 500 "Error adding interview to daily plan"), s)
          else
            (Ok (Some dailyPlan),
             mkStore (db_of s)
               (map (fun x => if Nat.eqb (InterviewTemplate.id x) interviewTemplateId
                              then InterviewTemplate.mk (InterviewTemplate.id x)
                                     (Some dailyPlanId)
                              else x)
                    (interviewTemplates s)))
      end
  end.
Proof.
  unfold addInterviewToDailyPlan, rethrow', bind' at 1, on_db,
    prisma.dailyPlan_findUnique, daily_of. cbn [db_of interviewTemplates].
  destruct s as [db templates]. cbn [db_of interviewTemplates].
  destruct (find _ (dailyPlans db)) as [d|] eqn:Hday; [|reflexivity].
  unfold bind' at 1, interviewTemplate_findUnique. cbn [db_of interviewTemplates].
  destruct (find _ templates) as [t|] eqn:Ht; [|reflexivity].
  unfold bind', interviewTemplate_update. cbn [db_of interviewTemplates]. rewrite Ht.
  destruct (existsb _ templates); [reflexivity|].
  rewrite (find_existsb _ _ _ Hday). cbn [negb db_of interviewTemplates].
  now rewrite Hday.
Qed.

(** X23.  [addInterviewToDailyPlan] writes the link on the interview
    template and nowhere else.  After a successful call the template is
    linked to the day, the day that is returned is the stored day as it
    was, its [mockInterviewId] included, and no other table has changed; so
    the interview gate of [completeDailyPlan], which reads the mock
    interview of the day, is where it was, and every [completeDailyPlan]
    answers as it did before the interview was added. *)
Theorem addInterviewToDailyPlan_links_template_only dailyPlanId interviewTemplateId s r s' :
  addInterviewToDailyPlan dailyPlanId interviewTemplateId s = (Ok r, s') ->
  (exists t,
     find (fun t => Nat.eqb (InterviewTemplate.id t) interviewTemplateId)
          (interviewTemplates s') = Some t
     /\ InterviewTemplate.dailyPlanId t = Some dailyPlanId)
  /\ db_of s' = db_of s
  /\ r = daily_of dailyPlanId (db_of s)
  /\ (forall dailyPlan userId,
        DailyPlanService.interviewCompleted dailyPlan userId (db_of s')
        = DailyPlanService.interviewCompleted dailyPlan userId (db_of s))
  /\ forall id userId,
       DailyPlanService.completeDailyPlan id userId (db_of s')
       = DailyPlanService.completeDailyPlan id userId (db_of s).
Proof.
  rewrite addInterviewToDailyPlan_cases.
  destruct (daily_of dailyPlanId (db_of s)) as [d|]; [|discriminate].
  destruct (find _ (interviewTemplates s)) as [t|] eqn:Ht; [|discriminate].
  destruct (existsb _ _); [discriminate|].
  intros Hrun. injection Hrun as <- <-. cbn [db_of interviewTemplates].
  split; [|now repeat split].
  exists (InterviewTemplate.mk (InterviewTemplate.id t) (Some dailyPlanId)).
  split; [|reflexivity].
  rewrite (find_map_stable (fun t => Nat.eqb (InterviewTemplate.id t) interviewTemplateId)).
  - rewrite Ht. cbn [option_map]. apply find_some in Ht as [_ Hid]. now rewrite Hid.
  - intros x. now destruct (Nat.eqb (InterviewTemplate.id x) interviewTemplateId) eqn:Hx.
Qed.

Lemma addInterviewToDailyPlan_links_template_only_witness :
  exists r,
    addInterviewToDailyPlan 1 70 two_days_templates = (Ok r, two_days_interview)
    /\ template_of_day 1 two_days_interview = Some (InterviewTemplate.mk 70 (Some 1%nat))
    /\ (exists completed db',
          DailyPlanService.completeDailyPlan 1 learner (db_of two_days_templates)
          = (Ok completed, db'))
    /\ DailyPlanService.completeDailyPlan 1 learner (db_of two_days_interview)
       = DailyPlanService.completeDailyPlan 1 learner (db_of two_days_templates).
Proof.
  eexists. split; [reflexivity|]. split; [reflexivity|].
  split; [eexists _, _; reflexivity|].
  destruct (addInterviewToDailyPlan_links_template_only 1 70 two_days_templates _ _ eq_refl)
    as (_ & _ & _ & _ & Hsame).
  exact (Hsame 1%nat learner).
Defined.

(** X24.  [addInterviewToDailyPlan] does not look whether the day has an
    interview already.  When another template is linked to the day, the
    unique index on the link rejects the update: the call answers 500
    "Error adding interview to daily plan", where [addQuizToDailyPlan]
    answers 400 for a second quiz, and nothing is changed. *)
Theorem addInterviewToDailyPlan_second_template dailyPlanId interviewTemplateId s
    dailyPlan template linked :
  daily_of dailyPlanId (db_of s) = Some dailyPlan ->
  find (fun t => Nat.eqb (InterviewTemplate.id t) interviewTemplateId)
       (interviewTemplates s) = Some template ->
  template_of_day dailyPlanId s = Some linked ->
  InterviewTemplate.id linked <> interviewTemplateId ->
  addInterviewToDailyPlan dailyPlanId interviewTemplateId s
  = (Throw (ApiError 500 "Error adding interview to daily plan"), s).
Proof.
  intros Hday Htemplate Hlinked Hother.
  rewrite addInterviewToDailyPlan_cases, Hday, Htemplate.
  replace (existsb _ _) with true; [reflexivity|].
  symmetry. apply existsb_exists. exists linked.
  apply find_some in Hlinked as [Hin Hday']. split; [exact Hin|].
  unfold linked_elsewhere. rewrite Hday'. apply negb_true_iff. now apply Nat.eqb_neq.
Qed.

Lemma addInterviewToDailyPlan_second_template_witness :
  exists dailyPlan template linked,
    daily_of 1 (db_of two_days_interview) = Some dailyPlan
    /\ find (fun t => Nat.eqb (InterviewTemplate.id t) 71) (interviewTemplates two_days_interview)
       = Some template
    /\ template_of_day 1 two_days_interview = Some linked
    /\ InterviewTemplate.id linked <> 71%nat
    /\ addInterviewToDailyPlan 1 71 two_days_interview
       = (Throw (ApiError 500 "Error adding interview to daily plan"), two_days_interview).
Proof.
  assert (Hother : 70%nat <> 71%nat) by lia.
  eexists _, _, _. split; [reflexivity|]. split; [reflexivity|]. split; [reflexivity|].
  split; [exact Hother|].
  exact (addInterviewToDailyPlan_second_template 1 71 two_days_interview _ _ _
           eq_refl eq_refl eq_refl Hother).
Defined.

(* ===================================================================== *)
(** ** What the calls do to a stored plan *)

Lemma find_app_found {A} (p : A -> bool) (l l' : list A) x :
  find p l = Some x -> find p (l ++ l') = Some x.
Proof.
  induction l as [|y r IH]; cbn; [discriminate|]. now destruct (p y).
Qed.

Lemma createLearningPlan_plans userId track durationDays db r db' :
  LearningPlanService.createLearningPlan userId track durationDays db = (Ok r, db') ->
  exists row, learningPlans db' = (learningPlans db ++ [row])%list.
Proof.
  unfold LearningPlanService.createLearningPlan, rethrow.
  unfold bind at 1. unfold transaction.
  unfold bind at 1. unfold prisma.learningPlan_create, bind at 1, prisma.uuid.
  cbn [learningPlans with_uuidSeed with_learningPlans LearningPlan.id].
  unfold bind at 1, for_each_day.
  destruct (for_days _ _ _ _) as [[[]|e0] db2] eqn:Hloop.
  - apply for_days_create_plans in Hloop.
    cbn [learningPlans with_uuidSeed with_learningPlans] in Hloop.
    rewrite findUnique_with_days_run.
    destruct (option_map _ (plan_of _ db2)) as [[p days]|].
    + unfold bind at 1, LearningPlanService.populateDailyPlans, catch_all, bind at 1,
        prisma.dailyPlan_findMany, ret.
      rewrite findUnique_with_days_run. intros Hrun. injection Hrun as _ <-. eauto.
    + discriminate.
  - destruct e0; discriminate.
Qed.

(** A stored plan after a successful call: [updateLearningPlan] writes the
    fields it was given, [deleteLearningPlan] removes the plan it was asked
    to remove, [updateLearningPlanProgress] and [completeDailyPlan] are
    described by their own lemmas, and every other call leaves the plan as
    it is. *)
Lemma plan_after_call c db db' k p :
  perform c db = (Ok tt, db') ->
  plan_of k db = Some p ->
  match c with
  | UpdateLearningPlan id _ updateData =>
      plan_of k db'
      = Some (if Nat.eqb (LearningPlan.id p) id
              then LearningPlan.apply (LearningPlanService.data_of updateData) p else p)
  | DeleteLearningPlan id _ =>
      plan_of k db' = if Nat.eqb k id then None else Some p
  | UpdateLearningPlanProgress id _ progressData =>
      plan_of k db'
      = Some (if Nat.eqb (LearningPlan.id p) id
              then LearningPlan.apply (progress_input progressData) p else p)
  | CompleteDailyPlan _ _ =>
      exists u, plan_of k db' = Some p \/ plan_of k db' = Some (LearningPlan.apply u p)
  | _ => plan_of k db' = Some p
  end.
Proof.
  intros Hrun Hp.
  assert (Hsame : learningPlans db' = learningPlans db -> plan_of k db' = Some p).
  { unfold plan_of in *. now intros ->. }
  destruct c; cbn [perform] in Hrun; try apply drop_result_ok in Hrun as (a & Hrun).
  - apply createLearningPlan_plans in Hrun as (row & Hplans).
    unfold plan_of in *. rewrite Hplans. now apply find_app_found.
  - rewrite getLearningPlanById_cases in Hrun. apply Hsame.
    destruct (plan_of id db); [|discriminate].
    destruct (negb _); [discriminate|]. now injection Hrun as _ <-.
  - apply updateLearningPlan_plans in Hrun as (_ & _ & Hplans).
    unfold plan_of in *. now rewrite Hplans, find_plans_after_update, Hp.
  - rewrite deleteLearningPlan_cases in Hrun.
    destruct (plan_of id db) eqn:Hplan; [|discriminate].
    destruct (negb _); [discriminate|].
    unfold prisma'.learningPlan_delete in Hrun. unfold plan_of in Hplan.
    rewrite Hplan in Hrun. injection Hrun as <-. unfold plan_of in *. cbn [learningPlans].
    destruct (Nat.eqb k id) eqn:Hk.
    + apply Nat.eqb_eq in Hk. subst k. apply find_filter_excluded. now intros x ->.
    + rewrite find_filter_implied; [exact Hp|]. intros x Hx. apply Nat.eqb_eq in Hx.
      now rewrite Hx, Hk.
  - destruct (updateLearningPlanProgress_cases id userId progressData db) as (days & Hcases).
    rewrite Hcases in Hrun. destruct (plan_of id db) as [q|]; [|discriminate].
    destruct (negb _); [discriminate|].
    destruct (currentDay_out_of_range _ _); [discriminate|].
    injection Hrun as _ <-. unfold plan_of, state_after_progress in *.
    cbn [learningPlans with_learningPlans]. now rewrite find_plans_after_update, Hp.
  - rewrite getDailyPlanById_cases in Hrun. apply Hsame.
    destruct (daily_of id db) as [x|]; [|discriminate].
    destruct (prisma.include_learningPlan x db); [|discriminate].
    destruct (negb _); [discriminate|]. now injection Hrun as _ <-.
  - rewrite getLearningPlanDailyPlans_cases in Hrun. apply Hsame.
    destruct (plan_of learningPlanId db); [|discriminate].
    destruct (negb _); [discriminate|]. now injection Hrun as _ <-.
  - rewrite unlockDailyPlan_cases in Hrun. apply Hsame.
    destruct (daily_of id db) as [x|]; [|discriminate].
    destruct (prisma.include_learningPlan x db); [|discriminate].
    destruct (negb _); [discriminate|].
    destruct (previous_day_open _ _); [discriminate|].
    now injection Hrun as _ <-.
  - destruct (completeDailyPlan_ok_found _ _ _ _ _ Hrun) as (x & q & Hday & Hplan).
    destruct (completeDailyPlan_ok_inv _ _ _ _ _ _ _ Hday Hplan Hrun)
      as (_ & _ & _ & _ & ->).
    exists (plan_after_completion x q (dailyPlans db)).
    unfold plan_of, state_after_completion in *. cbn [learningPlans with_learningPlans].
    rewrite (find_map_stable _ _ _ (fun y => plan_id_apply _ _ _ y)), Hp. cbn [option_map].
    destruct (Nat.eqb (LearningPlan.id p) _); auto.
  - apply Hsame. apply assignResources_frame in Hrun as [Hframe _]. congruence.
  - rewrite addQuizToDailyPlan_cases in Hrun. apply Hsame.
    destruct (daily_of dailyPlanId db) as [x|]; [|discriminate].
    destruct (prisma.include_quiz x db); [discriminate|]. now injection Hrun as _ <-.
  - rewrite completeResource_cases in Hrun. apply Hsame.
    destruct (find _ (resources db)); [|discriminate].
    destruct (existsb _ _); [discriminate|]. now injection Hrun as <-.
Qed.



(** X26.  [updateLearningPlan] is the only call that can take [currentDay]
    past [durationDays]: after any other successful call, a stored plan
    whose current day was within its duration still has it within its
    duration. *)
Theorem currentDay_stays_bounded c db db' planId p p' :
  (forall id userId updateData, c <> UpdateLearningPlan id userId updateData) ->
  perform c db = (Ok tt, db') ->
  plan_of planId db = Some p ->
  currentDay_bounded p ->
  plan_of planId db' = Some p' ->
  currentDay_bounded p'.
Proof.
  intros Hother Hrun Hp Hbound Hp'.
  pose proof (plan_after_call _ _ _ _ _ Hrun Hp) as Hafter.
  destruct c; try (rewrite Hafter in Hp'; now injection Hp' as <-).
  - now destruct (Hother id userId updateData).
  - rewrite Hafter in Hp'. destruct (Nat.eqb planId id); [discriminate|].
    now injection Hp' as <-.
  - cbn [perform] in Hrun. apply drop_result_ok in Hrun as (a & Hrun).
    exact (updateLearningPlanProgress_keeps_bound _ _ _ _ _ _ _ _ _ Hrun Hp Hbound Hp').
  - cbn [perform] in Hrun. apply drop_result_ok in Hrun as (a & Hrun).
    exact (completeDailyPlan_keeps_bound _ _ _ _ _ _ _ _ Hrun Hp Hbound Hp').
Qed.

Lemma currentDay_stays_bounded_witness :
  exists db' p p',
    perform (CompleteDailyPlan 2 learner) two_days_first_done = (Ok tt, db')
    /\ plan_of 0 two_days_first_done = Some p
    /\ currentDay_bounded p
    /\ plan_of 0 db' = Some p'
    /\ LearningPlan.currentDay p' = 2
    /\ currentDay_bounded p'.
Proof.
  assert (Hother : forall id userId updateData,
            CompleteDailyPlan 2 learner <> UpdateLearningPlan id userId updateData)
    by discriminate.
  assert (Hbound : currentDay_bounded
                     (LearningPlan.mk 0 learner GENERIC 2 true 2 (Number.of_Z 50)))
    by (unfold currentDay_bounded; cbn; lia).
  eexists _, _, _. split; [reflexivity|]. split; [reflexivity|]. split; [exact Hbound|].
  split; [reflexivity|]. split; [reflexivity|].
  exact (currentDay_stays_bounded (CompleteDailyPlan 2 learner) two_days_first_done _ 0 _ _
           Hother eq_refl eq_refl Hbound eq_refl).
Defined.

(* ===================================================================== *)
(** ** Reading a created plan back *)



(* ===================================================================== *)
(** ** The days of a deleted plan *)

Lemma find_absent {A} (p : A -> bool) (l : list A) :
  (forall x, In x l -> p x = false) -> find p l = None.
Proof.
  induction l as [|y r IH]; cbn; intros H; [reflexivity|].
  rewrite (H y) by now left. apply IH. intros x Hx. apply H. now right.
Qed.

(** X28.  With distinct keys on the daily plans, once [deleteLearningPlan]
    has succeeded every call that addresses one of the days the plan had
    answers 404 "Daily plan not found" and changes nothing, whoever asks:
    reading, unlocking and completing the day, assigning resources to it
    and adding a quiz to it. *)
Theorem calls_on_days_of_deleted_plan id userId db db' d requester ls ps c :
  NoDup (map DailyPlan.id (dailyPlans db)) ->
  LearningPlanService'.deleteLearningPlan id userId db = (Ok tt, db') ->
  In d (days_of id db) ->
  In c [GetDailyPlanById (DailyPlan.id d) requester;
        UnlockDailyPlan (DailyPlan.id d) requester;
        CompleteDailyPlan (DailyPlan.id d) requester;
        AssignResourcesToDailyPlan (DailyPlan.id d) ls ps;
        AddQuizToDailyPlan (DailyPlan.id d)] ->
  perform c db' = (Throw (ApiError 404 "Daily plan not found"), db').
Proof.
  intros Hkeys Hrun Hin Hc.
  assert (Hgone : daily_of (DailyPlan.id d) db' = None).
  { rewrite deleteLearningPlan_cases in Hrun.
    destruct (plan_of id db) eqn:Hplan; [|discriminate].
    destruct (negb _); [discriminate|].
    unfold prisma'.learningPlan_delete in Hrun. unfold plan_of in Hplan.
    rewrite Hplan in Hrun. injection Hrun as <-. unfold daily_of. cbn [dailyPlans].
    apply filter_In in Hin as [Hin Hof].
    apply find_absent. intros x Hx. apply filter_In in Hx as [Hinx Hkept].
    apply Nat.eqb_neq. intros Hkey.
    assert (x = d) by (now apply (same_key_same_row DailyPlan.id (dailyPlans db))).
    subst x. now rewrite Hof in Hkept. }
  cbn [In] in Hc. destruct Hc as [<-|[<-|[<-|[<-|[<-|[]]]]]]; cbn [perform]; unfold bind at 1.
  - now rewrite getDailyPlanById_cases, Hgone.
  - now rewrite unlockDailyPlan_cases, Hgone.
  - now rewrite completeDailyPlan_cases, Hgone.
  - unfold DailyPlanService'.assignResourcesToDailyPlan, rethrow, bind at 1,
      prisma.dailyPlan_findUnique. unfold daily_of in Hgone. now rewrite Hgone.
  - now rewrite addQuizToDailyPlan_cases, Hgone.
Qed.

Lemma calls_on_days_of_deleted_plan_witness :
  exists db',
    NoDup (map DailyPlan.id (dailyPlans two_days))
    /\ LearningPlanService'.deleteLearningPlan 0 learner two_days = (Ok tt, db')
    /\ In (DailyPlan.mk 2 0 2 false false None) (days_of 0 two_days)
    /\ perform (AddQuizToDailyPlan 2) db'
       = (Throw (ApiError 404 "Daily plan not found"), db').
Proof.
  assert (Hkeys : NoDup (map DailyPlan.id (dailyPlans two_days))) by distinct.
  assert (Hin : In (DailyPlan.mk 2 0 2 false false None) (days_of 0 two_days))
    by (right; now left).
  eexists. split; [exact Hkeys|]. split; [reflexivity|]. split; [exact Hin|].
  refine (calls_on_days_of_deleted_plan 0 learner two_days _
            (DailyPlan.mk 2 0 2 false false None) learner [] [] (AddQuizToDailyPlan 2)
            Hkeys eq_refl Hin _).
  cbn. tauto.
Defined.
